(** * NSS-MAMOC portal: the App component (session, routing, data handlers)

    A shallow embedding of [App.tsx] (the top-level React component) and of
    the parts of [types/index.ts] and [services/api.ts] it relies on.

    Conventions of the embedding:
    - every [useState] hook is a field of the record [State], and its setter
      keeps the React name ([setPrograms], [setIsLoggedIn], ...);
    - the [useRef] cell [logoutTimerRef] is a field as well;
    - the browser is part of the state: a clock, the table of pending
      [setTimeout] handles, and a trace of the observable effects
      ([alert], [setTimeout], [clearTimeout], requests to the backend);
    - an [await]ed backend call is represented by its outcome, handed to
      the handler as an argument: [Resolved v] or [Rejected e];
    - a handler is a function [State -> State]; values read from the
      closure of the handler (as opposed to the [prev] argument of a
      functional update) are read from the state at handler entry;
    - the plain object that [studentReports] holds as a map is given by
      its own properties and its prototype (module [Reports]), since the
      handlers read it with [reports[id]], which also finds what the
      object inherits;
    - values from the backend are typed as [services/api.ts] declares
      them, but where the code inspects them without relying on the
      declared type: the body of a failed response (any JSON value) and
      the answer to the request for the student reports (any value on
      which [forEach] is called);
    - an exception thrown by the updater of a functional state update is
      raised while React renders; it is recorded in [render_error]. *)

From stdpp Require Import gmap strings list fin_maps pretty.
From Stdlib Require Import ZArith Lia Ascii.

Local Open Scope Z_scope.

(** ** JavaScript values used by the component *)

Module JS.

(** What a rejected promise / [catch] clause carries: an [Error] object
    with its [message], or any other thrown value. *)
Inductive Thrown :=
| ErrorObject (message : string)
| OtherValue.

(** Outcome of an awaited promise. *)
Inductive Outcome (A : Type) :=
| Resolved (v : A)
| Rejected (e : Thrown).
Global Arguments Resolved {A} v.
Global Arguments Rejected {A} e.

(** Truthiness of a string: every string but the empty one. *)
Definition truthy (s : string) : bool := negb (String.eqb s "").

(** Truthiness of a possibly [undefined]/[null] string. *)
Definition truthy_opt (o : option string) : bool :=
  match o with Some s => truthy s | None => false end.

(** [a || b] where [a] may be [undefined] and [b] is a string. *)
Definition or_else (a : option string) (b : string) : string :=
  match a with
  | Some s => if truthy s then s else b
  | None => b
  end.

(** [s.split('T')[0]]: the part of [s] before the first ['T']. *)
Fixpoint split_T_head (s : string) : string :=
  match s with
  | EmptyString => EmptyString
  | String c rest =>
      if Ascii.eqb c "T"%char then EmptyString else String c (split_T_head rest)
  end.

(** [Array.prototype.find]. *)
Fixpoint find {A} (p : A -> bool) (l : list A) : option A :=
  match l with
  | [] => None
  | x :: rest => if p x then Some x else find p rest
  end.

(** A value parsed from JSON, as far as the code observes it: by its
    truthiness and by its conversion to a string.  A number is given by
    whether it is zero and by its text ([Number.prototype.toString]).  An
    object converts to ["[object Object]"], unless it has a member named
    [toString]: no member parsed from JSON is a function, so the
    conversion then throws a [TypeError], whose message [unconvertible]
    carries. *)
Inductive Json :=
| JNull
| JBool (b : bool)
| JNumber (zero : bool) (text : string)
| JString (s : string)
| JArray (items : list Json)
| JObject (unconvertible : option string).

(** [ToBoolean]. *)
Definition to_boolean (v : Json) : bool :=
  match v with
  | JNull => false
  | JBool b => b
  | JNumber zero _ => negb zero
  | JString s => truthy s
  | JArray _ | JObject _ => true
  end.

(** [ToString]; [Rejected] when the conversion throws.  An array is
    converted by [join]: its items converted in order, [null] items as
    the empty string, with commas in between. *)
Fixpoint to_string (v : Json) : Outcome string :=
  match v with
  | JNull => Resolved "null"
  | JBool b => Resolved (if b then "true" else "false")
  | JNumber _ text => Resolved text
  | JString s => Resolved s
  | JArray items =>
      (fix join (separator : string) (items : list Json) : Outcome string :=
         match items with
         | [] => Resolved ""
         | item :: rest =>
             match (match item with JNull => Resolved "" | _ => to_string item end) with
             | Rejected e => Rejected e
             | Resolved first =>
                 match join "," rest with
                 | Rejected e => Rejected e
                 | Resolved others => Resolved (separator +:+ first +:+ others)
                 end
             end
         end) "" items
  | JObject None => Resolved "[object Object]"
  | JObject (Some message) => Rejected (ErrorObject message)
  end.

(** [a || b] where the member [a] may be missing. *)
Definition or_value (a : option Json) (b : Json) : Json :=
  match a with
  | Some v => if to_boolean v then v else b
  | None => b
  end.

(** The names every object inherits from [Object.prototype]: functions,
    but for [__proto__], which reads and replaces the prototype. *)
Definition Object_prototype : list string :=
  ["constructor"; "__defineGetter__"; "__defineSetter__"; "hasOwnProperty";
   "__lookupGetter__"; "__lookupSetter__"; "isPrototypeOf";
   "propertyIsEnumerable"; "toString"; "valueOf"; "__proto__";
   "toLocaleString"].

End JS.
Export JS.

(** ** Domain records ([types/index.ts]) *)

Module Student.
Record t := mk {
  id : string; name : string; rollNumber : string; email : string;
  year : string; department : string; programId : string }.
End Student.

Module Program.
Record t := mk {
  id : string;
  title : string;
  description : option string;
  type : string;
  startDate : string;
  endDate : string;
  maxParticipants : Z;
  registrationOpen : bool;
  department : string;
  coordinator : string;
  participantIds : option (list string);
  createdAt : string;
  date : option string;
  time : option string;
  venue : option string;
  coordinatorIds : option (list string);
  updatedAt : option string;
  students : option (list Student.t) }.

(** [{ ...program, participantIds: ids }] *)
Definition with_participantIds (ids : option (list string)) (p : t) : t :=
  mk (id p) (title p) (description p) (type p) (startDate p) (endDate p)
     (maxParticipants p) (registrationOpen p) (department p) (coordinator p)
     ids (createdAt p) (date p) (time p) (venue p) (coordinatorIds p)
     (updatedAt p) (students p).

(** [{ ...program, participantIds: ids, updatedAt: ts }] *)
Definition with_participantIds_updatedAt
    (ids : option (list string)) (ts : string) (p : t) : t :=
  mk (id p) (title p) (description p) (type p) (startDate p) (endDate p)
     (maxParticipants p) (registrationOpen p) (department p) (coordinator p)
     ids (createdAt p) (date p) (time p) (venue p) (coordinatorIds p)
     (Some ts) (students p).
End Program.

(** [Omit<Program, 'id' | 'createdAt' | 'updatedAt'>] *)
Module ProgramData.
Record t := mk {
  title : string;
  description : option string;
  type : string;
  startDate : string;
  endDate : string;
  maxParticipants : Z;
  registrationOpen : bool;
  department : string;
  coordinator : string;
  participantIds : option (list string);
  date : option string;
  time : option string;
  venue : option string;
  coordinatorIds : option (list string);
  students : option (list Student.t) }.
End ProgramData.

Module RegisteredStudent.
Record t := mk {
  id : string;
  name : string;
  email : string;
  phone : string;
  department : string;
  year : string;
  enrollmentNumber : string;
  password : option string;
  createdAt : string;
  profileImageUrl : option string }.

(** [{ ...student, department: d }] *)
Definition with_department (d : string) (s : t) : t :=
  mk (id s) (name s) (email s) (phone s) d (year s) (enrollmentNumber s)
     (password s) (createdAt s) (profileImageUrl s).
End RegisteredStudent.

Module Coordinator.
Record t := mk {
  id : string;
  name : string;
  email : string;
  phone : string;
  department : string;
  position : string;
  password : option string;
  isActive : bool;
  createdAt : string }.

(** [{ ...coordinator, isActive: b }] *)
Definition with_isActive (b : bool) (c : t) : t :=
  mk (id c) (name c) (email c) (phone c) (department c) (position c)
     (password c) b (createdAt c).
End Coordinator.

Module Department.
Record t := mk {
  id : string; name : string; isActive : bool; createdAt : string }.
End Department.

Inductive Badge := green | yellow.

Module StudentExtraActivity.
Record t := mk {
  id : string; badge : Badge; title : string; content : string;
  createdAt : string }.
End StudentExtraActivity.

Module CoordinatedProgram.
Record t := mk {
  id : string; title : string; description : string; date : string;
  time : string; venue : string; createdAt : string }.
End CoordinatedProgram.

Module StudentReport.
(** A report object as it exists at run time.  The type declares both
    members as arrays; [activities] is missing ([None]) on the object that
    [handleEditProgram] writes under a key the report map only inherits. *)
Record t := object {
  activities : option (list StudentExtraActivity.t);
  coordinatedPrograms : list CoordinatedProgram.t }.

(** A report as the type declares it. *)
Definition mk (activities : list StudentExtraActivity.t)
    (coordinatedPrograms : list CoordinatedProgram.t) : t :=
  object (Some activities) coordinatedPrograms.

(** [{ ...report, coordinatedPrograms: cps }] *)
Definition with_coordinatedPrograms (cps : list CoordinatedProgram.t) (r : t) : t :=
  object (activities r) cps.
End StudentReport.

(** ** The object held by the [studentReports] hook

    The hook holds a plain object used as a map from student ids to
    reports.  Reading [reports[key]] looks the key up among the own
    properties and then along the prototype chain, so that a key naming a
    member of [Object.prototype] yields that member when no own property
    has the name; assigning under the key [__proto__] replaces the
    prototype of the object instead of adding a property. *)
Module Reports.

Record t := mk {
  own : gmap string StudentReport.t;
  (* the report object the prototype was replaced by; [None] for
     [Object.prototype] *)
  prototype : option StudentReport.t }.

(** [{}] *)
Definition empty : t := mk ∅ None.

(** What [reports[key]] evaluates to: a report object, [undefined], or a
    truthy value that is no report (a function or the object
    [Object.prototype], or an array inherited from a report that became
    the prototype), on which both [activities] and [coordinatedPrograms]
    read as [undefined]. *)
Inductive Read :=
| Report (r : StudentReport.t)
| Foreign
| Undefined.

(** The names of the members a report object has. *)
Definition members (r : StudentReport.t) : list string :=
  match StudentReport.activities r with
  | Some _ => ["activities"; "coordinatedPrograms"]
  | None => ["coordinatedPrograms"]
  end.

(** The names the object inherits. *)
Definition inherited (o : t) (key : string) : bool :=
  bool_decide (key ∈ Object_prototype)
  || match prototype o with
     | Some r => bool_decide (key ∈ members r)
     | None => false
     end.

(** [o[key]] *)
Definition get (o : t) (key : string) : Read :=
  match own o !! key with
  | Some r => Report r
  | None =>
      if String.eqb key "__proto__" then
        match prototype o with
        | Some r => Report r
        | None => Foreign
        end
      else if inherited o key then Foreign
      else Undefined
  end.

(** [o[key] = r] *)
Definition set (key : string) (r : StudentReport.t) (o : t) : t :=
  match own o !! key with
  | Some _ => mk (<[ key := r ]> (own o)) (prototype o)
  | None =>
      if String.eqb key "__proto__" then mk (own o) (Some r)
      else mk (<[ key := r ]> (own o)) (prototype o)
  end.

(** [{ ...o }]: the own properties, under [Object.prototype]. *)
Definition copy (o : t) : t := mk (own o) None.

(** [{ ...o, [key]: r }]: a computed key always names an own property. *)
Definition with_member (key : string) (r : StudentReport.t) (o : t) : t :=
  mk (<[ key := r ]> (own o)) None.

(** [delete o[key]] *)
Definition remove (key : string) (o : t) : t :=
  mk (delete key (own o)) (prototype o).

End Reports.

(** Wire records of [services/api.ts] that reach the component. *)
Module OfficerApiResponse.
Record t := mk {
  id : string; username : string; name : string; email : string;
  role : string; isActive : bool; createdAt : string }.
End OfficerApiResponse.

Module StudentReportApiResponse.
Record t := mk {
  id : string; studentId : string; studentName : string;
  department : string; year : string;
  activities : option (list StudentExtraActivity.t);
  coordinatedPrograms : option (list CoordinatedProgram.t);
  createdAt : string; updatedAt : string }.
End StudentReportApiResponse.

(** The [{ success, officer? }]-shaped answers of the three login
    endpoints: [success] and the optional identity record. *)
Record LoginResult (A : Type) := mkLoginResult {
  success : bool;
  identity : option A }.
Arguments mkLoginResult {A} success identity.
Arguments success {A} _.
Arguments identity {A} _.

(** ** Component state *)

(** The view tags and the user types are string literals in the source;
    each enumeration lives in a module of its own so that both keep the
    source's spelling. *)
Module View.
Inductive ViewTag := home | programs | login | student | coordinator | officer.
End View.
Abbreviation ViewTag := View.ViewTag.

Module Role.
Inductive t := student | coordinator | officer.
End Role.
Abbreviation Role := Role.t.

(** The [data] member of [currentUser]. *)
Inductive UserData :=
| StudentData (s : RegisteredStudent.t)
| CoordinatorData (c : Coordinator.t)
| OfficerData (o : OfficerApiResponse.t)
| FallbackOfficerData (id name : string) (role : string).

Module CurrentUser.
Record t := mk { type : Role; data : UserData }.
End CurrentUser.

(** An entry of the built-in [officerCredentials] table. *)
Module OfficerCred.
Record t := mk {
  id : string; username : string; password : string; role : string }.

(** [{ ...oc, password: p }] *)
Definition with_password (p : string) (oc : t) : t :=
  mk (id oc) (username oc) p (role oc).
End OfficerCred.

(** Requests the component sends to the backend, one constructor per
    method of [services/api.ts] that [App] calls. *)
Inductive Request :=
| health_check
| programs_getAll | students_getAll | coordinators_getAll | departments_getAll
| studentReports_getAll
| officers_login (id password : string)
| coordinators_login (id password : string)
| students_login (id password : string)
| programs_create | programs_update (id : string) | programs_delete (id : string)
| students_create | students_update (id : string) | students_delete (id : string)
| coordinators_create | coordinators_update (id : string)
| coordinators_delete (id : string)
| departments_create (name : string) | departments_update (id name : string)
| studentReports_update (studentId : string)
| studentReports_delete (studentId : string).

(** Observable effects, in the order they happen. *)
Inductive Effect :=
| Alert (msg : string)
| Call (r : Request)
| SetTimeout (handle : positive) (ms : Z)
| ClearTimeout (handle : positive).

(** State of the running component.  Timer handles are positive numbers,
    as returned by the browser's [setTimeout], hence always truthy. *)
Record State := mkState {
  (* useState hooks *)
  currentView : ViewTag;
  programs : list Program.t;
  registeredStudents : list RegisteredStudent.t;
  coordinators : list Coordinator.t;
  departments : list Department.t;
  (* the own properties of the object [studentReports] holds, and the
     report its prototype was replaced by, if any *)
  studentReports : gmap string StudentReport.t;
  studentReports_prototype : option StudentReport.t;
  isLoading : bool;
  loadingError : option string;
  isLoggedIn : bool;
  currentUser : option CurrentUser.t;
  officerCredentials : list OfficerCred.t;
  (* useRef *)
  logoutTimerRef : option positive;
  (* React: the value of [isLoggedIn] seen by the last committed render;
     the activity listeners are attached exactly when it is [true] and
     their closure captured that value *)
  rendered_isLoggedIn : bool;
  (* browser *)
  now : Z;
  timers : gmap positive Z;
  next_handle : positive;
  (* React: a state updater threw while the component was rendered *)
  render_error : bool;
  trace : list Effect }.

(** ** Setters: one per hook, named as in the component *)

Definition setCurrentView (v : ViewTag) (s : State) : State :=
  mkState v (programs s) (registeredStudents s) (coordinators s)
    (departments s) (studentReports s) (studentReports_prototype s)
    (isLoading s) (loadingError s)
    (isLoggedIn s) (currentUser s) (officerCredentials s) (logoutTimerRef s)
    (rendered_isLoggedIn s) (now s) (timers s) (next_handle s)
    (render_error s) (trace s).

Definition setPrograms (f : list Program.t -> list Program.t) (s : State) : State :=
  mkState (currentView s) (f (programs s)) (registeredStudents s) (coordinators s)
    (departments s) (studentReports s) (studentReports_prototype s)
    (isLoading s) (loadingError s)
    (isLoggedIn s) (currentUser s) (officerCredentials s) (logoutTimerRef s)
    (rendered_isLoggedIn s) (now s) (timers s) (next_handle s)
    (render_error s) (trace s).

Definition setRegisteredStudents
    (f : list RegisteredStudent.t -> list RegisteredStudent.t) (s : State) : State :=
  mkState (currentView s) (programs s) (f (registeredStudents s)) (coordinators s)
    (departments s) (studentReports s) (studentReports_prototype s)
    (isLoading s) (loadingError s)
    (isLoggedIn s) (currentUser s) (officerCredentials s) (logoutTimerRef s)
    (rendered_isLoggedIn s) (now s) (timers s) (next_handle s)
    (render_error s) (trace s).

Definition setCoordinators
    (f : list Coordinator.t -> list Coordinator.t) (s : State) : State :=
  mkState (currentView s) (programs s) (registeredStudents s) (f (coordinators s))
    (departments s) (studentReports s) (studentReports_prototype s)
    (isLoading s) (loadingError s)
    (isLoggedIn s) (currentUser s) (officerCredentials s) (logoutTimerRef s)
    (rendered_isLoggedIn s) (now s) (timers s) (next_handle s)
    (render_error s) (trace s).

Definition setDepartments
    (f : list Department.t -> list Department.t) (s : State) : State :=
  mkState (currentView s) (programs s) (registeredStudents s) (coordinators s)
    (f (departments s)) (studentReports s) (studentReports_prototype s)
    (isLoading s) (loadingError s)
    (isLoggedIn s) (currentUser s) (officerCredentials s) (logoutTimerRef s)
    (rendered_isLoggedIn s) (now s) (timers s) (next_handle s)
    (render_error s) (trace s).

(** [setStudentReports] on the own properties of the object. *)
Definition setStudentReports
    (f : gmap string StudentReport.t -> gmap string StudentReport.t)
    (s : State) : State :=
  mkState (currentView s) (programs s) (registeredStudents s) (coordinators s)
    (departments s) (f (studentReports s)) (studentReports_prototype s)
    (isLoading s) (loadingError s)
    (isLoggedIn s) (currentUser s) (officerCredentials s) (logoutTimerRef s)
    (rendered_isLoggedIn s) (now s) (timers s) (next_handle s)
    (render_error s) (trace s).

(** The prototype of the object [studentReports] holds. *)
Definition set_studentReports_prototype (r : option StudentReport.t)
    (s : State) : State :=
  mkState (currentView s) (programs s) (registeredStudents s) (coordinators s)
    (departments s) (studentReports s) r
    (isLoading s) (loadingError s)
    (isLoggedIn s) (currentUser s) (officerCredentials s) (logoutTimerRef s)
    (rendered_isLoggedIn s) (now s) (timers s) (next_handle s)
    (render_error s) (trace s).

(** The object [studentReports] holds. *)
Definition studentReports_object (s : State) : Reports.t :=
  Reports.mk (studentReports s) (studentReports_prototype s).

(** [setStudentReports(o)] for an object [o]. *)
Definition setStudentReports_object (o : Reports.t) (s : State) : State :=
  set_studentReports_prototype (Reports.prototype o)
    (setStudentReports (fun _ => Reports.own o) s).

(** A setter called with an updater only queues it: React runs the
    updater when it next renders the component, so an exception thrown by
    the updater does not reach the [catch] of the handler that called the
    setter.  It leaves the render instead; [main.tsx] mounts [App] with
    [createRoot] and without an error boundary, so React unmounts the
    tree and commits none of the updates of that render.  The record
    keeps the state last committed. *)
Definition render_throws (s : State) : State :=
  mkState (currentView s) (programs s) (registeredStudents s) (coordinators s)
    (departments s) (studentReports s) (studentReports_prototype s)
    (isLoading s) (loadingError s)
    (isLoggedIn s) (currentUser s) (officerCredentials s) (logoutTimerRef s)
    (rendered_isLoggedIn s) (now s) (timers s) (next_handle s)
    true (trace s).

Definition setIsLoading (b : bool) (s : State) : State :=
  mkState (currentView s) (programs s) (registeredStudents s) (coordinators s)
    (departments s) (studentReports s) (studentReports_prototype s) b
    (loadingError s)
    (isLoggedIn s) (currentUser s) (officerCredentials s) (logoutTimerRef s)
    (rendered_isLoggedIn s) (now s) (timers s) (next_handle s)
    (render_error s) (trace s).

Definition setLoadingError (e : option string) (s : State) : State :=
  mkState (currentView s) (programs s) (registeredStudents s) (coordinators s)
    (departments s) (studentReports s) (studentReports_prototype s)
    (isLoading s) e
    (isLoggedIn s) (currentUser s) (officerCredentials s) (logoutTimerRef s)
    (rendered_isLoggedIn s) (now s) (timers s) (next_handle s)
    (render_error s) (trace s).

Definition setIsLoggedIn (b : bool) (s : State) : State :=
  mkState (currentView s) (programs s) (registeredStudents s) (coordinators s)
    (departments s) (studentReports s) (studentReports_prototype s)
    (isLoading s) (loadingError s)
    b (currentUser s) (officerCredentials s) (logoutTimerRef s)
    (rendered_isLoggedIn s) (now s) (timers s) (next_handle s)
    (render_error s) (trace s).

Definition setCurrentUser (u : option CurrentUser.t) (s : State) : State :=
  mkState (currentView s) (programs s) (registeredStudents s) (coordinators s)
    (departments s) (studentReports s) (studentReports_prototype s)
    (isLoading s) (loadingError s)
    (isLoggedIn s) u (officerCredentials s) (logoutTimerRef s)
    (rendered_isLoggedIn s) (now s) (timers s) (next_handle s)
    (render_error s) (trace s).

Definition setOfficerCredentials
    (f : list OfficerCred.t -> list OfficerCred.t) (s : State) : State :=
  mkState (currentView s) (programs s) (registeredStudents s) (coordinators s)
    (departments s) (studentReports s) (studentReports_prototype s)
    (isLoading s) (loadingError s)
    (isLoggedIn s) (currentUser s) (f (officerCredentials s)) (logoutTimerRef s)
    (rendered_isLoggedIn s) (now s) (timers s) (next_handle s)
    (render_error s) (trace s).

(** [logoutTimerRef.current = r] *)
Definition set_logoutTimerRef (r : option positive) (s : State) : State :=
  mkState (currentView s) (programs s) (registeredStudents s) (coordinators s)
    (departments s) (studentReports s) (studentReports_prototype s)
    (isLoading s) (loadingError s)
    (isLoggedIn s) (currentUser s) (officerCredentials s) r
    (rendered_isLoggedIn s) (now s) (timers s) (next_handle s)
    (render_error s) (trace s).

Definition set_rendered_isLoggedIn (b : bool) (s : State) : State :=
  mkState (currentView s) (programs s) (registeredStudents s) (coordinators s)
    (departments s) (studentReports s) (studentReports_prototype s)
    (isLoading s) (loadingError s)
    (isLoggedIn s) (currentUser s) (officerCredentials s) (logoutTimerRef s)
    b (now s) (timers s) (next_handle s) (render_error s) (trace s).

(** ** Browser primitives *)

Definition emit (e : Effect) (s : State) : State :=
  mkState (currentView s) (programs s) (registeredStudents s) (coordinators s)
    (departments s) (studentReports s) (studentReports_prototype s)
    (isLoading s) (loadingError s)
    (isLoggedIn s) (currentUser s) (officerCredentials s) (logoutTimerRef s)
    (rendered_isLoggedIn s) (now s) (timers s) (next_handle s)
    (render_error s) (trace s ++ [e]).

(** [alert(msg)] *)
Definition alert (msg : string) : State -> State := emit (Alert msg).

(** Sending a request to the backend. *)
Definition call (r : Request) : State -> State := emit (Call r).

(** [setTimeout(callback, ms)]: registers a timer due at [now + ms] under a
    fresh handle and returns the handle.  The only callback ever
    registered by the component is [() => handleAutoLogout()]. *)
Definition setTimeout (ms : Z) (s : State) : positive * State :=
  let h := next_handle s in
  (h,
   mkState (currentView s) (programs s) (registeredStudents s) (coordinators s)
     (departments s) (studentReports s) (studentReports_prototype s)
    (isLoading s) (loadingError s)
     (isLoggedIn s) (currentUser s) (officerCredentials s) (logoutTimerRef s)
     (rendered_isLoggedIn s) (now s) (<[h := now s + ms]> (timers s))
     (Pos.succ h) (render_error s) (trace s ++ [SetTimeout h ms])).

(** [clearTimeout(h)]: cancels the timer if it is still pending, and does
    nothing otherwise. *)
Definition clearTimeout (h : positive) (s : State) : State :=
  mkState (currentView s) (programs s) (registeredStudents s) (coordinators s)
    (departments s) (studentReports s) (studentReports_prototype s)
    (isLoading s) (loadingError s)
    (isLoggedIn s) (currentUser s) (officerCredentials s) (logoutTimerRef s)
    (rendered_isLoggedIn s) (now s) (delete h (timers s))
    (next_handle s) (render_error s) (trace s ++ [ClearTimeout h]).

(** The passage of [d] milliseconds. *)
Definition elapse (d : Z) (s : State) : State :=
  mkState (currentView s) (programs s) (registeredStudents s) (coordinators s)
    (departments s) (studentReports s) (studentReports_prototype s)
    (isLoading s) (loadingError s)
    (isLoggedIn s) (currentUser s) (officerCredentials s) (logoutTimerRef s)
    (rendered_isLoggedIn s) (now s + d) (timers s) (next_handle s)
    (render_error s) (trace s).

(** The browser takes a due timer out of the table when it runs its
    callback. *)
Definition timer_fired (h : positive) (s : State) : State :=
  mkState (currentView s) (programs s) (registeredStudents s) (coordinators s)
    (departments s) (studentReports s) (studentReports_prototype s)
    (isLoading s) (loadingError s)
    (isLoggedIn s) (currentUser s) (officerCredentials s) (logoutTimerRef s)
    (rendered_isLoggedIn s) (now s) (delete h (timers s))
    (next_handle s) (render_error s) (trace s).

(** The component as first mounted: the [useState] initial values, an
    empty ref, no timer, nothing observed yet. *)
Definition initial_officerCredentials : list OfficerCred.t :=
  [ OfficerCred.mk "OFFICER001" "OFFICER001" "NSS@OFFICER2025" "super admin";
    OfficerCred.mk "officer001" "officer001" "nss@mamo" "super admin" ].

Definition initial_state : State :=
  mkState View.home [] [] [] [] ∅ None true None false None
    initial_officerCredentials None false 0 ∅ 1%positive false [].

(** ** Session and inactivity monitor *)

(** [30 * 60 * 1000], in milliseconds. *)
Definition INACTIVITY_TIMEOUT : Z := 30 * 60 * 1000.

Definition auto_logout_message : string :=
  "You have been automatically logged out due to inactivity (30 minutes).".

Definition handleLogout (s : State) : State :=
  let s := setIsLoggedIn false s in
  let s := setCurrentUser None s in
  let s := setCurrentView View.home s in
  (* Clear the logout timer *)
  match logoutTimerRef s with
  | Some h => set_logoutTimerRef None (clearTimeout h s)
  | None => s
  end.

Definition handleAutoLogout (s : State) : State :=
  let s := alert auto_logout_message s in
  handleLogout s.

(** [resetLogoutTimer], with the value of [isLoggedIn] its closure
    captured. *)
Definition resetLogoutTimer (closure_isLoggedIn : bool) (s : State) : State :=
  let s :=
    match logoutTimerRef s with
    | Some h => clearTimeout h s
    | None => s
    end in
  if closure_isLoggedIn then
    let '(h, s) := setTimeout INACTIVITY_TIMEOUT s in
    set_logoutTimerRef (Some h) s
  else s.

(** The six DOM events the component listens to while logged in. *)
Inductive ActivityEvent :=
| mousedown | mousemove | keypress | scroll | touchstart | click.

(** [handleUserActivity], the listener registered for every
    [ActivityEvent]; it belongs to a render in which [isLoggedIn] is true. *)
Definition handleUserActivity (ev : ActivityEvent) (s : State) : State :=
  resetLogoutTimer true s.

(** Body of the effect [useEffect(..., [isLoggedIn, resetLogoutTimer])],
    run for a render whose [isLoggedIn] is [b].  Attaching the listeners
    is recorded in [rendered_isLoggedIn]. *)
Definition activity_effect (b : bool) (s : State) : State :=
  let s := set_rendered_isLoggedIn b s in
  if b then resetLogoutTimer b s
  else
    (* Clear timer when not logged in *)
    match logoutTimerRef s with
    | Some h => set_logoutTimerRef None (clearTimeout h s)
    | None => s
    end.

(** Cleanup function returned by the effect of a logged-in render: the
    listeners are removed and the pending timer is cleared (the ref keeps
    the stale handle). *)
Definition activity_cleanup (s : State) : State :=
  match logoutTimerRef s with
  | Some h => clearTimeout h s
  | None => s
  end.

(** React commits a render of the mounted component (unmounting, and
    the cleanup effect that goes with it, is not part of the model).  The effect depends on [isLoggedIn] only
    ([resetLogoutTimer] changes exactly when [isLoggedIn] does), so it is
    re-run, after the cleanup of the previous run, when that value differs
    from the one of the last commit. *)
Definition commit (s : State) : State :=
  if Bool.eqb (isLoggedIn s) (rendered_isLoggedIn s) then s
  else
    let s := if rendered_isLoggedIn s then activity_cleanup s else s in
    activity_effect (isLoggedIn s) s.

(** *** Login *)

Module Credentials.
Record t := mk { id : string; password : string }.
End Credentials.

(** The predicate given to [officerCredentials.find]. *)
Definition fallback_matches (credentials : Credentials.t) (oc : OfficerCred.t) : bool :=
  (String.eqb (Credentials.id credentials) (OfficerCred.id oc)
   || String.eqb (Credentials.id credentials) (OfficerCred.username oc))
  && String.eqb (Credentials.password credentials) (OfficerCred.password oc).

(** [result.success && result.<identity>] *)
Definition positive_match {A} (r : LoginResult A) : option A :=
  if success r then identity r else None.

(** Officer path: the answer of the endpoint, or, when the call throws,
    the built-in fallback table. *)
Definition officer_path (credentials : Credentials.t)
    (officerResult : Outcome (LoginResult OfficerApiResponse.t))
    (table : list OfficerCred.t) : option UserData :=
  match officerResult with
  | Resolved r => OfficerData <$> positive_match r
  | Rejected _ =>
      match JS.find (fallback_matches credentials) table with
      | Some matchingOfficer =>
          Some (FallbackOfficerData (OfficerCred.id matchingOfficer)
                  "Program Officer" (OfficerCred.role matchingOfficer))
      | None => None
      end
  end.

Definition coordinator_path
    (coordinatorResult : Outcome (LoginResult Coordinator.t)) : option UserData :=
  match coordinatorResult with
  | Resolved r => CoordinatorData <$> positive_match r
  | Rejected _ => None
  end.

Definition student_path
    (studentResult : Outcome (LoginResult RegisteredStudent.t)) : option UserData :=
  match studentResult with
  | Resolved r => StudentData <$> positive_match r
  | Rejected _ => None
  end.

(** The three state updates every successful path performs. *)
Definition log_in (r : Role) (d : UserData) (v : ViewTag) (s : State) : State :=
  let s := setCurrentUser (Some (CurrentUser.mk r d)) s in
  let s := setIsLoggedIn true s in
  setCurrentView v s.

(** [handleLogin(credentials)]; the three outcomes are what the login
    endpoints answer for these credentials, should they be asked.  Every
    [await] sits in a [try]/[catch] of its own, so the outer [catch]
    ("Login failed. Please try again.") is never entered. *)
Definition handleLogin (credentials : Credentials.t)
    (officerResult : Outcome (LoginResult OfficerApiResponse.t))
    (coordinatorResult : Outcome (LoginResult Coordinator.t))
    (studentResult : Outcome (LoginResult RegisteredStudent.t))
    (s0 : State) : State :=
  let id := Credentials.id credentials in
  let password := Credentials.password credentials in
  (* Try Officer login first *)
  let s := call (officers_login id password) s0 in
  match officer_path credentials officerResult (officerCredentials s0) with
  | Some d => log_in Role.officer d View.officer s
  | None =>
      (* Try Coordinator login *)
      let s := call (coordinators_login id password) s in
      match coordinator_path coordinatorResult with
      | Some d => log_in Role.coordinator d View.coordinator s
      | None =>
          (* Try Student login *)
          let s := call (students_login id password) s in
          match student_path studentResult with
          | Some d => log_in Role.student d View.student s
          | None => alert "Invalid credentials" s
          end
      end
  end.

(** ** View router *)

(** The component a render selects (props omitted). *)
Inductive Panel :=
| HomePage | ProgramsPage | LoginPage
| StudentPortal | TeacherPortal | ProgramOfficerPortal.

(** [currentUser?.type === r] *)
Definition user_type_is (r : Role) (u : option CurrentUser.t) : bool :=
  match u with
  | Some cu =>
      match CurrentUser.type cu, r with
      | Role.student, Role.student
      | Role.coordinator, Role.coordinator
      | Role.officer, Role.officer => true
      | _, _ => false
      end
  | None => false
  end.

Definition renderCurrentView (s : State) : Panel :=
  match currentView s with
  | View.home => HomePage
  | View.programs => ProgramsPage
  | View.login => LoginPage
  | View.student =>
      if isLoggedIn s && user_type_is Role.student (currentUser s)
      then StudentPortal else LoginPage
  | View.coordinator =>
      if isLoggedIn s && (user_type_is Role.coordinator (currentUser s)
                          || user_type_is Role.officer (currentUser s))
      then TeacherPortal else LoginPage
  | View.officer =>
      if isLoggedIn s && user_type_is Role.officer (currentUser s)
      then ProgramOfficerPortal else LoginPage
  end.

(** What [App] returns: the loading screen, the connection-error screen,
    or the header with the routed panel. *)
Inductive Screen :=
| LoadingScreen
| ConnectionErrorScreen (message : string)
| Page (p : Panel).

Definition App_render (s : State) : Screen :=
  if isLoading s then LoadingScreen
  else
    match loadingError s with
    | Some msg => if truthy msg then ConnectionErrorScreen msg
                  else Page (renderCurrentView s)
    | None => Page (renderCurrentView s)
    end.

(** ** Initial data load *)

(** The four fetches handed to [Promise.all]. *)
Inductive Fetch :=
| fetch_programs | fetch_students | fetch_coordinators | fetch_departments.

Definition all_fetches : list Fetch :=
  [fetch_programs; fetch_students; fetch_coordinators; fetch_departments].

Definition rejection {A} (o : Outcome A) : option Thrown :=
  match o with
  | Resolved _ => None
  | Rejected e => Some e
  end.

Section PromiseAll.
Context {A B C D : Type}.
Variables (pa : Outcome A) (pb : Outcome B) (pc : Outcome C) (pd : Outcome D).

Definition rejection_of (f : Fetch) : option Thrown :=
  match f with
  | fetch_programs => rejection pa
  | fetch_students => rejection pb
  | fetch_coordinators => rejection pc
  | fetch_departments => rejection pd
  end.

(** The first rejection met when the promises settle in the order
    [order]. *)
Fixpoint first_rejection (order : list Fetch) : option Thrown :=
  match order with
  | [] => None
  | f :: rest =>
      match rejection_of f with
      | Some e => Some e
      | None => first_rejection rest
      end
  end.

(** [Promise.all([pa, pb, pc, pd])]: rejects with the reason of the
    promise that rejects first, and resolves with the four values when
    all four resolve.  [settle_order] is the order in which the promises
    happen to settle. *)
Definition Promise_all (settle_order : list Fetch) : Outcome (A * B * C * D) :=
  match first_rejection (settle_order ++ all_fetches) with
  | Some e => Rejected e
  | None =>
      match pa, pb, pc, pd with
      | Resolved a, Resolved b, Resolved c, Resolved d => Resolved (a, b, c, d)
      | _, _, _, _ => Rejected OtherValue
      end
  end.
End PromiseAll.

(** [error instanceof Error ? error.message : 'Failed to connect to server'] *)
Definition load_error_message (e : Thrown) : string :=
  match e with
  | ErrorObject message => message
  | OtherValue => "Failed to connect to server"
  end.

(** What the request for the student reports resolves to: the array its
    type declares, or another value (the [{}] that [apiCall] returns on
    [204], say), which has no [forEach]: [message] is the message of the
    [TypeError] raised by the call. *)
Inductive ReportsData :=
| ReportsArray (reportsData : list StudentReportApiResponse.t)
| NotAnArray (message : string).

(** The [forEach] that builds [reportsMap], starting from [{}]. *)
Definition reportsMap_of (reportsData : list StudentReportApiResponse.t)
    : Reports.t :=
  foldl (fun reportsMap report =>
           Reports.set (StudentReportApiResponse.studentId report)
             (StudentReport.mk
                (default [] (StudentReportApiResponse.activities report))
                (default [] (StudentReportApiResponse.coordinatedPrograms report)))
             reportsMap)
        Reports.empty reportsData.

(** [loadInitialData]: the arguments are the outcomes of the health check,
    of the four [getAll] calls handed to [Promise.all] (whose values are
    stored as they come, without being inspected) and of the request for
    the student reports. *)
Definition loadInitialData
    (health : Outcome unit)
    (programsData : Outcome (list Program.t))
    (studentsData : Outcome (list RegisteredStudent.t))
    (coordinatorsData : Outcome (list Coordinator.t))
    (departmentsData : Outcome (list Department.t))
    (settle_order : list Fetch)
    (reports : Outcome ReportsData)
    (s : State) : State :=
  let s := setIsLoading true s in
  let s := setLoadingError None s in
  (* Check backend health first *)
  let s := call health_check s in
  let s :=
    match health with
    | Rejected error => setLoadingError (Some (load_error_message error)) s
    | Resolved _ =>
        (* Load all initial data in parallel *)
        let s := call programs_getAll s in
        let s := call students_getAll s in
        let s := call coordinators_getAll s in
        let s := call departments_getAll s in
        match Promise_all programsData studentsData coordinatorsData
                departmentsData settle_order with
        | Rejected error => setLoadingError (Some (load_error_message error)) s
        | Resolved (programsData, studentsData, coordinatorsData, departmentsData) =>
            let s := setPrograms (fun _ => programsData) s in
            let s := setRegisteredStudents (fun _ => studentsData) s in
            let s := setCoordinators (fun _ => coordinatorsData) s in
            let s := setDepartments (fun _ => departmentsData) s in
            (* Load student reports *)
            let s := call studentReports_getAll s in
            let reportsData :=
              match reports with
              | Resolved reportsData => reportsData
              | Rejected _ => ReportsArray []
              end in
            match reportsData with
            | ReportsArray reportsData =>
                setStudentReports_object (reportsMap_of reportsData) s
            | NotAnArray message =>
                (* [reportsData.forEach] throws into the outer [catch] *)
                setLoadingError (Some (load_error_message (ErrorObject message))) s
            end
        end
    end in
  setIsLoading false s.

(** [apiCall] of [services/api.ts] rejects a response that is not [ok]
    with [new Error(error.error || error.message || 'API call failed')],
    where [error] is the parsed body: the message of the error is the
    chosen value converted to a string, unless that conversion throws. *)
Definition apiCall_error_message (body_error body_message : option Json)
    : Outcome string :=
  to_string (or_value body_error
               (or_value body_message (JString "API call failed"))).

(** ** Data handlers *)

(** Arguments of [handleEditStudent] and [handleEditCoordinator]. *)
Module StudentUpdates.
Record t := mk {
  name : string; department : string; password : option string;
  profileImageUrl : option string }.
End StudentUpdates.

Module CoordinatorUpdates.
Record t := mk {
  name : string; department : string; password : option string }.
End CoordinatorUpdates.

(** [list.map(x => x.id === id ? y : x)] *)
Definition replace_by_id {A} (get_id : A -> string) (id : string) (y : A)
    : list A -> list A :=
  map (fun x => if String.eqb (get_id x) id then y else x).

(** A backend call inside its own [try]/[catch] that only logs: the
    outcome changes nothing in the component. *)
Definition call_ignoring_failure {A} (r : Request) (o : Outcome A) (s : State) : State :=
  let s := call r s in
  match o with
  | Resolved _ => s
  | Rejected _ => s
  end.

(** The report entry [handleAddProgram] builds for a new program;
    [formattedStart] is what
    [new Date(newProgram.startDate).toLocaleTimeString('en-US', ...)]
    evaluates to. *)
Definition coordinatedProgram_of_new (newProgram : Program.t)
    (formattedStart : string) : CoordinatedProgram.t :=
  CoordinatedProgram.mk
    (Program.id newProgram)
    (Program.title newProgram)
    (or_else (Program.description newProgram) "")
    (or_else (Program.date newProgram)
       (or_else (Some (split_T_head (Program.startDate newProgram))) ""))
    (or_else (Program.time newProgram)
       (if truthy (Program.startDate newProgram) then formattedStart else ""))
    (or_else (Program.venue newProgram)
       (or_else (Some (Program.department newProgram)) ""))
    (Program.createdAt newProgram).

(** One step of the [forEach] that puts [cp] first in the report of
    [studentId], after [keep] has been applied to the entries already
    there.  [None] stands for the [TypeError] that ends the [forEach]:
    when [updated[studentId]] is truthy but no report, its
    [coordinatedPrograms] is [undefined], which can neither be spread nor
    filtered. *)
Definition add_coordinated (cp : CoordinatedProgram.t)
    (keep : list CoordinatedProgram.t -> list CoordinatedProgram.t)
    (updated : option Reports.t) (studentId : string) : option Reports.t :=
  match updated with
  | None => None
  | Some updated =>
      match Reports.get updated studentId with
      | Reports.Report existingReport =>
          Some (Reports.set studentId
                  (StudentReport.with_coordinatedPrograms
                     (cp :: keep (StudentReport.coordinatedPrograms existingReport))
                     existingReport)
                  updated)
      | Reports.Foreign => None
      | Reports.Undefined =>
          Some (Reports.set studentId (StudentReport.mk [] [cp]) updated)
      end
  end.

(** One step of the [forEach] that removes program [id] from the report
    of [studentId].  When [updated[studentId]] is truthy but no report,
    the object written has no [activities] and an empty
    [coordinatedPrograms]: the spread copies nothing the component reads,
    and [undefined || []] is filtered. *)
Definition remove_coordinated (id : string)
    (updated : Reports.t) (studentId : string) : Reports.t :=
  match Reports.get updated studentId with
  | Reports.Report r =>
      Reports.set studentId
        (StudentReport.with_coordinatedPrograms
           (filter (fun p => CoordinatedProgram.id p ≠ id)
              (StudentReport.coordinatedPrograms r))
           r)
        updated
  | Reports.Foreign => Reports.set studentId (StudentReport.object None []) updated
  | Reports.Undefined => updated
  end.

Definition handleAddProgram (programData : ProgramData.t)
    (created : Outcome Program.t)
    (formattedStart : string)
    (reportUpdated : string -> Outcome unit)
    (s0 : State) : State :=
  let s := call programs_create s0 in
  match created with
  | Rejected _ => alert "Failed to add program. Please try again." s
  | Resolved newProgram =>
      (* Update student reports for coordinators *)
      match ProgramData.coordinatorIds programData with
      | Some ((_ :: _) as coordinatorIds) =>
          let cp := coordinatedProgram_of_new newProgram formattedStart in
          (* both updates are rendered together *)
          let s :=
            match foldl (add_coordinated cp (fun l => l))
                    (Some (Reports.copy (studentReports_object s))) coordinatorIds with
            | Some updated =>
                setStudentReports_object updated
                  (setPrograms (fun prev => newProgram :: prev) s)
            | None => render_throws s
            end in
          (* Update reports in backend *)
          foldl (fun s studentId =>
                   call_ignoring_failure (studentReports_update studentId)
                     (reportUpdated studentId) s)
                s coordinatorIds
      | _ => setPrograms (fun prev => newProgram :: prev) s
      end
  end.

Definition handleEditProgram (id : string) (programData : ProgramData.t)
    (updated : Outcome Program.t) (s0 : State) : State :=
  (* Get the old program to compare coordinators *)
  let oldProgram := JS.find (fun p => String.eqb (Program.id p) id) (programs s0) in
  let s := call (programs_update id) s0 in
  match updated with
  | Rejected _ => alert "Failed to edit program. Please try again." s
  | Resolved updatedProgram =>
      (* Update student reports if coordinators changed *)
      match oldProgram, ProgramData.coordinatorIds programData with
      | Some oldProgram, Some newIds =>
          (* Remove program from old coordinators' reports *)
          let removed :=
            match Program.coordinatorIds oldProgram with
            | Some oldIds =>
                foldl (remove_coordinated id) (Reports.copy (studentReports_object s)) oldIds
            | None => studentReports_object s
            end in
          (* Add program to new coordinators' reports *)
          let added :=
            match newIds with
            | [] => Some removed
            | _ :: _ =>
                let cp :=
                  CoordinatedProgram.mk id
                    (ProgramData.title programData)
                    (or_else (ProgramData.description programData) "")
                    (or_else (ProgramData.date programData) "")
                    (or_else (ProgramData.time programData) "")
                    (or_else (ProgramData.venue programData) "")
                    (Program.createdAt oldProgram) in
                foldl (add_coordinated cp
                         (filter (fun p => CoordinatedProgram.id p ≠ id)))
                      (Some (Reports.copy removed)) newIds
            end in
          (* the three updates are rendered together *)
          match added with
          | Some updated =>
              setStudentReports_object updated
                (setPrograms (replace_by_id Program.id id updatedProgram) s)
          | None => render_throws s
          end
      | _, _ => setPrograms (replace_by_id Program.id id updatedProgram) s
      end
  end.

Definition handleDeleteProgram (id : string) (deleted : Outcome unit)
    (s0 : State) : State :=
  let s := call (programs_delete id) s0 in
  match deleted with
  | Resolved _ => setPrograms (filter (fun program => Program.id program ≠ id)) s
  | Rejected _ => alert "Failed to delete program. Please try again." s
  end.

(** [timestamp] is what [new Date().toISOString()] evaluates to. *)
Definition handleAddParticipants (programId : string) (studentIds : list string)
    (timestamp : string) (s0 : State) : State :=
  setPrograms
    (map (fun program =>
            if String.eqb (Program.id program) programId
            then Program.with_participantIds_updatedAt (Some studentIds) timestamp program
            else program))
    s0.

(** [studentData] has every field of a student but [createdAt]; the
    handler only passes it on to the backend. *)
Definition handleAddStudent (studentData : RegisteredStudent.t)
    (created : Outcome RegisteredStudent.t) (s0 : State) : State :=
  let s := call students_create s0 in
  match created with
  | Resolved newStudent => setRegisteredStudents (fun prev => prev ++ [newStudent]) s
  | Rejected _ => alert "Failed to add student. Please try again." s
  end.

(** [coordinatorData] has every field of a coordinator but [id] and
    [createdAt]; the handler only passes it on to the backend. *)
Definition handleAddCoordinator (coordinatorData : Coordinator.t)
    (created : Outcome Coordinator.t) (s0 : State) : State :=
  let s := call coordinators_create s0 in
  match created with
  | Resolved newCoordinator => setCoordinators (fun prev => prev ++ [newCoordinator]) s
  | Rejected _ => alert "Failed to add coordinator. Please try again." s
  end.

Definition handleToggleCoordinatorAccess (id : string)
    (updated : Outcome Coordinator.t) (s0 : State) : State :=
  match JS.find (fun c => String.eqb (Coordinator.id c) id) (coordinators s0) with
  | Some coordinator =>
      let s := call (coordinators_update id) s0 in
      match updated with
      | Resolved updatedCoordinator =>
          setCoordinators (replace_by_id Coordinator.id id updatedCoordinator) s
      | Rejected _ => alert "Failed to update coordinator access. Please try again." s
      end
  | None => s0
  end.

Definition handleEditStudent (id : string) (updates : StudentUpdates.t)
    (updated : Outcome RegisteredStudent.t) (s0 : State) : State :=
  let s := call (students_update id) s0 in
  match updated with
  | Resolved updatedStudent =>
      setRegisteredStudents (replace_by_id RegisteredStudent.id id updatedStudent) s
  | Rejected _ => alert "Failed to edit student. Please try again." s
  end.

Definition handleEditCoordinator (id : string) (updates : CoordinatorUpdates.t)
    (updated : Outcome Coordinator.t) (s0 : State) : State :=
  let s := call (coordinators_update id) s0 in
  match updated with
  | Resolved updatedCoordinator =>
      setCoordinators (replace_by_id Coordinator.id id updatedCoordinator) s
  | Rejected _ => alert "Failed to edit coordinator. Please try again." s
  end.

(** [program.participantIds?.filter(participantId => participantId !== id) || []] *)
Definition without_participant (id : string) (program : Program.t) : list string :=
  match Program.participantIds program with
  | Some ids => filter (fun participantId => participantId ≠ id) ids
  | None => []
  end.

Definition handleDeleteStudent (id : string) (deleted : Outcome unit)
    (reportDeleted : Outcome unit) (s0 : State) : State :=
  let s := call (students_delete id) s0 in
  match deleted with
  | Rejected _ => alert "Failed to delete student. Please try again." s
  | Resolved _ =>
      let s :=
        setRegisteredStudents
          (filter (fun student => RegisteredStudent.id student ≠ id)) s in
      (* Also remove from all program participants *)
      let s :=
        setPrograms
          (map (fun program =>
                  Program.with_participantIds
                    (Some (without_participant id program)) program))
          s in
      (* Remove report data for this student *)
      let s := call_ignoring_failure (studentReports_delete id) reportDeleted s in
      setStudentReports_object (Reports.remove id (Reports.copy (studentReports_object s))) s
  end.

Definition handleDeleteCoordinator (id : string) (deleted : Outcome unit)
    (s0 : State) : State :=
  let s := call (coordinators_delete id) s0 in
  match deleted with
  | Resolved _ =>
      setCoordinators (filter (fun coordinator => Coordinator.id coordinator ≠ id)) s
  | Rejected _ => alert "Failed to delete coordinator. Please try again." s
  end.

Definition handleUpdateOfficerPassword (newPassword : string) (s0 : State) : State :=
  setOfficerCredentials
    (map (fun oc =>
            if String.eqb (OfficerCred.id oc) "OFFICER001"
            then OfficerCred.with_password newPassword oc else oc))
    s0.

(** *** Department management *)

Definition handleAddDepartment (name : string) (created : Outcome Department.t)
    (s0 : State) : State :=
  let s := call (departments_create name) s0 in
  match created with
  | Resolved newDepartment => setDepartments (fun prev => prev ++ [newDepartment]) s
  | Rejected _ => alert "Failed to add department. Please try again." s
  end.

Definition handleEditDepartment (id newName : string)
    (updated : Outcome Department.t) (s0 : State) : State :=
  match JS.find (fun d => String.eqb (Department.id d) id) (departments s0) with
  | None => s0
  | Some oldDepartment =>
      let s := call (departments_update id newName) s0 in
      match updated with
      | Rejected _ => alert "Failed to edit department. Please try again." s
      | Resolved updatedDepartment =>
          let s := setDepartments (replace_by_id Department.id id updatedDepartment) s in
          (* Propagate department name change to all students *)
          setRegisteredStudents
            (map (fun student =>
                    if String.eqb (RegisteredStudent.department student)
                         (Department.name oldDepartment)
                    then RegisteredStudent.with_department newName student
                    else student))
            s
      end
  end.

Definition handleToggleDepartment (id : string) (updated : Outcome Department.t)
    (s0 : State) : State :=
  match JS.find (fun d => String.eqb (Department.id d) id) (departments s0) with
  | Some department =>
      let s := call (departments_update id (Department.name department)) s0 in
      match updated with
      | Resolved updatedDepartment =>
          setDepartments (replace_by_id Department.id id updatedDepartment) s
      | Rejected _ => alert "Failed to update department status. Please try again." s
      end
  | None => s0
  end.

(** ** The session as a transition system *)

(** What can happen to the mounted component, as far as the session is
    concerned.  [Commit] is React committing the render that a state
    update scheduled; it is a step of its own, so that events may arrive
    between a handler and the effects of the render it caused. *)
Inductive Action :=
| LoginSubmit (credentials : Credentials.t)
    (officerResult : Outcome (LoginResult OfficerApiResponse.t))
    (coordinatorResult : Outcome (LoginResult Coordinator.t))
    (studentResult : Outcome (LoginResult RegisteredStudent.t))
| LogoutClick
| Navigate (v : ViewTag)
| Activity (ev : ActivityEvent)
| TimerExpires (h : positive)
| Commit
| Elapse (d : Z).

(** - an activity event reaches [handleUserActivity] only while the
      listeners are attached;
    - a timer runs its callback only if it is pending and due;
    - time passes only between commits: a scheduled render is committed
      without delay. *)
Definition enabled (a : Action) (s : State) : bool :=
  match a with
  | Activity _ => rendered_isLoggedIn s
  | TimerExpires h =>
      match timers s !! h with
      | Some deadline => deadline <=? now s
      | None => false
      end
  | Elapse d => (0 <=? d) && Bool.eqb (isLoggedIn s) (rendered_isLoggedIn s)
  | _ => true
  end.

Definition perform (a : Action) (s : State) : State :=
  match a with
  | LoginSubmit credentials o c st => handleLogin credentials o c st s
  | LogoutClick => handleLogout s
  | Navigate v => setCurrentView v s
  | Activity ev => handleUserActivity ev s
  | TimerExpires h => handleAutoLogout (timer_fired h s)
  | Commit => commit s
  | Elapse d => elapse d s
  end.

Definition step (s : State) (a : Action) : State :=
  if enabled a s then perform a s else s.

Definition run (acts : list Action) (s : State) : State := foldl step s acts.

(** Time left on the timer [logoutTimerRef] points to, if it is pending. *)
Definition remaining (s : State) : option Z :=
  h ← logoutTimerRef s;
  deadline ← timers s !! h;
  Some (deadline - now s).

(** The alerts shown so far. *)
Definition alerts (s : State) : list string :=
  omap (fun e => match e with Alert msg => Some msg | _ => None end) (trace s).

(** The requests sent so far. *)
Definition requests (s : State) : list Request :=
  omap (fun e => match e with Call r => Some r | _ => None end) (trace s).

(** The session: the current user, when logged in. *)
Definition session (s : State) : option CurrentUser.t :=
  if isLoggedIn s then currentUser s else None.

(** The data the component holds about the organisation. *)
Definition domain (s : State) :=
  (programs s, registeredStudents s, coordinators s, departments s,
   studentReports s).

(** The role of the session. *)
Definition session_role (s : State) : option Role :=
  CurrentUser.type <$> session s.

(** A state with its trace forgotten. *)
Definition forget_trace (s : State) : State :=
  mkState (currentView s) (programs s) (registeredStudents s) (coordinators s)
    (departments s) (studentReports s) (studentReports_prototype s)
    (isLoading s) (loadingError s)
    (isLoggedIn s) (currentUser s) (officerCredentials s) (logoutTimerRef s)
    (rendered_isLoggedIn s) (now s) (timers s) (next_handle s)
    (render_error s) [].

(** Invariant of the timer table. *)
Record timer_inv (s : State) : Prop := {
  inv_only_ref :
    forall h d, timers s !! h = Some d -> logoutTimerRef s = Some h;
  inv_logged_out_not_due :
    isLoggedIn s = false -> forall h d, timers s !! h = Some d -> now s < d;
  inv_detached_no_timer :
    rendered_isLoggedIn s = false -> timers s = ∅ }.

(** ** View routing as the specification words it *)

(** The role set a view requires; [None] for an unguarded view. *)
Definition required_roles (v : ViewTag) : option (list Role) :=
  match v with
  | View.home | View.programs | View.login => None
  | View.student => Some [Role.student]
  | View.coordinator => Some [Role.coordinator; Role.officer]
  | View.officer => Some [Role.officer]
  end.

Definition panel_of (v : ViewTag) : Panel :=
  match v with
  | View.home => HomePage
  | View.programs => ProgramsPage
  | View.login => LoginPage
  | View.student => StudentPortal
  | View.coordinator => TeacherPortal
  | View.officer => ProgramOfficerPortal
  end.

Definition Role_eqb (a b : Role) : bool :=
  match a, b with
  | Role.student, Role.student
  | Role.coordinator, Role.coordinator
  | Role.officer, Role.officer => true
  | _, _ => false
  end.

(** The contract of the view router: an unguarded view maps to its panel;
    a protected one maps to its panel when a session exists whose role is
    in the required set, and to the login panel otherwise. *)
Definition route_spec (v : ViewTag) (session_role : option Role) : Panel :=
  match required_roles v with
  | None => panel_of v
  | Some allowed =>
      match session_role with
      | Some r => if existsb (Role_eqb r) allowed then panel_of v else LoginPage
      | None => LoginPage
      end
  end.


(** ** Sample inputs *)

Definition coordinator_on_officer_view : State :=
  setCurrentView View.officer
    (log_in Role.coordinator
       (CoordinatorData
          (Coordinator.mk "C1" "Asha" "asha@college.edu" "9999999999"
             "Physics" "Coordinator" None true "2025-01-01"))
       View.coordinator initial_state).


Definition sample_officer : OfficerApiResponse.t :=
  OfficerApiResponse.mk "U100" "U100" "Meera" "meera@college.edu" "officer"
    true "2025-01-01".

Definition sample_coordinator : Coordinator.t :=
  Coordinator.mk "U100" "Meera" "meera@college.edu" "9999999999" "Physics"
    "Coordinator" None true "2025-01-01".

Definition sample_student : RegisteredStudent.t :=
  RegisteredStudent.mk "U100" "Meera" "meera@college.edu" "9999999999"
    "Physics" "2" "EN100" None "2025-01-01" None.

Definition sample_credentials : Credentials.t := Credentials.mk "U100" "secret".

(** Credentials of the first entry of the built-in officer table. *)
Definition builtin_credentials : Credentials.t :=
  Credentials.mk "OFFICER001" "NSS@OFFICER2025".

(** An endpoint that answers, without a match. *)
Definition no_match {A} : Outcome (LoginResult A) :=
  Resolved (mkLoginResult false None).

(** An endpoint that answers with a match. *)
Definition matched {A} (a : A) : Outcome (LoginResult A) :=
  Resolved (mkLoginResult true (Some a)).

(** A backend that cannot be reached. *)
Definition unreachable {A} : Outcome A := Rejected (ErrorObject "Failed to fetch").

(** A sequence of monitored interaction events, each preceded by the time
    that passed since the previous one. *)
Definition monitored (evs : list (Z * ActivityEvent)) : list Action :=
  flat_map (fun p => [Elapse (fst p); Activity (snd p)]) evs.

(** The effects of [resetLogoutTimer] in a logged-in render: the old
    handle, if any, is cleared, and then the new timer is set. *)
Definition rearm_effects (s : State) : list Effect :=
  match logoutTimerRef s with
  | Some old => [ClearTimeout old]
  | None => []
  end ++ [SetTimeout (next_handle s) INACTIVITY_TIMEOUT].

(** A student logs in and the render is committed. *)
Definition student_logs_in : list Action :=
  [LoginSubmit sample_credentials no_match no_match (matched sample_student);
   Commit].

(** A coordinator logs in and the render is committed. *)
Definition coordinator_logs_in : list Action :=
  [LoginSubmit sample_credentials no_match (matched sample_coordinator) no_match;
   Commit].

Definition sample_program : Program.t :=
  Program.mk "P1" "Blood donation camp" (Some "Annual camp") "social"
    "2025-02-01T10:00:00.000Z" "2025-02-01T12:00:00.000Z" 100 true "Physics"
    "Meera" (Some ["U100"; "U200"]) "2025-01-01" (Some "2025-02-01")
    (Some "10:00") (Some "Main hall") (Some []) (Some "2025-01-01") None.

Definition sample_department : Department.t :=
  Department.mk "dept-1" "Physics" true "2025-01-01".

(** ** The create/update/delete actions on the four entities *)

(** One constructor per handler that asks the backend to create, update
    or delete a program, student, coordinator or department, with the
    handler's arguments. *)
Inductive CrudAction :=
| AddProgram (programData : ProgramData.t) (formattedStart : string)
    (reportUpdated : string -> Outcome unit)
| EditProgram (id : string) (programData : ProgramData.t)
| DeleteProgram (id : string)
| AddStudent (studentData : RegisteredStudent.t)
| EditStudent (id : string) (updates : StudentUpdates.t)
| DeleteStudent (id : string) (reportDeleted : Outcome unit)
| AddCoordinator (coordinatorData : Coordinator.t)
| ToggleCoordinatorAccess (id : string)
| EditCoordinator (id : string) (updates : CoordinatorUpdates.t)
| DeleteCoordinator (id : string)
| AddDepartment (name : string)
| EditDepartment (id newName : string)
| ToggleDepartment (id : string).

(** The handler of an action, run against a backend that rejects the
    action's request with [e]. *)
Definition perform_failing (a : CrudAction) (e : Thrown) (s : State) : State :=
  match a with
  | AddProgram programData formattedStart reportUpdated =>
      handleAddProgram programData (Rejected e) formattedStart reportUpdated s
  | EditProgram id programData => handleEditProgram id programData (Rejected e) s
  | DeleteProgram id => handleDeleteProgram id (Rejected e) s
  | AddStudent studentData => handleAddStudent studentData (Rejected e) s
  | EditStudent id updates => handleEditStudent id updates (Rejected e) s
  | DeleteStudent id reportDeleted =>
      handleDeleteStudent id (Rejected e) reportDeleted s
  | AddCoordinator coordinatorData =>
      handleAddCoordinator coordinatorData (Rejected e) s
  | ToggleCoordinatorAccess id => handleToggleCoordinatorAccess id (Rejected e) s
  | EditCoordinator id updates => handleEditCoordinator id updates (Rejected e) s
  | DeleteCoordinator id => handleDeleteCoordinator id (Rejected e) s
  | AddDepartment name => handleAddDepartment name (Rejected e) s
  | EditDepartment id newName => handleEditDepartment id newName (Rejected e) s
  | ToggleDepartment id => handleToggleDepartment id (Rejected e) s
  end.

(** The request an action sends for its entity; the three handlers that
    first look the entity up locally send none when it is absent. *)
Definition request_of (a : CrudAction) (s : State) : option Request :=
  match a with
  | AddProgram _ _ _ => Some programs_create
  | EditProgram id _ => Some (programs_update id)
  | DeleteProgram id => Some (programs_delete id)
  | AddStudent _ => Some students_create
  | EditStudent id _ => Some (students_update id)
  | DeleteStudent id _ => Some (students_delete id)
  | AddCoordinator _ => Some coordinators_create
  | ToggleCoordinatorAccess id =>
      (fun _ => coordinators_update id)
        <$> JS.find (fun c => String.eqb (Coordinator.id c) id) (coordinators s)
  | EditCoordinator id _ => Some (coordinators_update id)
  | DeleteCoordinator id => Some (coordinators_delete id)
  | AddDepartment name => Some (departments_create name)
  | EditDepartment id newName =>
      (fun _ => departments_update id newName)
        <$> JS.find (fun d => String.eqb (Department.id d) id) (departments s)
  | ToggleDepartment id =>
      (fun d => departments_update id (Department.name d))
        <$> JS.find (fun d => String.eqb (Department.id d) id) (departments s)
  end.

(** The message alerted when the request of an action fails. *)
Definition failure_alert (a : CrudAction) : string :=
  match a with
  | AddProgram _ _ _ => "Failed to add program. Please try again."
  | EditProgram _ _ => "Failed to edit program. Please try again."
  | DeleteProgram _ => "Failed to delete program. Please try again."
  | AddStudent _ => "Failed to add student. Please try again."
  | EditStudent _ _ => "Failed to edit student. Please try again."
  | DeleteStudent _ _ => "Failed to delete student. Please try again."
  | AddCoordinator _ => "Failed to add coordinator. Please try again."
  | ToggleCoordinatorAccess _ =>
      "Failed to update coordinator access. Please try again."
  | EditCoordinator _ _ => "Failed to edit coordinator. Please try again."
  | DeleteCoordinator _ => "Failed to delete coordinator. Please try again."
  | AddDepartment _ => "Failed to add department. Please try again."
  | EditDepartment _ _ => "Failed to edit department. Please try again."
  | ToggleDepartment _ => "Failed to update department status. Please try again."
  end.

(** The participants of a program ([[]] when the field is missing). *)
Definition participants (p : Program.t) : list string :=
  default [] (Program.participantIds p).

Definition sample_report : StudentReport.t :=
  StudentReport.mk
    [StudentExtraActivity.mk "A1" green "Camp" "Helped at the camp" "2025-01-05"]
    [].

Definition other_student : RegisteredStudent.t :=
  RegisteredStudent.mk "U200" "Ravi" "ravi@college.edu" "8888888888"
    "Chemistry" "1" "EN200" None "2025-01-02" None.

(** A loaded component with one program, two students, one department and
    a report for each student. *)
Definition loaded_state : State :=
  setStudentReports (fun _ => <["U100" := sample_report]>
                                (<["U200" := StudentReport.mk [] []]> ∅))
    (setDepartments (fun _ => [sample_department])
       (setRegisteredStudents (fun _ => [sample_student; other_student])
          (setPrograms (fun _ => [sample_program])
             (setIsLoading false initial_state)))).

(** ** Further parts of the component *)

(** The coordinated programs and the activities of a possibly missing
    report. *)
Definition cps_of (o : option StudentReport.t) : list CoordinatedProgram.t :=
  match o with
  | Some r => StudentReport.coordinatedPrograms r
  | None => []
  end.

Definition acts_of (o : option StudentReport.t)
    : option (list StudentExtraActivity.t) :=
  match o with
  | Some r => StudentReport.activities r
  | None => Some []
  end.

(** The report entry [handleEditProgram] builds for the edited program. *)
Definition coordinatedProgram_of_edit (id : string) (programData : ProgramData.t)
    (oldProgram : Program.t) : CoordinatedProgram.t :=
  CoordinatedProgram.mk id
    (ProgramData.title programData)
    (or_else (ProgramData.description programData) "")
    (or_else (ProgramData.date programData) "")
    (or_else (ProgramData.time programData) "")
    (or_else (ProgramData.venue programData) "")
    (Program.createdAt oldProgram).

(** What the report wire record becomes in [reportsMap]. *)
Definition report_of_response (r : StudentReportApiResponse.t) : StudentReport.t :=
  StudentReport.mk
    (default [] (StudentReportApiResponse.activities r))
    (default [] (StudentReportApiResponse.coordinatedPrograms r)).

(** *** Activities of a student report (inline handlers passed to the
    officer portal) *)

(** The [activity] argument of [onAddStudentActivity]: an activity
    without [id] and [createdAt]. *)
Module NewActivity.
Record t := mk { badge : Badge; title : string; content : string }.
End NewActivity.

(** The [updates] argument of [onEditStudentActivity]: any subset of the
    fields of an activity. *)
Module ActivityUpdates.
Record t := mk {
  id : option string; badge : option Badge; title : option string;
  content : option string; createdAt : option string }.

(** [{ ...a, ...updates }] *)
Definition spread (a : StudentExtraActivity.t) (updates : t) : StudentExtraActivity.t :=
  StudentExtraActivity.mk
    (default (StudentExtraActivity.id a) (id updates))
    (default (StudentExtraActivity.badge a) (badge updates))
    (default (StudentExtraActivity.title a) (title updates))
    (default (StudentExtraActivity.content a) (content updates))
    (default (StudentExtraActivity.createdAt a) (createdAt updates)).
End ActivityUpdates.

(** [onAddStudentActivity]; [newId] is what [Date.now().toString()]
    evaluates to and [timestamp] what [new Date().toISOString()] does.
    The updater reads [prev[studentId] || {...}] and spreads its
    [activities], which throws when they are [undefined]; the request to
    the backend is sent from inside the updater, after that, and its
    failure is only logged.  The updater is taken to run once, as React
    runs it outside of development mode. *)
Definition onAddStudentActivity (studentId : string) (activity : NewActivity.t)
    (newId timestamp : string) (s0 : State) : State :=
  let prev := studentReports_object s0 in
  let report :=
    match Reports.get prev studentId with
    | Reports.Report report =>
        (StudentReport.activities report,
         StudentReport.coordinatedPrograms report)
    | Reports.Foreign => (None, [])
    | Reports.Undefined => (Some [], [])
    end in
  match report with
  | (Some activities, coordinatedPrograms) =>
      let updatedReport :=
        StudentReport.mk
          (activities
             ++ [StudentExtraActivity.mk newId (NewActivity.badge activity)
                   (NewActivity.title activity) (NewActivity.content activity)
                   timestamp])
          coordinatedPrograms in
      let s := call (studentReports_update studentId) s0 in
      setStudentReports_object (Reports.with_member studentId updatedReport prev) s
  | (None, _) => render_throws s0
  end.

(** [onEditStudentActivity]: when [prev[studentId]] is [undefined] the
    state is returned as it is and nothing is sent; otherwise the updater
    maps over its [activities], which throws when they are [undefined]. *)
Definition onEditStudentActivity (studentId activityId : string)
    (updates : ActivityUpdates.t) (s0 : State) : State :=
  let prev := studentReports_object s0 in
  match Reports.get prev studentId with
  | Reports.Undefined => s0
  | Reports.Foreign => render_throws s0
  | Reports.Report report =>
      match StudentReport.activities report with
      | None => render_throws s0
      | Some activities =>
          let updatedReport :=
            StudentReport.mk
              (map (fun a =>
                      if String.eqb (StudentExtraActivity.id a) activityId
                      then ActivityUpdates.spread a updates else a)
                   activities)
              (StudentReport.coordinatedPrograms report) in
          let s := call (studentReports_update studentId) s0 in
          setStudentReports_object
            (Reports.with_member studentId updatedReport prev) s
      end
  end.

(** [getUserInfo]: the name and type shown in the header. *)
Definition user_name (d : UserData) : string :=
  match d with
  | StudentData st => RegisteredStudent.name st
  | CoordinatorData c => Coordinator.name c
  | OfficerData o => OfficerApiResponse.name o
  | FallbackOfficerData _ name _ => name
  end.

Definition getUserInfo (s : State) : option (string * Role) :=
  match currentUser s with
  | None => None
  | Some u => Some (user_name (CurrentUser.data u), CurrentUser.type u)
  end.

(** A run of password changes. *)
Definition update_passwords (ps : list string) (s : State) : State :=
  foldl (fun s p => handleUpdateOfficerPassword p s) s ps.

(** The type of the user agrees with the kind of record kept in [data]. *)
Definition user_consistent (u : CurrentUser.t) : Prop :=
  match CurrentUser.type u, CurrentUser.data u with
  | Role.student, StudentData _
  | Role.coordinator, CoordinatorData _
  | Role.officer, OfficerData _
  | Role.officer, FallbackOfficerData _ _ _ => True
  | _, _ => False
  end.

(** A program form naming one coordinating student. *)
Definition sample_programData : ProgramData.t :=
  ProgramData.mk "Tree plantation" (Some "Campus drive") "community-service"
    "2025-03-01" "2025-03-01" 50 true "Main hall" "Meera" (Some [])
    (Some "2025-03-01") (Some "09:00") (Some "Main hall") (Some ["U100"]) None.

Definition created_program : Program.t :=
  Program.mk "P2" "Tree plantation" (Some "Campus drive") "community-service"
    "2025-03-01" "2025-03-01" 50 true "Main hall" "Meera" (Some [])
    "2025-02-20" (Some "2025-03-01") (Some "09:00") (Some "Main hall")
    (Some ["U100"]) (Some "2025-02-20") None.

(** The entries of a report that are about other programs than [id]. *)
Definition other_programs (id : string) (o : option StudentReport.t)
    : list CoordinatedProgram.t :=
  filter (fun p => CoordinatedProgram.id p ≠ id) (cps_of o).

(** What [add_coordinated] and [remove_coordinated] do to the own
    properties of the report map under a key that names no inherited
    member. *)
Definition add_own (cp : CoordinatedProgram.t)
    (keep : list CoordinatedProgram.t -> list CoordinatedProgram.t)
    (m : gmap string StudentReport.t) (studentId : string)
    : gmap string StudentReport.t :=
  <[ studentId :=
     StudentReport.object (acts_of (m !! studentId))
       (cp :: keep (cps_of (m !! studentId))) ]> m.

Definition remove_own (id : string)
    (m : gmap string StudentReport.t) (studentId : string)
    : gmap string StudentReport.t :=
  match m !! studentId with
  | Some r =>
      <[ studentId :=
         StudentReport.with_coordinatedPrograms (other_programs id (Some r)) r ]> m
  | None => m
  end.

(** The ids that name no member of [Object.prototype]. *)
Definition ordinary (ids : list string) : Prop :=
  forall sid, sid ∈ ids -> sid ∉ Object_prototype.

(** A loaded component in which student U100 coordinates program P2. *)
Definition coordinating_state : State :=
  handleAddProgram sample_programData (Resolved created_program) "09:00"
    (fun _ => Resolved tt) loaded_state.

(** The form of program P2 edited to name U200 (twice) instead. *)
Definition edited_programData : ProgramData.t :=
  ProgramData.mk "Tree plantation" None "community-service" "2025-03-02"
    "2025-03-02" 50 true "Main hall" "Ravi" (Some []) (Some "2025-03-02") None
    (Some "Main hall") (Some ["U200"; "U200"]) None.


(** The built-in officer table after the password of [OFFICER001] has
    been set to [p]. *)
Definition officer_table (p : string) : list OfficerCred.t :=
  [ OfficerCred.mk "OFFICER001" "OFFICER001" p "super admin";
    OfficerCred.mk "officer001" "officer001" "nss@mamo" "super admin" ].

Definition sample_newActivity : NewActivity.t :=
  NewActivity.mk yellow "Cleanup" "Beach cleanup".

Definition retitle : ActivityUpdates.t :=
  ActivityUpdates.mk None None (Some "Coast cleanup") None None.

Definition sample_response : StudentReportApiResponse.t :=
  StudentReportApiResponse.mk "R1" "U100" "Meera" "Physics" "2" None
    (Some []) "2025-01-01" "2025-01-02".

(** The session is well formed: logged in exactly when a user is
    recorded, and the recorded user's type agrees with its data. *)
Definition session_inv (s : State) : Prop :=
  (isLoggedIn s = true <-> is_Some (currentUser s))
  /\ forall u, currentUser s = Some u -> user_consistent u.

(** ** The API client ([services/api.ts]) *)

Module Http.

(** The body of a failed response as [apiCall] reads it: its [error] and
    [message] members, which may be missing and may hold any JSON
    value. *)
Record ErrorBody := mkErrorBody {
  error : option Json;
  message : option Json }.

(** What [fetch] resolves to.  The body is given twice, as [apiCall]
    reads it on each branch: [error_json] is what [response.json()] yields
    for a failed response ([None] for the JSON value [null]), [json] what
    it yields for a successful one. *)
Record Response (T : Type) := mkResponse {
  ok : bool;
  status : N;
  statusText : string;
  error_json : Outcome (option ErrorBody);
  json : Outcome T }.
Arguments mkResponse {T} ok status statusText error_json json.
Arguments ok {T} _.
Arguments status {T} _.
Arguments statusText {T} _.
Arguments error_json {T} _.
Arguments json {T} _.

(** What [apiCall] resolves to: the parsed body, or [{}] for [204]. *)
Inductive ApiValue (T : Type) :=
| EmptyObject
| Value (v : T).
Arguments EmptyObject {T}.
Arguments Value {T} v.

(** [`HTTP ${response.status}: ${response.statusText}`] *)
Definition http_error_text {T} (response : Response T) : string :=
  "HTTP " +:+ pretty (status response) +:+ ": " +:+ statusText response.

(** [apiCall]; [fetched] is the outcome of [fetch], and
    [null_read_message] the message of the [TypeError] the engine raises
    when a member of [null] is read. *)
Definition apiCall {T} (null_read_message : string)
    (fetched : Outcome (Response T)) : Outcome (ApiValue T) :=
  match fetched with
  | Rejected e => Rejected e
  | Resolved response =>
      if negb (ok response) then
        let error :=
          match error_json response with
          | Resolved body => body
          | Rejected _ =>
              Some (mkErrorBody (Some (JString (http_error_text response))) None)
          end in
        match error with
        | Some body =>
            match apiCall_error_message (Http.error body) (Http.message body) with
            | Resolved message => Rejected (ErrorObject message)
            | Rejected e => Rejected e
            end
        | None => Rejected (ErrorObject null_read_message)
        end
      else if (status response =? 204)%N then
        (* Handle 204 No Content responses *)
        Resolved EmptyObject
      else
        match json response with
        | Resolved v => Resolved (Value v)
        | Rejected e => Rejected e
        end
  end.

(** How [handleLogin] reads the answer of a login endpoint: on [{}] both
    [success] and the identity are [undefined]. *)
Definition login_answer {A} (o : Outcome (ApiValue (LoginResult A)))
    : Outcome (LoginResult A) :=
  match o with
  | Resolved (Value r) => Resolved r
  | Resolved EmptyObject => Resolved (mkLoginResult false None)
  | Rejected e => Rejected e
  end.

End Http.

(** [handleLogin] with the login methods of the API client in place: the
    three arguments are what [fetch] yields for the three login requests. *)
Definition handleLogin_fetch (null_read_message : string)
    (credentials : Credentials.t)
    (officerFetch : Outcome (Http.Response (LoginResult OfficerApiResponse.t)))
    (coordinatorFetch : Outcome (Http.Response (LoginResult Coordinator.t)))
    (studentFetch : Outcome (Http.Response (LoginResult RegisteredStudent.t)))
    (s : State) : State :=
  handleLogin credentials
    (Http.login_answer (Http.apiCall null_read_message officerFetch))
    (Http.login_answer (Http.apiCall null_read_message coordinatorFetch))
    (Http.login_answer (Http.apiCall null_read_message studentFetch))
    s.

(** The program record of the wire. *)
Module ProgramApiResponse.
Record t := mk {
  id : string;
  title : string;
  description : option string;
  type : string;
  startDate : string;
  endDate : string;
  maxParticipants : Z;
  registrationOpen : bool;
  department : string;
  coordinator : string;
  participantIds : option (list string);
  createdAt : string;
  updatedAt : option string }.
End ProgramApiResponse.

(** The mapping [programsApi.getAll] applies to every program it
    receives; [toLocaleTimeString s] stands for
    [new Date(s).toLocaleTimeString('en-US', ...)]. *)
Definition program_of_response (toLocaleTimeString : string -> string)
    (program : ProgramApiResponse.t) : Program.t :=
  Program.mk
    (ProgramApiResponse.id program)
    (ProgramApiResponse.title program)
    (ProgramApiResponse.description program)
    (ProgramApiResponse.type program)
    (ProgramApiResponse.startDate program)
    (ProgramApiResponse.endDate program)
    (ProgramApiResponse.maxParticipants program)
    (ProgramApiResponse.registrationOpen program)
    (ProgramApiResponse.department program)
    (ProgramApiResponse.coordinator program)
    (ProgramApiResponse.participantIds program)
    (ProgramApiResponse.createdAt program)
    (* Legacy fields for backward compatibility *)
    (Some (split_T_head (ProgramApiResponse.startDate program)))
    (Some (toLocaleTimeString (ProgramApiResponse.startDate program)))
    (Some (ProgramApiResponse.department program))
    (Some [])
    (Some (or_else (ProgramApiResponse.updatedAt program)
             (ProgramApiResponse.createdAt program)))
    None.

(** [programsApi.getAll], given what [fetch] yields for [GET /programs].
    On [204] the [{}] that [apiCall] returns has no [map] method and the
    call throws; [not_a_function_message] is the message of that
    [TypeError]. *)
Definition programsApi_getAll (null_read_message not_a_function_message : string)
    (toLocaleTimeString : string -> string)
    (fetched : Outcome (Http.Response (list ProgramApiResponse.t)))
    : Outcome (list Program.t) :=
  match Http.apiCall null_read_message fetched with
  | Resolved (Http.Value programs) =>
      Resolved (map (program_of_response toLocaleTimeString) programs)
  | Resolved Http.EmptyObject => Rejected (ErrorObject not_a_function_message)
  | Rejected e => Rejected e
  end.

(** A response with an error status and a JSON body naming the error. *)
Definition refused {T} : Outcome (Http.Response T) :=
  Resolved (Http.mkResponse false 401 "Unauthorized"
              (Resolved (Some (Http.mkErrorBody
                                 (Some (JString "Invalid credentials")) None)))
              (Rejected OtherValue)).

Definition sample_wire_program : ProgramApiResponse.t :=
  ProgramApiResponse.mk "P2" "Tree plantation" None "community-service"
    "2025-03-01T09:00:00.000Z" "2025-03-01T11:00:00.000Z" 50 true "Main hall"
    "Meera" (Some []) "2025-02-20" None.

(** A report in which U100 already coordinates program P2. *)
Definition stale_report : StudentReport.t :=
  StudentReport.mk []
    [CoordinatedProgram.mk "P2" "Tree plantation" "" "2025-03-01" "09:00"
       "Main hall" "2025-02-20"].

(** ** The coordinator portal ([TeacherPortal]), caller of the program
    handlers *)

(** [array.includes(x)] on string arrays. *)
Definition includes (x : string) (l : list string) : bool :=
  existsb (String.eqb x) l.

(** [Array.from(new Set(l))]: a [Set] keeps the first occurrence of each
    value, in insertion order. *)
Definition Set_add (acc : list string) (x : string) : list string :=
  if includes x acc then acc else acc ++ [x].

Definition Set_from (l : list string) : list string := foldl Set_add [] l.

Module TeacherPortal.

(** The hooks of the participant-selection dialog. *)
Record Selection := mkSelection {
  showParticipantSelection : option string;
  selectedStudentIds : list string;
  searchTerm : string }.

(** [programs.find(p => p.id === programId)?.participantIds || []] *)
Definition participants_of (programs : list Program.t) (programId : string)
    : list string :=
  match JS.find (fun p => String.eqb (Program.id p) programId) programs with
  | Some p => default [] (Program.participantIds p)
  | None => []
  end.

Definition handleParticipantSelection (programs : list Program.t)
    (programId : string) : Selection :=
  mkSelection (Some programId) (participants_of programs programId) "".

(** The toggle of one id in a selection. *)
Definition toggle (studentId : string) (selected : list string) : list string :=
  if includes studentId selected
  then filter (fun id => id ≠ studentId) selected
  else selected ++ [studentId].

(** [if (showParticipantSelection) onAddParticipants(showParticipantSelection,
    newSelectedIds)]; [onAddParticipants] is [handleAddParticipants] of the
    App component. *)
Definition apply_selection (sel : Selection) (newSelectedIds : list string)
    (timestamp : string) (app : State) : State :=
  match showParticipantSelection sel with
  | Some programId =>
      if truthy programId
      then handleAddParticipants programId newSelectedIds timestamp app
      else app
  | None => app
  end.

Definition handleStudentToggle (studentId : string) (timestamp : string)
    (sel : Selection) (app : State) : Selection * State :=
  let newSelectedIds := toggle studentId (selectedStudentIds sel) in
  (mkSelection (showParticipantSelection sel) newSelectedIds (searchTerm sel),
   (* Apply changes immediately if we have a program selected *)
   apply_selection sel newSelectedIds timestamp app).

(** [handleCoordinatorToggle] *)
Definition handleCoordinatorToggle (studentId : string)
    (selectedCoordinatorIds : list string) : list string :=
  toggle studentId selectedCoordinatorIds.

(** The new selection computed by [handleToggleSelectAllFiltered] and by
    [handleToggleSelectAllCoordinators]; [filteredIds] are the ids of the
    list shown ([filteredStudents.map(s => s.id)]). *)
Definition toggle_all (filteredIds : list string) (selected : list string)
    : list string :=
  match filteredIds with
  | [] => selected
  | _ :: _ =>
      let filteredIdSet := Set_from filteredIds in
      let isAllSelected := forallb (fun id => includes id selected) filteredIdSet in
      if isAllSelected then
        (* Deselect all filtered *)
        filter (fun id => negb (includes id filteredIdSet) = true) selected
      else
        (* Select all filtered (merge, avoid duplicates) *)
        Set_from (selected ++ filteredIds)
  end.

(** [filteredStudents] is the list the render computed from the search
    term; the handler reads it from its closure. *)
Definition handleToggleSelectAllFiltered (filteredStudents : list RegisteredStudent.t)
    (timestamp : string) (sel : Selection) (app : State) : Selection * State :=
  let newSelectedIds :=
    toggle_all (map RegisteredStudent.id filteredStudents) (selectedStudentIds sel) in
  (mkSelection (showParticipantSelection sel) newSelectedIds (searchTerm sel),
   apply_selection sel newSelectedIds timestamp app).

Definition handleToggleSelectAllCoordinators (filteredCoordinators : list Coordinator.t)
    (previousSelectedIds : list string) : list string :=
  toggle_all (map Coordinator.id filteredCoordinators) previousSelectedIds.

(** *** The attendance sheet *)

Module AttendeeEntry.
Record t := mk { name : string; remark : option string }.
End AttendeeEntry.

(** [attendees.some(a => a.name === n)] *)
Definition has_name (n : string) (attendees : list AttendeeEntry.t) : bool :=
  existsb (fun a => String.eqb (AttendeeEntry.name a) n) attendees.

(** The "Add All" button. *)
Definition add_all (registeredStudents : list RegisteredStudent.t)
    (selectedDepartment : string) (attendees : list AttendeeEntry.t)
    : list AttendeeEntry.t :=
  (* Add all students from selected department *)
  let departmentStudents :=
    filter (fun s => negb (has_name (RegisteredStudent.name s) attendees) = true)
      (filter (fun s => RegisteredStudent.department s = selectedDepartment)
         registeredStudents) in
  attendees
    ++ map (fun s => AttendeeEntry.mk (RegisteredStudent.name s) None)
         departmentStudents.

(** [prev.map((x, idx) => idx === i ? { ...x, name: val } : x)] *)
Definition edit_name (i : nat) (val : string) (prev : list AttendeeEntry.t)
    : list AttendeeEntry.t :=
  imap (fun idx x =>
          if Nat.eqb idx i then AttendeeEntry.mk val (AttendeeEntry.remark x) else x)
       prev.

(** [prev.map((x, idx) => idx === i ? { ...x, remark: val || undefined } : x)] *)
Definition edit_remark (i : nat) (val : string) (prev : list AttendeeEntry.t)
    : list AttendeeEntry.t :=
  imap (fun idx x =>
          if Nat.eqb idx i
          then AttendeeEntry.mk (AttendeeEntry.name x)
                 (if truthy val then Some val else None)
          else x)
       prev.

(** [prev.filter((_, idx) => idx !== i)] *)
Definition remove_at (i : nat) (prev : list AttendeeEntry.t) : list AttendeeEntry.t :=
  omap (fun kept => kept)
    (imap (fun idx x => if Nat.eqb idx i then None else Some x) prev).

End TeacherPortal.

(** ** The student portal ([StudentPortal]) *)

Module StudentPortal.

(** What a program card offers the student. *)
Inductive Control :=
| CertificateAndUnenroll
| RegisteredAndUnenroll
| EnrollNow
| Unavailable (label : string).

(** [program.participantIds?.length || 0] *)
Definition participantCount (program : Program.t) : Z :=
  match Program.participantIds program with
  | Some ids => Z.of_nat (length ids)
  | None => 0
  end.

(** [program.participantIds?.includes(currentStudent.id) || false] *)
Definition isParticipant (program : Program.t) (studentId : string) : bool :=
  match Program.participantIds program with
  | Some ids => includes studentId ids
  | None => false
  end.

(** The buttons of a program card.  [isUpcoming] and [isPastProgram] are
    the two date comparisons of the render,
    [new Date(program.startDate) >= new Date()] and
    [new Date(program.startDate) < new Date()]. *)
Definition control (program : Program.t) (studentId : string)
    (isUpcoming isPastProgram : bool) : Control :=
  if isParticipant program studentId && isPastProgram then CertificateAndUnenroll
  else if isParticipant program studentId && isUpcoming then RegisteredAndUnenroll
  else if Program.registrationOpen program
          && (participantCount program <? Program.maxParticipants program)
  then EnrollNow
  else
    Unavailable
      (if negb (Program.registrationOpen program) then "Registration Closed"
       else if participantCount program >=? Program.maxParticipants program
            then "Full Capacity"
            else "Not Available").

(** [handleEnrollment(programId, enroll)]: [response] is what [fetch]
    yields for the enrollment request and [programsResponse] what it
    yields for the reload of the programs.  The result is the new value
    of the [allPrograms] hook and the App state with the alert shown. *)
Definition handleEnrollment (enroll : bool)
    (response : Outcome (Http.Response unit))
    (programsResponse : Outcome (Http.Response (list Program.t)))
    (allPrograms : list Program.t) (app : State) : list Program.t * State :=
  let failed := "Failed to update enrollment. Please try again." in
  let succeeded :=
    if enroll then "Successfully enrolled in program!"
    else "Successfully unenrolled from program!" in
  match response with
  | Rejected _ => (allPrograms, alert failed app)
  | Resolved response =>
      if Http.ok response then
        (* Refresh programs *)
        match programsResponse with
        | Rejected _ => (allPrograms, alert failed app)
        | Resolved programsResponse =>
            if Http.ok programsResponse then
              match Http.json programsResponse with
              | Resolved updatedPrograms => (updatedPrograms, alert succeeded app)
              | Rejected _ => (allPrograms, alert failed app)
              end
            else (allPrograms, alert succeeded app)
        end
      else
        match Http.error_json response with
        | Resolved (Some errorData) =>
            (* [alert] converts its argument to a string *)
            match to_string (or_value (Http.error errorData)
                               (JString "Failed to update enrollment")) with
            | Resolved message => (allPrograms, alert message app)
            | Rejected _ => (allPrograms, alert failed app)
            end
        | Resolved None => (allPrograms, alert failed app)
        | Rejected _ => (allPrograms, alert failed app)
        end
  end.

End StudentPortal.

Definition sample_attendees : list TeacherPortal.AttendeeEntry.t :=
  [TeacherPortal.AttendeeEntry.mk "Meera" (Some "Lead");
   TeacherPortal.AttendeeEntry.mk "Guest" None].

(** A response that accepts the request. *)
Definition accepted : Outcome (Http.Response unit) :=
  Resolved (Http.mkResponse true 200 "OK" (Rejected OtherValue) (Resolved tt)).


(** * Properties *)

(** ** Bookkeeping lemmas on the trace *)

Lemma requests_call r s : requests (call r s) = requests s ++ [r].
Proof. unfold requests, call, emit; simpl. by rewrite omap_app. Qed.

Lemma requests_alert msg s : requests (alert msg s) = requests s.
Proof.
  unfold requests, alert, emit; simpl.
  rewrite omap_app; simpl. apply app_nil_r.
Qed.

Lemma alerts_call r s : alerts (call r s) = alerts s.
Proof.
  unfold alerts, call, emit; simpl.
  rewrite omap_app; simpl. apply app_nil_r.
Qed.

Lemma alerts_alert msg s : alerts (alert msg s) = alerts s ++ [msg].
Proof. unfold alerts, alert, emit; simpl. by rewrite omap_app. Qed.

Lemma requests_log_in r d v s : requests (log_in r d v s) = requests s.
Proof. reflexivity. Qed.

Lemma session_log_in r d v s :
  session (log_in r d v s) = Some (CurrentUser.mk r d).
Proof. reflexivity. Qed.

(** ** View router *)

(** C2. The router follows its contract: for every view tag and session,
    [home], [programs] and [login] select their own panel whatever the
    session, and [student], [coordinator] and [officer] select the
    protected panel exactly when a session exists whose role is in
    {student}, {coordinator, officer}, {officer} respectively, the login
    panel otherwise.  In particular the officer view requested by a
    logged-in coordinator yields the login panel. *)
Theorem view_routing (s : State) :
  renderCurrentView s = route_spec (currentView s) (session_role s)
  /\ (currentView s = View.officer ->
      session_role s = Some Role.coordinator ->
      renderCurrentView s = LoginPage).
Proof.
  assert (Hmain : renderCurrentView s = route_spec (currentView s) (session_role s)).
  { unfold renderCurrentView, route_spec, session_role, session, user_type_is.
    destruct (currentView s); simpl; try reflexivity;
      destruct (isLoggedIn s); simpl; try reflexivity;
      destruct (currentUser s) as [[[] d]|]; reflexivity. }
  split; [exact Hmain|].
  intros Hv Hr. rewrite Hmain, Hv, Hr. reflexivity.
Qed.

Lemma view_routing_witness :
  renderCurrentView coordinator_on_officer_view = LoginPage.
Proof.
  apply (proj2 (view_routing coordinator_on_officer_view)); reflexivity.
Defined.

(** ** Login *)

(** C1. The three verification paths are tried in the order officer,
    coordinator, student, and the first positive match determines the
    session: a match on the officer path gives an officer session whatever
    the other two endpoints would answer (so credentials matching both an
    officer and a coordinator record log in as officer) and no other
    endpoint is asked; the coordinator path decides only when the officer
    path has no match, the student path only when neither has. *)
Theorem login_precedence (credentials : Credentials.t)
    (officerResult : Outcome (LoginResult OfficerApiResponse.t))
    (coordinatorResult : Outcome (LoginResult Coordinator.t))
    (studentResult : Outcome (LoginResult RegisteredStudent.t))
    (s : State) :
  let id := Credentials.id credentials in
  let pw := Credentials.password credentials in
  let s' := handleLogin credentials officerResult coordinatorResult studentResult s in
  (forall d,
      officer_path credentials officerResult (officerCredentials s) = Some d ->
      session s' = Some (CurrentUser.mk Role.officer d)
      /\ currentView s' = View.officer
      /\ requests s' = requests s ++ [officers_login id pw])
  /\ (forall d,
      officer_path credentials officerResult (officerCredentials s) = None ->
      coordinator_path coordinatorResult = Some d ->
      session s' = Some (CurrentUser.mk Role.coordinator d)
      /\ currentView s' = View.coordinator
      /\ requests s' = requests s ++ [officers_login id pw; coordinators_login id pw])
  /\ (forall d,
      officer_path credentials officerResult (officerCredentials s) = None ->
      coordinator_path coordinatorResult = None ->
      student_path studentResult = Some d ->
      session s' = Some (CurrentUser.mk Role.student d)
      /\ currentView s' = View.student
      /\ requests s' = requests s ++ [officers_login id pw; coordinators_login id pw;
                                      students_login id pw]).
Proof.
  cbv zeta. unfold handleLogin. repeat split; intros.
  all: repeat match goal with H : _ = _ |- _ => rewrite H end.
  all: try reflexivity.
  all: rewrite requests_log_in, ?requests_call, <- ?app_assoc; reflexivity.
Qed.

Lemma login_precedence_witness :
  session (handleLogin sample_credentials (matched sample_officer)
             (matched sample_coordinator) (matched sample_student) initial_state)
    = Some (CurrentUser.mk Role.officer (OfficerData sample_officer))
  /\ session (handleLogin sample_credentials no_match
                (matched sample_coordinator) (matched sample_student) initial_state)
    = Some (CurrentUser.mk Role.coordinator (CoordinatorData sample_coordinator))
  /\ session (handleLogin sample_credentials no_match unreachable
                (matched sample_student) initial_state)
    = Some (CurrentUser.mk Role.student (StudentData sample_student)).
Proof.
  split; [|split].
  - apply (proj1 (login_precedence sample_credentials (matched sample_officer)
                    (matched sample_coordinator) (matched sample_student)
                    initial_state)).
    reflexivity.
  - apply (proj1 (proj2 (login_precedence sample_credentials no_match
                           (matched sample_coordinator) (matched sample_student)
                           initial_state))); reflexivity.
  - apply (proj2 (proj2 (login_precedence sample_credentials no_match unreachable
                           (matched sample_student) initial_state)));
      reflexivity.
Defined.

(** C7, as stated, fails on the officer path: when the officer endpoint
    cannot be reached and the credentials are in the built-in officer
    table, the failure is not treated as "no match": the user is logged in
    as officer, the coordinator path is never attempted and nothing is
    reported. *)
Lemma officer_failure_is_not_no_match :
  let s' := handleLogin builtin_credentials unreachable unreachable unreachable
              initial_state in
  session s' = Some (CurrentUser.mk Role.officer
                       (FallbackOfficerData "OFFICER001" "Program Officer"
                          "super admin"))
  /\ requests s' = [officers_login "OFFICER001" "NSS@OFFICER2025"]
  /\ alerts s' = []
  /\ s' <> handleLogin builtin_credentials no_match unreachable unreachable
             initial_state.
Proof.
  cbv zeta. repeat split; try reflexivity.
  intros Heq. apply (f_equal isLoggedIn) in Heq. vm_compute in Heq. discriminate.
Qed.

(** C7, amended.  A coordinator or student endpoint that cannot be reached
    counts as "no match" and the next path is attempted.  When the officer
    endpoint cannot be reached, the built-in officer table is consulted
    first: an entry matching the credentials logs the user in as officer;
    without such an entry the failure counts as "no match" and the
    coordinator path is attempted.  When no path matches, "Invalid
    credentials" is alerted once, every endpoint has been asked once, and
    nothing else in the state changes. *)
Theorem login_failure_handling (credentials : Credentials.t)
    (officerResult : Outcome (LoginResult OfficerApiResponse.t))
    (coordinatorResult : Outcome (LoginResult Coordinator.t))
    (studentResult : Outcome (LoginResult RegisteredStudent.t))
    (e : Thrown) (s : State) :
  let id := Credentials.id credentials in
  let pw := Credentials.password credentials in
  handleLogin credentials officerResult (Rejected e) studentResult s
    = handleLogin credentials officerResult no_match studentResult s
  /\ handleLogin credentials officerResult coordinatorResult (Rejected e) s
    = handleLogin credentials officerResult coordinatorResult no_match s
  /\ (forall oc,
        JS.find (fallback_matches credentials) (officerCredentials s) = Some oc ->
        handleLogin credentials (Rejected e) coordinatorResult studentResult s
          = log_in Role.officer
              (FallbackOfficerData (OfficerCred.id oc) "Program Officer"
                 (OfficerCred.role oc))
              View.officer (call (officers_login id pw) s))
  /\ (JS.find (fallback_matches credentials) (officerCredentials s) = None ->
        handleLogin credentials (Rejected e) coordinatorResult studentResult s
          = handleLogin credentials no_match coordinatorResult studentResult s)
  /\ (officer_path credentials officerResult (officerCredentials s) = None ->
      coordinator_path coordinatorResult = None ->
      student_path studentResult = None ->
      let s' := handleLogin credentials officerResult coordinatorResult
                  studentResult s in
      forget_trace s' = forget_trace s
      /\ session s' = session s
      /\ alerts s' = alerts s ++ ["Invalid credentials"]
      /\ requests s' = requests s ++ [officers_login id pw; coordinators_login id pw;
                                      students_login id pw]).
Proof.
  cbv zeta. repeat apply conj.
  - reflexivity.
  - reflexivity.
  - intros oc Hoc. unfold handleLogin, officer_path. rewrite Hoc. reflexivity.
  - intros Hnone. unfold handleLogin, officer_path. rewrite Hnone. reflexivity.
  - intros Ho Hc Hs. unfold handleLogin. rewrite Ho, Hc, Hs.
    repeat apply conj; try reflexivity.
    + rewrite alerts_alert, !alerts_call. reflexivity.
    + rewrite requests_alert, !requests_call, <- !app_assoc. reflexivity.
Qed.

Lemma login_failure_handling_witness :
  handleLogin builtin_credentials unreachable no_match no_match initial_state
    = log_in Role.officer
        (FallbackOfficerData "OFFICER001" "Program Officer" "super admin")
        View.officer
        (call (officers_login "OFFICER001" "NSS@OFFICER2025") initial_state)
  /\ handleLogin sample_credentials unreachable unreachable unreachable initial_state
    = handleLogin sample_credentials no_match unreachable unreachable initial_state
  /\ alerts (handleLogin sample_credentials unreachable unreachable unreachable
               initial_state) = ["Invalid credentials"].
Proof.
  pose proof (login_failure_handling builtin_credentials unreachable no_match
                no_match (ErrorObject "Failed to fetch") initial_state) as Hb.
  pose proof (login_failure_handling sample_credentials unreachable unreachable
                unreachable (ErrorObject "Failed to fetch") initial_state) as Hs.
  cbv zeta in Hb, Hs.
  destruct Hb as (_ & _ & Hb & _).
  destruct Hs as (_ & _ & _ & Hnone & Hall).
  split; [|split].
  - apply (Hb (OfficerCred.mk "OFFICER001" "OFFICER001" "NSS@OFFICER2025" "super admin")).
    reflexivity.
  - apply Hnone. reflexivity.
  - apply Hall; reflexivity.
Defined.

(** ** The timer table *)

Lemma only_ref_delete (m : gmap positive Z) (h : positive) :
  (forall h' d, m !! h' = Some d -> Some h = Some h') -> delete h m = ∅.
Proof.
  intros Honly. apply map_empty. intros i.
  destruct (decide (i = h)) as [->|Hne].
  - apply lookup_delete_eq.
  - rewrite lookup_delete_ne by congruence.
    destruct (m !! i) as [d|] eqn:Hi; [|reflexivity].
    specialize (Honly i d Hi). congruence.
Qed.

Lemma only_ref_none (m : gmap positive Z) :
  (forall h' d, m !! h' = Some d -> @None positive = Some h') -> m = ∅.
Proof.
  intros Honly. apply map_empty. intros i.
  destruct (m !! i) as [d|] eqn:Hi; [|reflexivity].
  specialize (Honly i d Hi). discriminate.
Qed.

(** Clearing the timer the ref points to leaves no pending timer. *)
Lemma clear_ref_empties (s : State) :
  timer_inv s ->
  match logoutTimerRef s with
  | Some h => delete h (timers s)
  | None => timers s
  end = ∅.
Proof.
  intros [Honly _ _]. destruct (logoutTimerRef s) as [h|].
  - by apply only_ref_delete.
  - by apply only_ref_none.
Qed.

Lemma timers_handleLogout (s : State) :
  timer_inv s -> timers (handleLogout s) = ∅ /\ logoutTimerRef (handleLogout s) = None.
Proof.
  intros Hinv. pose proof (clear_ref_empties s Hinv) as Hclear.
  unfold handleLogout; simpl.
  destruct (logoutTimerRef s) as [h|] eqn:Href; simpl; auto.
Qed.

Lemma timer_inv_no_timers (s : State) : timers s = ∅ -> timer_inv s.
Proof.
  intros Hempty. split; intros; rewrite Hempty in *;
    try reflexivity; rewrite lookup_empty in *; discriminate.
Qed.

(** State of the timer after [resetLogoutTimer] in a logged-in render:
    the one pending timer is the new one, due a full period from now. *)
Lemma resetLogoutTimer_true (s : State) :
  timer_inv s ->
  let s' := resetLogoutTimer true s in
  logoutTimerRef s' = Some (next_handle s)
  /\ timers s' = {[ next_handle s := now s + INACTIVITY_TIMEOUT ]}
  /\ now s' = now s
  /\ isLoggedIn s' = isLoggedIn s
  /\ rendered_isLoggedIn s' = rendered_isLoggedIn s.
Proof.
  intros Hinv. pose proof (clear_ref_empties s Hinv) as Hclear.
  unfold resetLogoutTimer; simpl.
  destruct (logoutTimerRef s) as [h|]; simpl; rewrite Hclear; auto.
Qed.

Lemma timer_inv_reset (s : State) :
  timer_inv s -> rendered_isLoggedIn s = true ->
  timer_inv (resetLogoutTimer true s).
Proof.
  intros Hinv Hrendered.
  destruct (resetLogoutTimer_true s Hinv) as (Href & Htim & Hnow & _ & Hr).
  split.
  - intros h d. rewrite Htim, Href. intros Hl.
    apply lookup_singleton_Some in Hl as [-> _]. reflexivity.
  - intros _ h d. rewrite Htim, Hnow. intros Hl.
    apply lookup_singleton_Some in Hl as [_ <-]. unfold INACTIVITY_TIMEOUT. lia.
  - rewrite Hr, Hrendered. discriminate.
Qed.

Lemma timer_inv_emit (e : Effect) (s : State) : timer_inv s -> timer_inv (emit e s).
Proof. intros [H1 H2 H3]. split; assumption. Qed.

Lemma timer_inv_setCurrentView (v : ViewTag) (s : State) :
  timer_inv s -> timer_inv (setCurrentView v s).
Proof. intros [H1 H2 H3]. split; assumption. Qed.

Lemma timer_inv_log_in (r : Role) (d : UserData) (v : ViewTag) (s : State) :
  timer_inv s -> timer_inv (log_in r d v s).
Proof.
  intros [H1 H2 H3]. split; simpl; try assumption. discriminate.
Qed.

Lemma timer_inv_handleLogin credentials o c st (s : State) :
  timer_inv s -> timer_inv (handleLogin credentials o c st s).
Proof.
  intros Hinv. unfold handleLogin.
  destruct (officer_path _ _ _); [by apply timer_inv_log_in, timer_inv_emit|].
  destruct (coordinator_path _); [by apply timer_inv_log_in; do 2 apply timer_inv_emit|].
  destruct (student_path _); [by apply timer_inv_log_in; do 3 apply timer_inv_emit|].
  by do 4 apply timer_inv_emit.
Qed.

Lemma timer_inv_handleLogout (s : State) : timer_inv s -> timer_inv (handleLogout s).
Proof. intros Hinv. apply timer_inv_no_timers. by apply timers_handleLogout. Qed.

Lemma timer_inv_timer_fired (h : positive) (s : State) :
  timer_inv s -> timer_inv (timer_fired h s).
Proof.
  intros [H1 H2 H3]. split; simpl.
  - intros h' d Hl. apply lookup_delete_Some in Hl as [_ Hl]. eauto.
  - intros Hout h' d Hl. apply lookup_delete_Some in Hl as [_ Hl]. eauto.
  - intros Hr. rewrite (H3 Hr). apply delete_empty.
Qed.

Lemma timer_inv_commit (s : State) : timer_inv s -> timer_inv (commit s).
Proof.
  intros Hinv. unfold commit.
  destruct (Bool.eqb (isLoggedIn s) (rendered_isLoggedIn s)) eqn:Hsame; [assumption|].
  destruct (isLoggedIn s) eqn:Hin, (rendered_isLoggedIn s) eqn:Hr;
    try discriminate Hsame.
  - (* logged in, listeners not yet attached *)
    unfold activity_effect. rewrite Hin.
    apply timer_inv_reset; [|reflexivity].
    destruct Hinv as [H1 H2 H3]. split; simpl; try assumption. discriminate.
  - (* logged out, listeners still attached *)
    apply timer_inv_no_timers.
    pose proof (clear_ref_empties s Hinv) as Hclear.
    unfold activity_effect, activity_cleanup.
    destruct (logoutTimerRef s) as [h|] eqn:Href; simpl; rewrite Hin; simpl;
      rewrite ?Href; simpl; rewrite ?Hclear; try assumption.
    + apply delete_empty.
    + reflexivity.
Qed.

Lemma timer_inv_elapse (d : Z) (s : State) :
  timer_inv s -> enabled (Elapse d) s = true -> timer_inv (elapse d s).
Proof.
  intros [H1 H2 H3] Hen. simpl in Hen.
  apply andb_true_iff in Hen as [Hd Hsame].
  apply Bool.eqb_prop in Hsame.
  split; simpl; try assumption.
  intros Hout h t Hl. rewrite Hsame in Hout.
  rewrite (H3 Hout), lookup_empty in Hl. discriminate.
Qed.

Lemma timer_inv_initial : timer_inv initial_state.
Proof. by apply timer_inv_no_timers. Qed.

Lemma timer_inv_step (s : State) (a : Action) :
  timer_inv s -> timer_inv (step s a).
Proof.
  intros Hinv. unfold step. destruct (enabled a s) eqn:Hen; [|assumption].
  destruct a; simpl.
  - by apply timer_inv_handleLogin.
  - by apply timer_inv_handleLogout.
  - by apply timer_inv_setCurrentView.
  - by apply timer_inv_reset.
  - by apply timer_inv_handleLogout, timer_inv_emit, timer_inv_timer_fired.
  - by apply timer_inv_commit.
  - by apply timer_inv_elapse.
Qed.

Lemma timer_inv_run (acts : list Action) (s : State) :
  timer_inv s -> timer_inv (run acts s).
Proof.
  revert s. induction acts as [|a acts IH]; intros s Hinv; simpl.
  - assumption.
  - apply IH, timer_inv_step, Hinv.
Qed.

(** Every state the mounted component can reach satisfies the invariant. *)
Lemma timer_inv_reachable (acts : list Action) : timer_inv (run acts initial_state).
Proof. apply timer_inv_run, timer_inv_initial. Qed.

(** ** Idle timer *)

Lemma run_app (l1 l2 : list Action) (s : State) :
  run (l1 ++ l2) s = run l2 (run l1 s).
Proof. unfold run. apply foldl_app. Qed.

Lemma activity_step (s : State) (ev : ActivityEvent) :
  timer_inv s -> rendered_isLoggedIn s = true ->
  let s' := step s (Activity ev) in
  remaining s' = Some INACTIVITY_TIMEOUT
  /\ logoutTimerRef s' = Some (next_handle s)
  /\ timers s' = {[ next_handle s := now s' + INACTIVITY_TIMEOUT ]}
  /\ trace s' = trace s ++ rearm_effects s
  /\ isLoggedIn s' = isLoggedIn s
  /\ rendered_isLoggedIn s' = true.
Proof.
  intros Hinv Hr. unfold step. cbn [enabled perform]. rewrite Hr.
  unfold handleUserActivity.
  destruct (resetLogoutTimer_true s Hinv) as (Href & Htim & Hnow & Hin & Hr').
  cbv zeta in *. repeat apply conj.
  - unfold remaining. rewrite Href. cbn [mbind option_bind].
    rewrite Htim, lookup_singleton_eq. cbn [mbind option_bind].
    rewrite Hnow. f_equal. lia.
  - exact Href.
  - rewrite Htim, Hnow. reflexivity.
  - unfold resetLogoutTimer, rearm_effects.
    destruct (logoutTimerRef s); simpl; rewrite <- ?app_assoc; reflexivity.
  - exact Hin.
  - rewrite Hr'. exact Hr.
Qed.

Lemma elapse_step_session (s : State) (d : Z) :
  isLoggedIn (step s (Elapse d)) = isLoggedIn s
  /\ rendered_isLoggedIn (step s (Elapse d)) = rendered_isLoggedIn s.
Proof. unfold step. destruct (enabled _ _); split; reflexivity. Qed.

(** A run of monitored events keeps a logged-in session logged in. *)
Lemma monitored_keeps_session (evs : list (Z * ActivityEvent)) (s : State) :
  timer_inv s -> isLoggedIn s = true -> rendered_isLoggedIn s = true ->
  isLoggedIn (run (monitored evs) s) = true
  /\ rendered_isLoggedIn (run (monitored evs) s) = true.
Proof.
  revert s. induction evs as [|[d ev] evs IH]; intros s Hinv Hin Hr; simpl.
  - auto.
  - destruct (elapse_step_session s d) as [Hin1 Hr1].
    pose proof (timer_inv_step s (Elapse d) Hinv) as Hinv1.
    rewrite Hr in Hr1. rewrite Hin in Hin1.
    destruct (activity_step (step s (Elapse d)) ev Hinv1 Hr1)
      as (_ & _ & _ & _ & Hin2 & Hr2).
    cbv zeta in *.
    apply IH.
    + by apply timer_inv_step.
    + by rewrite Hin2.
    + exact Hr2.
Qed.

(** C3. Whatever happened before, for every sequence of monitored
    interaction events that occur while logged in (each after an
    arbitrary delay), once the last event has been handled the session is
    still logged in, the idle timer has exactly the full 30 minutes
    (1,800,000 ms) left, it is the only pending timer, and handling the
    event cleared the old handle before setting the new timer. *)
Theorem idle_timer_rearmed (history : list Action)
    (evs : list (Z * ActivityEvent)) (d : Z) (ev : ActivityEvent) :
  let s0 := run history initial_state in
  isLoggedIn s0 = true ->
  rendered_isLoggedIn s0 = true ->
  let before := run (monitored evs ++ [Elapse d]) s0 in
  let s' := run (monitored (evs ++ [(d, ev)])) s0 in
  s' = step before (Activity ev)
  /\ isLoggedIn s' = true
  /\ remaining s' = Some 1800000
  /\ (exists h, logoutTimerRef s' = Some h
                /\ timers s' = {[ h := now s' + 1800000 ]})
  /\ trace s' = trace before ++ rearm_effects before.
Proof.
  intros s0 Hin Hr before s'.
  assert (Hs' : s' = step before (Activity ev)).
  { unfold s', before, monitored. rewrite flat_map_app; simpl.
    rewrite !run_app. reflexivity. }
  pose proof (timer_inv_reachable history) as Hinv0. fold s0 in Hinv0.
  destruct (monitored_keeps_session evs s0 Hinv0 Hin Hr) as [Hin1 Hr1].
  pose proof (timer_inv_run (monitored evs) s0 Hinv0) as Hinv1.
  assert (Hb : timer_inv before /\ isLoggedIn before = true
               /\ rendered_isLoggedIn before = true).
  { unfold before. rewrite run_app. simpl.
    destruct (elapse_step_session (run (monitored evs) s0) d) as [Ha Hb].
    split; [by apply timer_inv_step|]. split; congruence. }
  destruct Hb as (Hinvb & Hinb & Hrb).
  destruct (activity_step before ev Hinvb Hrb) as (Hrem & Href & Htim & Htr & Hin2 & _).
  cbv zeta in *. rewrite <- Hs' in *.
  split; [reflexivity|]. split; [congruence|]. split; [exact Hrem|].
  split; [|exact Htr].
  eexists; split; [exact Href|exact Htim].
Qed.

Lemma idle_timer_rearmed_witness :
  remaining (run (monitored [(1799000, mousemove)])
               (run coordinator_logs_in initial_state)) = Some 1800000.
Proof.
  apply (idle_timer_rearmed coordinator_logs_in [] 1799000 mousemove);
    reflexivity.
Defined.

(** The scenario of the specification: a coordinator logs in, stays idle
    for 29 minutes 59 seconds and then moves the mouse; the session is
    kept and the timer has 30 minutes left again. *)
Example coordinator_moves_mouse_in_time :
  let s := run (coordinator_logs_in ++ [Elapse 1799000; Activity mousemove])
             initial_state in
  session_role s = Some Role.coordinator
  /\ remaining s = Some 1800000
  /\ trace s = [Call (officers_login "U100" "secret");
                Call (coordinators_login "U100" "secret");
                SetTimeout 1 1800000; ClearTimeout 1; SetTimeout 2 1800000].
Proof. repeat split; reflexivity. Qed.

(** ** Leaving the session *)

Lemma enabled_timer_is_ref (s : State) (h : positive) :
  timer_inv s -> enabled (TimerExpires h) s = true ->
  logoutTimerRef s = Some h /\ isLoggedIn s = true.
Proof.
  intros [Honly Hdue _] Hen. simpl in Hen.
  destruct (timers s !! h) as [deadline|] eqn:Hl; [|discriminate].
  split; [by eapply Honly|].
  destruct (isLoggedIn s) eqn:Hin; [reflexivity|].
  specialize (Hdue eq_refl h deadline Hl). lia.
Qed.

Lemma timeout_step (s : State) (h : positive) :
  timer_inv s ->
  let s' := handleAutoLogout (timer_fired h s) in
  timers s' = ∅ /\ logoutTimerRef s' = None /\ isLoggedIn s' = false
  /\ currentUser s' = None /\ currentView s' = View.home.
Proof.
  intros Hinv. cbv zeta. unfold handleAutoLogout.
  pose proof (timer_inv_emit (Alert auto_logout_message) _
                (timer_inv_timer_fired h s Hinv)) as Hinv'.
  destruct (timers_handleLogout _ Hinv') as [Ht Href].
  unfold alert. rewrite Ht, Href. repeat split.
  all: unfold handleLogout; simpl; destruct (logoutTimerRef s); reflexivity.
Qed.

(** C4. In every reachable state, an explicit logout and an inactivity
    timeout both leave the session logged out with no pending timer and an
    empty timer ref; and while the session is logged out no timer can
    fire: none is due, and once the logged-out render is committed none is
    pending at all. *)
Theorem logout_cancels_timer (acts : list Action) :
  let s := run acts initial_state in
  (isLoggedIn (step s LogoutClick) = false
   /\ timers (step s LogoutClick) = ∅
   /\ logoutTimerRef (step s LogoutClick) = None)
  /\ (forall h, enabled (TimerExpires h) s = true ->
        isLoggedIn (step s (TimerExpires h)) = false
        /\ timers (step s (TimerExpires h)) = ∅
        /\ logoutTimerRef (step s (TimerExpires h)) = None)
  /\ (isLoggedIn s = false -> forall h, enabled (TimerExpires h) s = false)
  /\ (isLoggedIn s = false -> rendered_isLoggedIn s = false -> timers s = ∅).
Proof.
  intros s. pose proof (timer_inv_reachable acts) as Hinv. fold s in Hinv.
  repeat apply conj.
  - unfold step; simpl. unfold handleLogout; simpl.
    destruct (logoutTimerRef s); reflexivity.
  - by apply timers_handleLogout.
  - by apply timers_handleLogout.
  - intros h Hen. unfold step. rewrite Hen. cbn [perform].
    destruct (timeout_step s h Hinv) as (Ht & Href & Hin & _). auto.
  - intros Hout h. destruct (enabled (TimerExpires h) s) eqn:Hen; [|reflexivity].
    destruct (enabled_timer_is_ref s h Hinv Hen) as [_ Hin]. congruence.
  - intros _ Hr. by apply (inv_detached_no_timer s Hinv).
Qed.

Lemma logout_cancels_timer_witness :
  timers (step (run (student_logs_in ++ [Elapse 1800000]) initial_state)
            (TimerExpires 1)) = ∅
  /\ (forall h,
        enabled (TimerExpires h)
          (run (student_logs_in ++ [Elapse 5000; LogoutClick]) initial_state)
        = false).
Proof.
  split.
  - apply (logout_cancels_timer (student_logs_in ++ [Elapse 1800000])).
    reflexivity.
  - apply (logout_cancels_timer (student_logs_in ++ [Elapse 5000; LogoutClick])).
    reflexivity.
Defined.

(** C5. When the idle timer expires (which happens only while logged
    in), the inactivity notice is alerted exactly once and the state then
    changes exactly as by an explicit logout: logged out, no current user,
    home view, timer ref cleared, no pending timer. *)
Theorem timeout_is_alert_then_logout (acts : list Action) (h : positive) :
  let s := run acts initial_state in
  enabled (TimerExpires h) s = true ->
  let s' := step s (TimerExpires h) in
  isLoggedIn s = true
  /\ alerts s' = alerts s ++ [auto_logout_message]
  /\ trace s' = trace s ++ [Alert auto_logout_message; ClearTimeout h]
  /\ trace (handleLogout s) = trace s ++ [ClearTimeout h]
  /\ forget_trace s' = forget_trace (handleLogout s)
  /\ isLoggedIn s' = false /\ currentUser s' = None
  /\ currentView s' = View.home /\ logoutTimerRef s' = None /\ timers s' = ∅.
Proof.
  intros s Hen s'.
  pose proof (timer_inv_reachable acts) as Hinv. fold s in Hinv.
  destruct (enabled_timer_is_ref s h Hinv Hen) as [Href Hin].
  destruct (timeout_step s h Hinv) as (Ht & Hr & Hout & Hu & Hv).
  destruct (timers_handleLogout s Hinv) as [Ht' Hr'].
  assert (Hs' : s' = handleAutoLogout (timer_fired h s)).
  { unfold s', step. rewrite Hen. reflexivity. }
  cbv zeta in *. rewrite Hs'.
  assert (Htrace : trace (handleAutoLogout (timer_fired h s))
                   = trace s ++ [Alert auto_logout_message; ClearTimeout h]).
  { unfold handleAutoLogout, handleLogout; simpl. rewrite Href; simpl.
    rewrite <- app_assoc. reflexivity. }
  repeat apply conj; try assumption.
  - unfold alerts. rewrite Htrace, omap_app. reflexivity.
  - unfold handleLogout; simpl. rewrite Href. reflexivity.
  - unfold forget_trace. rewrite Ht, Ht', Hr, Hr'.
    unfold handleAutoLogout, handleLogout; simpl. rewrite Href. reflexivity.
Qed.

Lemma timeout_is_alert_then_logout_witness :
  alerts (step (run (student_logs_in ++ [Elapse 1800000]) initial_state)
            (TimerExpires 1))
  = [auto_logout_message].
Proof.
  apply (timeout_is_alert_then_logout (student_logs_in ++ [Elapse 1800000]) 1).
  reflexivity.
Defined.

(** The scenario of the specification: a student logs in and stays idle
    for 30 minutes; the session ends and the notice is shown once. *)
Example student_idle_for_30_minutes :
  let s := run (student_logs_in ++ [Elapse 1800000; TimerExpires 1; Commit])
             initial_state in
  session s = None
  /\ currentView s = View.home
  /\ alerts s = [auto_logout_message]
  /\ timers s = ∅
  /\ (forall h, enabled (TimerExpires h) s = false).
Proof. repeat split; reflexivity. Qed.

(** One millisecond earlier the timer is not due yet. *)
Example timer_not_due_before_30_minutes :
  enabled (TimerExpires 1)
    (run (student_logs_in ++ [Elapse 1799999]) initial_state) = false.
Proof. reflexivity. Qed.

(** ** Initial data load *)

Section PromiseAllFacts.
Context {A B C D : Type}.
Variables (pa : Outcome A) (pb : Outcome B) (pc : Outcome C) (pd : Outcome D).

Lemma first_rejection_Some (order : list Fetch) (e : Thrown) :
  first_rejection pa pb pc pd order = Some e ->
  exists f, f ∈ order /\ rejection_of pa pb pc pd f = Some e.
Proof.
  induction order as [|f order IH]; simpl; [discriminate|].
  destruct (rejection_of pa pb pc pd f) as [e'|] eqn:Hf.
  - intros [= <-]. exists f. split; [left|exact Hf].
  - intros H. destruct (IH H) as (f' & Hin & Hf'). exists f'. split; [by right|exact Hf'].
Qed.

Lemma first_rejection_None (order : list Fetch) :
  first_rejection pa pb pc pd order = None ->
  forall f, f ∈ order -> rejection_of pa pb pc pd f = None.
Proof.
  induction order as [|f order IH]; simpl; intros H f' Hin.
  - by apply elem_of_nil in Hin.
  - destruct (rejection_of pa pb pc pd f) as [e'|] eqn:Hf; [discriminate|].
    apply elem_of_cons in Hin as [->|Hin]; [exact Hf|by apply IH].
Qed.

Lemma all_fetches_complete (f : Fetch) (order : list Fetch) :
  f ∈ order ++ all_fetches.
Proof.
  apply elem_of_app. right. unfold all_fetches. destruct f; set_solver.
Qed.

(** [Promise.all] resolves exactly when the four promises resolve, with
    their values; otherwise it rejects with the reason of one of them. *)
Lemma Promise_all_cases (order : list Fetch) :
  (exists a b c d,
      pa = Resolved a /\ pb = Resolved b /\ pc = Resolved c /\ pd = Resolved d
      /\ Promise_all pa pb pc pd order = Resolved (a, b, c, d))
  \/ (exists f e,
        rejection_of pa pb pc pd f = Some e
        /\ Promise_all pa pb pc pd order = Rejected e).
Proof.
  unfold Promise_all.
  destruct (first_rejection pa pb pc pd (order ++ all_fetches)) as [e|] eqn:Hfirst.
  - right. apply first_rejection_Some in Hfirst as (f & _ & Hf). eauto.
  - left. pose proof (first_rejection_None _ Hfirst) as Hnone.
    pose proof (Hnone fetch_programs (all_fetches_complete _ _)) as Ha.
    pose proof (Hnone fetch_students (all_fetches_complete _ _)) as Hb.
    pose proof (Hnone fetch_coordinators (all_fetches_complete _ _)) as Hc.
    pose proof (Hnone fetch_departments (all_fetches_complete _ _)) as Hd.
    simpl in Ha, Hb, Hc, Hd.
    destruct pa as [a|]; [|discriminate]. destruct pb as [b|]; [|discriminate].
    destruct pc as [c|]; [|discriminate]. destruct pd as [d|]; [|discriminate].
    exists a, b, c, d. auto.
Qed.
End PromiseAllFacts.

(** The message [apiCall] gives to the error of a failed response is the
    [error] member of the body when that is a non-empty string, and is
    empty when that member is the empty array. *)
Lemma truthy_true (s : string) : truthy s = true <-> s <> "".
Proof.
  unfold truthy. rewrite negb_true_iff. apply String.eqb_neq.
Qed.

Lemma apiCall_error_message_string (s : string) (body_message : option Json) :
  s <> "" ->
  apiCall_error_message (Some (JString s)) body_message = Resolved s.
Proof.
  intros Hs. apply truthy_true in Hs. unfold apiCall_error_message. simpl.
  by rewrite Hs.
Qed.

Lemma apiCall_error_message_empty_array (body_message : option Json) :
  apiCall_error_message (Some (JArray [])) body_message = Resolved "".
Proof. reflexivity. Qed.




(** A failed health check fails the load before any fetch is issued. *)
Lemma health_failure_fails_load (e : Thrown)
    (programsData : Outcome (list Program.t))
    (studentsData : Outcome (list RegisteredStudent.t))
    (coordinatorsData : Outcome (list Coordinator.t))
    (departmentsData : Outcome (list Department.t))
    (settle_order : list Fetch)
    (reports : Outcome ReportsData)
    (s : State) :
  let s' := loadInitialData (Rejected e) programsData studentsData
              coordinatorsData departmentsData settle_order reports s in
  requests s' = requests s ++ [health_check]
  /\ loadingError s' = Some (load_error_message e)
  /\ domain s' = domain s.
Proof.
  cbv zeta. repeat split. unfold requests; simpl. by rewrite omap_app.
Qed.

(** ** Data handlers *)

(** C8. For every create, update or delete of a program, student,
    coordinator or department, when the backend rejects the request the
    handler alerts its failure message once and leaves the state as it
    was: programs, students, coordinators, departments and reports, and
    everything else but the trace.  Participant-list edits are the
    exception: [handleAddParticipants] changes the local programs at
    once: every program with the given id gets the given list as its
    participants and the time of the edit as [updatedAt], whatever its
    participants were, and keeps its other fields; the other programs
    and the rest of the state are untouched.  No request is sent, so
    there is no failure after which the edit could be taken back. *)
Theorem crud_failure_leaves_state (a : CrudAction) (e : Thrown) (s : State) :
  let s' := perform_failing a e s in
  forget_trace s' = forget_trace s
  /\ domain s' = domain s
  /\ trace s' = trace s ++ match request_of a s with
                           | Some r => [Call r; Alert (failure_alert a)]
                           | None => []
                           end
  /\ (forall programId studentIds timestamp,
        let s2 := handleAddParticipants programId studentIds timestamp s in
        trace s2 = trace s
        /\ setPrograms (fun _ => programs s) s2 = s
        /\ length (programs s2) = length (programs s)
        /\ forall i p,
            programs s !! i = Some p ->
            (Program.id p = programId ->
             programs s2 !! i
             = Some (Program.mk (Program.id p) (Program.title p)
                       (Program.description p) (Program.type p)
                       (Program.startDate p) (Program.endDate p)
                       (Program.maxParticipants p) (Program.registrationOpen p)
                       (Program.department p) (Program.coordinator p)
                       (Some studentIds) (Program.createdAt p) (Program.date p)
                       (Program.time p) (Program.venue p)
                       (Program.coordinatorIds p) (Some timestamp)
                       (Program.students p)))
            /\ (Program.id p <> programId -> programs s2 !! i = Some p)).
Proof.
  cbv zeta. split; [|split; [|split]].
  - destruct a; simpl; try reflexivity.
    + unfold handleToggleCoordinatorAccess. destruct (JS.find _ _); reflexivity.
    + unfold handleEditDepartment. destruct (JS.find _ _); reflexivity.
    + unfold handleToggleDepartment. destruct (JS.find _ _); reflexivity.
  - destruct a; simpl; try reflexivity.
    + unfold handleToggleCoordinatorAccess. destruct (JS.find _ _); reflexivity.
    + unfold handleEditDepartment. destruct (JS.find _ _); reflexivity.
    + unfold handleToggleDepartment. destruct (JS.find _ _); reflexivity.
  - destruct a; simpl; rewrite <- ?app_assoc; try reflexivity.
    + unfold handleToggleCoordinatorAccess. destruct (JS.find _ _); simpl;
        rewrite <- ?app_assoc, ?app_nil_r; reflexivity.
    + unfold handleEditDepartment. destruct (JS.find _ _); simpl;
        rewrite <- ?app_assoc, ?app_nil_r; reflexivity.
    + unfold handleToggleDepartment. destruct (JS.find _ _); simpl;
        rewrite <- ?app_assoc, ?app_nil_r; reflexivity.
  - intros programId studentIds timestamp. split; [reflexivity|].
    split; [by destruct s|]. split; [apply length_map|].
    intros i p Hp. unfold handleAddParticipants; simpl.
    rewrite list_lookup_fmap, Hp. simpl. split.
    + intros Hid. apply String.eqb_eq in Hid. rewrite Hid. reflexivity.
    + intros Hid. apply String.eqb_neq in Hid. rewrite Hid. reflexivity.
Qed.

Lemma crud_failure_leaves_state_witness :
  let s := setPrograms (fun _ => [sample_program]) initial_state in
  domain (handleDeleteProgram "P1" unreachable s) = domain s
  /\ participants sample_program = ["U100"; "U200"]
  /\ Program.participantIds
       <$> programs (handleAddParticipants "P1" ["U300"]
                       "2025-03-01T00:00:00.000Z" s) !! 0%nat
     = Some (Some ["U300"]).
Proof.
  cbv zeta.
  pose proof (crud_failure_leaves_state (DeleteProgram "P1")
                (ErrorObject "Failed to fetch")
                (setPrograms (fun _ => [sample_program]) initial_state)) as H.
  cbv zeta in H. destruct H as (_ & Hdomain & _ & Hpart).
  split; [exact Hdomain|]. split; [reflexivity|].
  destruct (Hpart "P1" ["U300"] "2025-03-01T00:00:00.000Z")
    as (_ & _ & _ & Hprograms).
  rewrite (proj1 (Hprograms 0%nat sample_program eq_refl) eq_refl).
  reflexivity.
Defined.

(** A failure while deleting a program, on a concrete state. *)
Example delete_program_failure :
  let s := setPrograms (fun _ => [sample_program]) initial_state in
  let s' := handleDeleteProgram "P1" unreachable s in
  programs s' = [sample_program]
  /\ trace s' = [Call (programs_delete "P1");
                 Alert "Failed to delete program. Please try again."].
Proof. split; reflexivity. Qed.

(** The requests on student reports nested in [handleAddProgram] and
    [handleDeleteStudent] are not covered by the alert: whether they fail
    or not, the handler does the same. *)
Lemma call_ignoring_failure_call {A} (r : Request) (o : Outcome A) (s : State) :
  call_ignoring_failure r o s = call r s.
Proof. unfold call_ignoring_failure. destruct o; reflexivity. Qed.

Lemma foldl_ext_state {A B} (f g : A -> B -> A) (l : list B) (a : A) :
  (forall a x, f a x = g a x) -> foldl f a l = foldl g a l.
Proof.
  intros Hext. revert a. induction l as [|x l IH]; intros a; simpl.
  - reflexivity.
  - rewrite Hext. apply IH.
Qed.

Lemma report_update_outcome_ignored (programData : ProgramData.t)
    (newProgram : Program.t) (formattedStart : string)
    (reportUpdated reportUpdated' : string -> Outcome unit) (s : State) :
  handleAddProgram programData (Resolved newProgram) formattedStart reportUpdated s
  = handleAddProgram programData (Resolved newProgram) formattedStart reportUpdated' s.
Proof.
  unfold handleAddProgram.
  destruct (ProgramData.coordinatorIds programData) as [[|c ids]|]; try reflexivity.
  apply foldl_ext_state. intros s1 x.
  rewrite !call_ignoring_failure_call. reflexivity.
Qed.

Lemma report_delete_outcome_ignored (id : string)
    (reportDeleted reportDeleted' : Outcome unit) (s : State) :
  handleDeleteStudent id (Resolved tt) reportDeleted s
  = handleDeleteStudent id (Resolved tt) reportDeleted' s.
Proof.
  unfold handleDeleteStudent. rewrite !call_ignoring_failure_call. reflexivity.
Qed.

Lemma participants_with_participantIds (l : list string) (p : Program.t) :
  participants (Program.with_participantIds (Some l) p) = l.
Proof. reflexivity. Qed.

Lemma without_participant_filter (id : string) (p : Program.t) :
  without_participant id p = filter (fun x => x ≠ id) (participants p).
Proof.
  unfold without_participant, participants.
  destruct (Program.participantIds p); reflexivity.
Qed.

(** C9. After a successful delete of the student with id [id], whether
    or not the report could be deleted on the backend:
    - the registered students are the former ones without those whose id
      is [id], in the same order;
    - every program keeps its place and all its fields except
      [participantIds], which is the former list without [id];
    - the report keyed by [id] is gone and every other report entry is
      as before;
    - coordinators and departments are untouched. *)
Theorem delete_student_cascade (id : string) (reportDeleted : Outcome unit)
    (s : State) :
  let s' := handleDeleteStudent id (Resolved tt) reportDeleted s in
  registeredStudents s'
    = filter (fun st => RegisteredStudent.id st ≠ id) (registeredStudents s)
  /\ (forall st, (st ∈ registeredStudents s')
                 <-> (st ∈ registeredStudents s /\ RegisteredStudent.id st ≠ id))
  /\ length (programs s') = length (programs s)
  /\ (forall i p,
        programs s !! i = Some p ->
        exists p',
          programs s' !! i = Some p'
          /\ p' = Program.with_participantIds (Some (participants p')) p
          /\ participants p' = filter (fun x => x ≠ id) (participants p)
          /\ (id ∉ participants p')
          /\ forall x, x ≠ id -> ((x ∈ participants p') <-> (x ∈ participants p)))
  /\ studentReports s' !! id = None
  /\ (forall k, k ≠ id -> studentReports s' !! k = studentReports s !! k)
  /\ coordinators s' = coordinators s
  /\ departments s' = departments s.
Proof.
  cbv zeta. unfold handleDeleteStudent, call_ignoring_failure.
  assert (Hshape :
    forall s1 : State,
      match reportDeleted with Resolved _ => s1 | Rejected _ => s1 end = s1).
  { intros s1. destruct reportDeleted; reflexivity. }
  rewrite Hshape. simpl.
  split; [reflexivity|]. split; [|split; [|split; [|split; [|split]]]].
  - intros st. rewrite list_elem_of_filter. tauto.
  - apply length_map.
  - intros i p Hp.
    exists (Program.with_participantIds (Some (without_participant id p)) p).
    split; [rewrite list_lookup_fmap, Hp; reflexivity|].
    rewrite !participants_with_participantIds, without_participant_filter.
    split; [reflexivity|]. split; [reflexivity|]. split.
    + intros Hin. apply list_elem_of_filter in Hin as [Hne _]. by apply Hne.
    + intros x Hx. rewrite list_elem_of_filter. tauto.
  - apply lookup_delete_eq.
  - intros k Hk. apply lookup_delete_ne. congruence.
  - split; reflexivity.
Qed.

Lemma delete_student_cascade_witness :
  let s' := handleDeleteStudent "U100" (Resolved tt) unreachable loaded_state in
  registeredStudents s' = [other_student]
  /\ (exists p', programs s' !! 0%nat = Some p' /\ participants p' = ["U200"])
  /\ studentReports s' !! "U100" = None
  /\ studentReports s' !! "U200" = Some (StudentReport.mk [] []).
Proof.
  cbv zeta.
  pose proof (delete_student_cascade "U100" unreachable loaded_state) as H.
  cbv zeta in H. destruct H as (Hst & _ & _ & Hprog & Hgone & Hkept & _).
  split; [rewrite Hst; reflexivity|]. split; [|split].
  - destruct (Hprog 0%nat sample_program eq_refl) as (p' & Hl & _ & Hpart & _).
    exists p'. split; [exact Hl|]. rewrite Hpart. reflexivity.
  - exact Hgone.
  - rewrite (Hkept "U200"); [reflexivity|discriminate].
Defined.

(** C10. After a successful edit of a department known locally under
    the name [Department.name old], every student keeps its place; those
    whose department is that name get [newName] as department and keep
    every other field, and all other students are unchanged.  When no
    department with that id is known locally, the handler changes
    nothing, sends nothing and reports nothing. *)
Theorem department_rename_propagation (id newName : string)
    (updated : Outcome Department.t) (s : State) :
  (forall old updatedDepartment,
      JS.find (fun d => String.eqb (Department.id d) id) (departments s) = Some old ->
      updated = Resolved updatedDepartment ->
      let s' := handleEditDepartment id newName updated s in
      length (registeredStudents s') = length (registeredStudents s)
      /\ forall i st,
          registeredStudents s !! i = Some st ->
          (RegisteredStudent.department st = Department.name old ->
           exists st',
             registeredStudents s' !! i = Some st'
             /\ RegisteredStudent.department st' = newName
             /\ st' = RegisteredStudent.with_department newName st)
          /\ (RegisteredStudent.department st ≠ Department.name old ->
              registeredStudents s' !! i = Some st))
  /\ (JS.find (fun d => String.eqb (Department.id d) id) (departments s) = None ->
      handleEditDepartment id newName updated s = s).
Proof.
  split.
  - intros old u Hfind ->. cbv zeta. unfold handleEditDepartment. rewrite Hfind.
    simpl. split; [apply length_map|].
    intros i st Hst. rewrite list_lookup_fmap, Hst. simpl. split.
    + intros Hdep. apply String.eqb_eq in Hdep. rewrite Hdep.
      eexists. split; [reflexivity|]. split; reflexivity.
    + intros Hdep. apply String.eqb_neq in Hdep. rewrite Hdep. reflexivity.
  - intros Hfind. unfold handleEditDepartment. rewrite Hfind. reflexivity.
Qed.

Lemma department_rename_propagation_witness :
  let s' := handleEditDepartment "dept-1" "Applied Physics"
              (Resolved (Department.mk "dept-1" "Applied Physics" true "2025-01-01"))
              loaded_state in
  registeredStudents s' !! 1%nat = Some other_student
  /\ (exists st', registeredStudents s' !! 0%nat = Some st'
                  /\ RegisteredStudent.department st' = "Applied Physics")
  /\ handleEditDepartment "dept-9" "Applied Physics" unreachable loaded_state
     = loaded_state.
Proof.
  cbv zeta.
  pose proof (department_rename_propagation "dept-1" "Applied Physics"
                (Resolved (Department.mk "dept-1" "Applied Physics" true "2025-01-01"))
                loaded_state) as [H _].
  specialize (H sample_department _ eq_refl eq_refl). cbv zeta in H.
  destruct H as [_ H].
  split; [|split].
  - apply (H 1%nat other_student eq_refl). discriminate.
  - destruct (proj1 (H 0%nat sample_student eq_refl) eq_refl) as (st' & Hl & Hd & _).
    exists st'. split; assumption.
  - apply (department_rename_propagation "dept-9" "Applied Physics" unreachable
             loaded_state).
    reflexivity.
Defined.

(** * Further properties of the component *)

(** ** The report map as an object *)

Lemma proto_in_Object_prototype : "__proto__" ∈ Object_prototype.
Proof. unfold Object_prototype. set_solver. Qed.

(** Under a key that names no member of [Object.prototype], an object
    whose prototype was not replaced behaves as the finite map of its own
    properties. *)
Lemma Reports_get_ordinary (m : gmap string StudentReport.t) (key : string) :
  key ∉ Object_prototype ->
  Reports.get (Reports.mk m None) key
  = match m !! key with
    | Some r => Reports.Report r
    | None => Reports.Undefined
    end.
Proof.
  intros Hkey. unfold Reports.get, Reports.inherited; simpl.
  destruct (m !! key); [reflexivity|].
  destruct (String.eqb key "__proto__") eqn:Heq.
  - apply String.eqb_eq in Heq. subst key.
    destruct Hkey. apply proto_in_Object_prototype.
  - rewrite bool_decide_eq_false_2 by assumption. reflexivity.
Qed.

Lemma Reports_set_ordinary (o : Reports.t) (key : string) (r : StudentReport.t) :
  key ∉ Object_prototype ->
  Reports.set key r o = Reports.mk (<[ key := r ]> (Reports.own o)) (Reports.prototype o).
Proof.
  intros Hkey. unfold Reports.set.
  destruct (Reports.own o !! key); [reflexivity|].
  destruct (String.eqb key "__proto__") eqn:Heq; [|reflexivity].
  apply String.eqb_eq in Heq. subst key.
  destruct Hkey. apply proto_in_Object_prototype.
Qed.

(** A read that finds neither an own property nor [undefined]. *)
Lemma Reports_get_inherited (m : gmap string StudentReport.t) (key : string) :
  key ∈ Object_prototype -> m !! key = None ->
  Reports.get (Reports.mk m None) key = Reports.Foreign.
Proof.
  intros Hkey Hown. unfold Reports.get, Reports.inherited; simpl.
  rewrite Hown. destruct (String.eqb key "__proto__"); [reflexivity|].
  by rewrite bool_decide_eq_true_2.
Qed.

(** ** Coordinator reports kept by [handleAddProgram] and [handleEditProgram] *)

Lemma add_coordinated_ordinary (cp : CoordinatedProgram.t)
    (keep : list CoordinatedProgram.t -> list CoordinatedProgram.t)
    (m : gmap string StudentReport.t) (x : string) :
  keep [] = [] -> x ∉ Object_prototype ->
  add_coordinated cp keep (Some (Reports.mk m None)) x
  = Some (Reports.mk (add_own cp keep m x) None).
Proof.
  intros Hkeep Hx. unfold add_coordinated, add_own.
  rewrite Reports_get_ordinary by assumption.
  destruct (m !! x) as [r|]; rewrite Reports_set_ordinary by assumption;
    simpl; [reflexivity|]. by rewrite Hkeep.
Qed.

Lemma foldl_add_coordinated_ordinary (cp : CoordinatedProgram.t)
    (keep : list CoordinatedProgram.t -> list CoordinatedProgram.t)
    (ids : list string) (m : gmap string StudentReport.t) :
  keep [] = [] -> ordinary ids ->
  foldl (add_coordinated cp keep) (Some (Reports.mk m None)) ids
  = Some (Reports.mk (foldl (add_own cp keep) m ids) None).
Proof.
  intros Hkeep. revert m. induction ids as [|x ids IH]; intros m Hids.
  - reflexivity.
  - cbn [foldl]. rewrite add_coordinated_ordinary; [|assumption|apply Hids; by left].
    apply IH. intros sid Hsid. apply Hids. by right.
Qed.

Lemma remove_coordinated_ordinary (id : string)
    (m : gmap string StudentReport.t) (x : string) :
  x ∉ Object_prototype ->
  remove_coordinated id (Reports.mk m None) x = Reports.mk (remove_own id m x) None.
Proof.
  intros Hx. unfold remove_coordinated, remove_own.
  rewrite Reports_get_ordinary by assumption.
  destruct (m !! x) as [r|]; [|reflexivity].
  by rewrite Reports_set_ordinary by assumption.
Qed.

Lemma foldl_remove_coordinated_ordinary (id : string) (ids : list string)
    (m : gmap string StudentReport.t) :
  ordinary ids ->
  foldl (remove_coordinated id) (Reports.mk m None) ids
  = Reports.mk (foldl (remove_own id) m ids) None.
Proof.
  revert m. induction ids as [|x ids IH]; intros m Hids.
  - reflexivity.
  - cbn [foldl]. rewrite remove_coordinated_ordinary by (apply Hids; by left).
    apply IH. intros sid Hsid. apply Hids. by right.
Qed.

Lemma foldl_add_coordinated_None (cp : CoordinatedProgram.t)
    (keep : list CoordinatedProgram.t -> list CoordinatedProgram.t)
    (ids : list string) :
  foldl (add_coordinated cp keep) None ids = None.
Proof. induction ids as [|x ids IH]; [reflexivity|exact IH]. Qed.

(** The [forEach] throws when it meets an id that names a member of
    [Object.prototype] and has no own property. *)
Lemma foldl_add_coordinated_throws (cp : CoordinatedProgram.t)
    (keep : list CoordinatedProgram.t -> list CoordinatedProgram.t)
    (ids : list string) (m : gmap string StudentReport.t) (sid : string) :
  sid ∈ ids -> sid ∈ Object_prototype -> m !! sid = None ->
  foldl (add_coordinated cp keep) (Some (Reports.mk m None)) ids = None.
Proof.
  intros Hin Hsid. revert m. induction ids as [|x ids IH]; intros m Hown.
  - by apply elem_of_nil in Hin.
  - cbn [foldl]. destruct (decide (x = sid)) as [->|Hne].
    + unfold add_coordinated at 2.
      rewrite Reports_get_inherited by assumption.
      apply foldl_add_coordinated_None.
    + apply elem_of_cons in Hin as [Heq|Hin]; [congruence|].
      unfold add_coordinated at 2. unfold Reports.get, Reports.set; simpl.
      destruct (m !! x) as [r|] eqn:Hx.
      * apply IH; [assumption|]. by rewrite lookup_insert_ne.
      * destruct (String.eqb x "__proto__");
          [apply foldl_add_coordinated_None|].
        destruct (Reports.inherited _ _);
          [apply foldl_add_coordinated_None|].
        apply IH; [assumption|]. by rewrite lookup_insert_ne.
Qed.

(** Whatever the ids are, the [forEach] leaves the own properties under
    other keys alone. *)
Lemma Reports_set_other (key sid : string) (r : StudentReport.t) (o : Reports.t) :
  key ≠ sid ->
  Reports.own (Reports.set key r o) !! sid = Reports.own o !! sid.
Proof.
  intros Hne. unfold Reports.set.
  destruct (Reports.own o !! key); simpl; [by rewrite lookup_insert_ne|].
  destruct (String.eqb key "__proto__"); simpl; [reflexivity|].
  by rewrite lookup_insert_ne.
Qed.

Lemma foldl_add_coordinated_other (cp : CoordinatedProgram.t)
    (keep : list CoordinatedProgram.t -> list CoordinatedProgram.t)
    (ids : list string) (o o' : Reports.t) (sid : string) :
  sid ∉ ids ->
  foldl (add_coordinated cp keep) (Some o) ids = Some o' ->
  Reports.own o' !! sid = Reports.own o !! sid.
Proof.
  revert o. induction ids as [|x ids IH]; intros o Hnotin Hfold.
  - injection Hfold as <-. reflexivity.
  - apply not_elem_of_cons in Hnotin as [Hne Hnotin]. cbn [foldl] in Hfold.
    destruct (add_coordinated cp keep (Some o) x) as [o1|] eqn:Hstep.
    + rewrite (IH o1 Hnotin Hfold). unfold add_coordinated in Hstep.
      destruct (Reports.get o x); try discriminate;
        injection Hstep as <-; apply Reports_set_other; congruence.
    + by rewrite foldl_add_coordinated_None in Hfold.
Qed.

Lemma add_own_lookup (cp : CoordinatedProgram.t)
    (keep : list CoordinatedProgram.t -> list CoordinatedProgram.t)
    (m : gmap string StudentReport.t) (x sid : string) :
  add_own cp keep m x !! sid
  = if decide (x = sid)
    then Some (StudentReport.object (acts_of (m !! sid))
                 (cp :: keep (cps_of (m !! sid))))
    else m !! sid.
Proof.
  unfold add_own. destruct (decide (x = sid)) as [->|Hne].
  - by rewrite lookup_insert_eq.
  - by rewrite lookup_insert_ne.
Qed.

Lemma remove_own_lookup (id : string) (m : gmap string StudentReport.t)
    (x sid : string) :
  remove_own id m x !! sid
  = if decide (x = sid)
    then StudentReport.with_coordinatedPrograms
           (other_programs id (m !! sid)) <$> m !! sid
    else m !! sid.
Proof.
  unfold remove_own.
  destruct (decide (x = sid)) as [->|Hne].
  - destruct (m !! sid) as [r|] eqn:Hr; simpl.
    + by rewrite lookup_insert_eq.
    + exact Hr.
  - destruct (m !! x); [by rewrite lookup_insert_ne|reflexivity].
Qed.

Lemma foldl_add_own_notin (cp : CoordinatedProgram.t)
    (keep : list CoordinatedProgram.t -> list CoordinatedProgram.t)
    (ids : list string) (m : gmap string StudentReport.t) (sid : string) :
  sid ∉ ids ->
  foldl (add_own cp keep) m ids !! sid = m !! sid.
Proof.
  revert m. induction ids as [|x ids IH]; intros m Hnotin; simpl.
  - reflexivity.
  - apply not_elem_of_cons in Hnotin as [Hne Hnotin].
    rewrite IH by assumption. rewrite add_own_lookup.
    destruct (decide (x = sid)); congruence.
Qed.

Lemma foldl_remove_own_notin (id : string) (ids : list string)
    (m : gmap string StudentReport.t) (sid : string) :
  sid ∉ ids -> foldl (remove_own id) m ids !! sid = m !! sid.
Proof.
  revert m. induction ids as [|x ids IH]; intros m Hnotin; simpl.
  - reflexivity.
  - apply not_elem_of_cons in Hnotin as [Hne Hnotin].
    rewrite IH by assumption. rewrite remove_own_lookup.
    destruct (decide (x = sid)); congruence.
Qed.

(** The program is put first in the report of every listed student; when
    [step (step l) = step l] for [step l = cp :: keep l], listing a
    student twice makes no difference. *)
Lemma foldl_add_own_in_idem (cp : CoordinatedProgram.t)
    (keep : list CoordinatedProgram.t -> list CoordinatedProgram.t)
    (ids : list string) (m : gmap string StudentReport.t) (sid : string) :
  (forall l, keep (cp :: keep l) = keep l) ->
  sid ∈ ids ->
  foldl (add_own cp keep) m ids !! sid
  = Some (StudentReport.object (acts_of (m !! sid)) (cp :: keep (cps_of (m !! sid)))).
Proof.
  intros Hidem. revert m. induction ids as [|x ids IH]; intros m Hin.
  - by apply elem_of_nil in Hin.
  - simpl. destruct (decide (sid ∈ ids)) as [Hin'|Hnotin].
    + rewrite IH by assumption. rewrite add_own_lookup.
      destruct (decide (x = sid)); simpl; [|reflexivity].
      by rewrite Hidem.
    + apply elem_of_cons in Hin as [->|Hin]; [|contradiction].
      rewrite foldl_add_own_notin by assumption.
      rewrite add_own_lookup. by rewrite decide_True.
Qed.

(** Without duplicates in the list, whatever [keep] is. *)
Lemma foldl_add_own_in_nodup (cp : CoordinatedProgram.t)
    (keep : list CoordinatedProgram.t -> list CoordinatedProgram.t)
    (ids : list string) (m : gmap string StudentReport.t) (sid : string) :
  NoDup ids -> sid ∈ ids ->
  foldl (add_own cp keep) m ids !! sid
  = Some (StudentReport.object (acts_of (m !! sid)) (cp :: keep (cps_of (m !! sid)))).
Proof.
  revert m. induction ids as [|x ids IH]; intros m Hnodup Hin.
  - by apply elem_of_nil in Hin.
  - simpl. apply NoDup_cons in Hnodup as [Hx Hnodup].
    apply elem_of_cons in Hin as [->|Hin].
    + rewrite foldl_add_own_notin by assumption.
      rewrite add_own_lookup. by rewrite decide_True.
    + rewrite IH by assumption. rewrite add_own_lookup.
      rewrite decide_False; [reflexivity|]. intros ->. contradiction.
Qed.

Lemma foldl_remove_own_in (id : string) (ids : list string)
    (m : gmap string StudentReport.t) (sid : string) :
  sid ∈ ids ->
  foldl (remove_own id) m ids !! sid
  = StudentReport.with_coordinatedPrograms
      (other_programs id (m !! sid)) <$> m !! sid.
Proof.
  revert m. induction ids as [|x ids IH]; intros m Hin.
  - by apply elem_of_nil in Hin.
  - simpl. destruct (decide (sid ∈ ids)) as [Hin'|Hnotin].
    + rewrite IH by assumption. rewrite remove_own_lookup.
      destruct (decide (x = sid)); [|reflexivity].
      destruct (m !! sid) as [r|]; simpl; [|reflexivity].
      unfold StudentReport.with_coordinatedPrograms, other_programs; simpl.
      by rewrite list_filter_filter_l by tauto.
    + apply elem_of_cons in Hin as [->|Hin]; [|contradiction].
      rewrite foldl_remove_own_notin by assumption.
      rewrite remove_own_lookup. by rewrite decide_True.
Qed.

Lemma requests_foldl_report_updates (reportUpdated : string -> Outcome unit)
    (ids : list string) (s : State) :
  let s' := foldl (fun s studentId =>
                     call_ignoring_failure (studentReports_update studentId)
                       (reportUpdated studentId) s) s ids in
  requests s' = requests s ++ map studentReports_update ids
  /\ forget_trace s' = forget_trace s.
Proof.
  cbv zeta. revert s. induction ids as [|x ids IH]; intros s; simpl.
  - by rewrite app_nil_r.
  - destruct (IH (call_ignoring_failure (studentReports_update x) (reportUpdated x) s))
      as [Hreq Hst].
    rewrite Hreq, Hst, call_ignoring_failure_call, requests_call, <- app_assoc.
    split; reflexivity.
Qed.

Lemma foldl_add_own_in_head (cp : CoordinatedProgram.t)
    (keep : list CoordinatedProgram.t -> list CoordinatedProgram.t)
    (ids : list string) (m : gmap string StudentReport.t) (sid : string) :
  sid ∈ ids ->
  exists rest,
    foldl (add_own cp keep) m ids !! sid
    = Some (StudentReport.object (acts_of (m !! sid)) (cp :: rest)).
Proof.
  revert m. induction ids as [|x ids IH]; intros m Hin.
  - by apply elem_of_nil in Hin.
  - simpl. destruct (decide (sid ∈ ids)) as [Hin'|Hnotin].
    + destruct (IH (add_own cp keep m x) Hin') as [rest Hrest].
      exists rest. rewrite Hrest. rewrite add_own_lookup.
      destruct (decide (x = sid)); reflexivity.
    + apply elem_of_cons in Hin as [->|Hin]; [|contradiction].
      rewrite foldl_add_own_notin by assumption.
      rewrite add_own_lookup.
      rewrite decide_True by reflexivity. eauto.
Qed.

Lemma alerts_foldl_report_updates (reportUpdated : string -> Outcome unit)
    (ids : list string) (s : State) :
  alerts (foldl (fun s studentId =>
                   call_ignoring_failure (studentReports_update studentId)
                     (reportUpdated studentId) s) s ids)
  = alerts s.
Proof.
  revert s. induction ids as [|x ids IH]; intros s; simpl; [reflexivity|].
  rewrite IH, call_ignoring_failure_call. apply alerts_call.
Qed.

(** X1. A successful [handleAddProgram] asks the backend once to create
    the program and once per named coordinator to update the report, and
    alerts nothing.  When no named id is the name of a member of
    [Object.prototype], the new program is put first in the list and its
    report entry first in the report of every student named, the report
    being created when there is none and its activities kept; reports of
    other students are untouched.  An id that names such a member and
    has no report of its own makes the update throw when React renders:
    neither the program nor any report is stored, although all the
    requests have been sent. *)
Theorem add_program_updates_coordinator_reports (programData : ProgramData.t)
    (newProgram : Program.t) (formattedStart : string)
    (reportUpdated : string -> Outcome unit) (s : State) :
  let ids := default [] (ProgramData.coordinatorIds programData) in
  let cp := coordinatedProgram_of_new newProgram formattedStart in
  let s' := handleAddProgram programData (Resolved newProgram) formattedStart
              reportUpdated s in
  requests s' = requests s ++ programs_create :: map studentReports_update ids
  /\ alerts s' = alerts s
  /\ (ordinary ids ->
      programs s' = newProgram :: programs s
      /\ render_error s' = render_error s
      /\ (forall sid, sid ∉ ids ->
            studentReports s' !! sid = studentReports s !! sid)
      /\ (forall sid, sid ∈ ids ->
            exists rest,
              studentReports s' !! sid
              = Some (StudentReport.object (acts_of (studentReports s !! sid))
                        (cp :: rest)))
      /\ (NoDup ids -> forall sid, sid ∈ ids ->
            studentReports s' !! sid
            = Some (StudentReport.object (acts_of (studentReports s !! sid))
                      (cp :: cps_of (studentReports s !! sid)))))
  /\ (forall sid, sid ∈ ids -> sid ∈ Object_prototype ->
        studentReports s !! sid = None ->
        render_error s' = true /\ domain s' = domain s).
Proof.
  cbv zeta. unfold handleAddProgram.
  destruct (ProgramData.coordinatorIds programData) as [[|c ids]|];
    cbv beta iota; simpl default.
  1, 3: (split; [unfold requests; simpl; rewrite omap_app; reflexivity|]);
        (split; [unfold alerts; simpl; rewrite omap_app; simpl;
                 apply app_nil_r|]);
        (split; [intros _; split; [reflexivity|]; split; [reflexivity|];
                 split; [reflexivity|];
                 split; [intros sid Hin; by apply elem_of_nil in Hin|];
                 intros _ sid Hin; by apply elem_of_nil in Hin|]);
        intros sid Hin; by apply elem_of_nil in Hin.
  remember (c :: ids) as l eqn:Hl. clear Hl c ids.
  match goal with
  | |- context [foldl ?f ?s0 l] =>
      destruct (requests_foldl_report_updates reportUpdated l s0)
        as [Hreq Hst];
      pose proof (alerts_foldl_report_updates reportUpdated l s0) as Hal;
      cbv zeta in Hreq, Hst;
      set (s1 := s0) in *
  end.
  assert (Hs1 : requests s1 = requests s ++ [programs_create]
                /\ alerts s1 = alerts s).
  { unfold s1. destruct (foldl _ _ l); unfold requests, alerts; simpl;
      rewrite !omap_app; simpl; rewrite app_nil_r; split; reflexivity. }
  destruct Hs1 as [Hreq1 Hal1].
  split; [rewrite Hreq, Hreq1, <- app_assoc; reflexivity|].
  split; [rewrite Hal; exact Hal1|].
  split.
  - intros Hids.
    assert (Hs1 : s1 = setStudentReports_object
                         (Reports.mk (foldl (add_own
                                               (coordinatedProgram_of_new
                                                  newProgram formattedStart)
                                               (fun l => l))
                                        (studentReports s) l) None)
                         (setPrograms (fun prev => newProgram :: prev)
                            (call programs_create s))).
    { unfold s1, Reports.copy, studentReports_object; simpl.
      by rewrite foldl_add_coordinated_ordinary. }
    clearbody s1. subst s1.
    pose proof (f_equal studentReports Hst) as Hrep. simpl in Hrep.
    pose proof (f_equal programs Hst) as Hprog. simpl in Hprog.
    pose proof (f_equal render_error Hst) as Herr. simpl in Herr.
    split; [exact Hprog|]. split; [exact Herr|].
    split; [|split].
    + intros sid Hnotin. rewrite Hrep. by apply foldl_add_own_notin.
    + intros sid Hin. rewrite Hrep. by apply foldl_add_own_in_head.
    + intros Hnodup sid Hin. rewrite Hrep.
      by apply (foldl_add_own_in_nodup _ (fun l => l)).
  - intros sid Hin Hsid Hown.
    assert (Hs1 : s1 = render_throws (call programs_create s)).
    { unfold s1, Reports.copy, studentReports_object; simpl.
      by rewrite (foldl_add_coordinated_throws _ _ _ _ sid). }
    clearbody s1. subst s1.
    pose proof (f_equal render_error Hst) as Herr. simpl in Herr.
    pose proof (f_equal domain Hst) as Hdom.
    split; [exact Herr|exact Hdom].
Qed.

Lemma add_program_updates_coordinator_reports_witness :
  let s' := handleAddProgram sample_programData (Resolved created_program)
              "09:00" (fun _ => unreachable) loaded_state in
  studentReports s' !! "U100"
  = Some (StudentReport.object (StudentReport.activities sample_report)
            [coordinatedProgram_of_new created_program "09:00"])
  /\ studentReports s' !! "U200" = Some (StudentReport.mk [] []).
Proof.
  cbv zeta.
  pose proof (add_program_updates_coordinator_reports sample_programData
                created_program "09:00" (fun _ => unreachable) loaded_state) as H.
  cbv zeta in H. destruct H as (_ & _ & Hordinary & _).
  destruct Hordinary as (_ & _ & Hother & _ & Hin).
  { intros sid Hsid. apply list_elem_of_singleton in Hsid as ->.
    unfold Object_prototype. set_solver. }
  split.
  - rewrite (Hin ltac:(repeat constructor; set_solver) "U100"); [reflexivity|].
    set_solver.
  - rewrite (Hother "U200"); [reflexivity|]. set_solver.
Defined.

Lemma filter_other_cons (id : string) (cp : CoordinatedProgram.t)
    (l : list CoordinatedProgram.t) :
  CoordinatedProgram.id cp = id ->
  filter (fun p => CoordinatedProgram.id p ≠ id)
    (cp :: filter (fun p => CoordinatedProgram.id p ≠ id) l)
  = filter (fun p => CoordinatedProgram.id p ≠ id) l.
Proof.
  intros Hid. rewrite filter_cons_False by (intros Hne; by apply Hne).
  apply list_filter_filter_l. tauto.
Qed.

(** The reports after the removal pass of [handleEditProgram]: the
    activities and the entries about other programs are as before. *)
Lemma removal_pass_keeps (id : string) (oldIds : option (list string))
    (m : gmap string StudentReport.t) (sid : string) :
  let m1 := match oldIds with
            | Some ids => foldl (remove_own id) m ids
            | None => m
            end in
  acts_of (m1 !! sid) = acts_of (m !! sid)
  /\ other_programs id (m1 !! sid) = other_programs id (m !! sid)
  /\ (sid ∉ default [] oldIds -> m1 !! sid = m !! sid)
  /\ (sid ∈ default [] oldIds ->
      m1 !! sid = StudentReport.with_coordinatedPrograms
                    (other_programs id (m !! sid)) <$> m !! sid).
Proof.
  cbv zeta. destruct oldIds as [ids|]; simpl default.
  - destruct (decide (sid ∈ ids)) as [Hin|Hnotin].
    + rewrite foldl_remove_own_in by assumption.
      repeat apply conj; try done.
      * destruct (m !! sid); reflexivity.
      * unfold other_programs. destruct (m !! sid); simpl; [|reflexivity].
        apply list_filter_filter_l. tauto.
    + rewrite foldl_remove_own_notin by assumption.
      repeat apply conj; done.
  - repeat apply conj; try done. intros Hin. by apply elem_of_nil in Hin.
Qed.

(** The state after a successful [handleEditProgram] that names no member
    of [Object.prototype], in closed form. *)
Lemma handleEditProgram_resolved (id : string) (programData : ProgramData.t)
    (updatedProgram oldProgram : Program.t) (newIds : list string) (s : State) :
  JS.find (fun p => String.eqb (Program.id p) id) (programs s) = Some oldProgram ->
  ProgramData.coordinatorIds programData = Some newIds ->
  ordinary (default [] (Program.coordinatorIds oldProgram)) ->
  ordinary newIds ->
  let s' := handleEditProgram id programData (Resolved updatedProgram) s in
  studentReports s'
  = foldl (add_own (coordinatedProgram_of_edit id programData oldProgram)
             (filter (fun p => CoordinatedProgram.id p ≠ id)))
      (match Program.coordinatorIds oldProgram with
       | Some ids => foldl (remove_own id) (studentReports s) ids
       | None => studentReports s
       end)
      newIds
  /\ programs s' = replace_by_id Program.id id updatedProgram (programs s)
  /\ render_error s' = render_error s
  /\ trace s' = trace s ++ [Call (programs_update id)].
Proof.
  intros Hfind Hnew Hold Hids. cbv zeta. unfold handleEditProgram.
  rewrite Hfind, Hnew.
  destruct (Program.coordinatorIds oldProgram) as [oldIds|]; simpl in Hold.
  - unfold Reports.copy, studentReports_object; simpl.
    rewrite foldl_remove_coordinated_ordinary by assumption. simpl.
    destruct newIds as [|n newIds]; [repeat split; reflexivity|].
    remember (n :: newIds) as l eqn:Hl. clear Hl n newIds.
    unfold coordinatedProgram_of_edit.
    rewrite foldl_add_coordinated_ordinary by done.
    repeat split; reflexivity.
  - destruct newIds as [|n newIds]; [repeat split; reflexivity|].
    remember (n :: newIds) as l eqn:Hl. clear Hl n newIds.
    unfold Reports.copy, studentReports_object, coordinatedProgram_of_edit;
      simpl.
    rewrite foldl_add_coordinated_ordinary by done.
    repeat split; reflexivity.
Qed.

(** X2. A successful [handleEditProgram] of a program known locally, with
    a coordinator list in the form, where no id of the old or the new
    list is the name of a member of [Object.prototype]: every student in
    the new list has the edited program as first and only entry with that
    id in the report (also when listed twice), followed by the entries of
    other programs; a student only in the old list loses the entry; every
    other report is untouched, and no activity changes anywhere.  *)
Theorem edit_program_updates_coordinator_reports (id : string)
    (programData : ProgramData.t) (updatedProgram oldProgram : Program.t)
    (newIds : list string) (s : State) :
  JS.find (fun p => String.eqb (Program.id p) id) (programs s) = Some oldProgram ->
  ProgramData.coordinatorIds programData = Some newIds ->
  let oldIds := default [] (Program.coordinatorIds oldProgram) in
  ordinary oldIds -> ordinary newIds ->
  let cp := coordinatedProgram_of_edit id programData oldProgram in
  let s' := handleEditProgram id programData (Resolved updatedProgram) s in
  (forall sid, sid ∈ newIds ->
     studentReports s' !! sid
     = Some (StudentReport.object (acts_of (studentReports s !! sid))
               (cp :: other_programs id (studentReports s !! sid))))
  /\ (forall sid, sid ∉ newIds -> sid ∈ oldIds ->
        studentReports s' !! sid
        = StudentReport.with_coordinatedPrograms
            (other_programs id (studentReports s !! sid))
            <$> studentReports s !! sid)
  /\ (forall sid, sid ∉ newIds -> sid ∉ oldIds ->
        studentReports s' !! sid = studentReports s !! sid)
  /\ (forall sid, acts_of (studentReports s' !! sid)
                  = acts_of (studentReports s !! sid))
  /\ programs s' = replace_by_id Program.id id updatedProgram (programs s)
  /\ render_error s' = render_error s
  /\ trace s' = trace s ++ [Call (programs_update id)].
Proof.
  intros Hfind Hnew oldIds Hold Hids. cbv zeta.
  destruct (handleEditProgram_resolved id programData updatedProgram oldProgram
              newIds s Hfind Hnew Hold Hids) as (Hrep & Hprog & Herr & Htrace).
  cbv zeta in Hrep, Hprog, Herr, Htrace.
  rewrite Hrep, Hprog, Herr, Htrace. clear Hrep Hprog Herr Htrace.
  pose proof (fun sid => removal_pass_keeps id (Program.coordinatorIds oldProgram)
                           (studentReports s) sid) as Hpass.
  cbv zeta in Hpass.
  set (m1 := match Program.coordinatorIds oldProgram with
             | Some ids => foldl (remove_own id) (studentReports s) ids
             | None => studentReports s
             end) in *.
  set (keep := filter (fun p : CoordinatedProgram.t => CoordinatedProgram.id p ≠ id)).
  assert (Hidem : forall l,
             keep (coordinatedProgram_of_edit id programData oldProgram :: keep l)
             = keep l).
  { intros l. by apply filter_other_cons. }
  split; [|split; [|split; [|split; [|split; [|split]]]]]; try reflexivity.
  - intros sid Hin.
    rewrite foldl_add_own_in_idem by assumption.
    destruct (Hpass sid) as (Ha & Ho & _). unfold other_programs in *.
    fold keep in Ho. by rewrite Ha, Ho.
  - intros sid Hnotin Hin.
    rewrite foldl_add_own_notin by assumption. by apply Hpass.
  - intros sid Hnotin Hnot.
    rewrite foldl_add_own_notin by assumption. by apply Hpass.
  - intros sid. destruct (decide (sid ∈ newIds)) as [Hin|Hnotin].
    + rewrite foldl_add_own_in_idem by assumption. simpl.
      by apply Hpass.
    + rewrite foldl_add_own_notin by assumption. by apply Hpass.
Qed.

Lemma edit_program_updates_coordinator_reports_witness :
  let s' := handleEditProgram "P2" edited_programData (Resolved created_program)
              coordinating_state in
  studentReports s' !! "U100"
  = Some (StudentReport.object (StudentReport.activities sample_report) [])
  /\ studentReports s' !! "U200"
     = Some (StudentReport.mk []
               [coordinatedProgram_of_edit "P2" edited_programData created_program]).
Proof.
  cbv zeta.
  assert (Hold : ordinary ["U100"]).
  { intros sid Hsid. apply list_elem_of_singleton in Hsid as ->.
    unfold Object_prototype. set_solver. }
  assert (Hids : ordinary ["U200"; "U200"]).
  { intros sid Hsid. assert (sid = "U200") as -> by set_solver.
    unfold Object_prototype. set_solver. }
  pose proof (edit_program_updates_coordinator_reports "P2" edited_programData
                created_program created_program ["U200"; "U200"]
                coordinating_state eq_refl eq_refl Hold Hids) as H.
  cbv zeta in H. destruct H as (Hnew & Hremoved & _).
  split.
  - rewrite (Hremoved "U100"); [reflexivity| |]; set_solver.
  - rewrite (Hnew "U200"); [reflexivity|]. set_solver.
Defined.
(** ** Deleting a program or a coordinator *)

(** X3. A successful [handleDeleteProgram] removes exactly the programs
    with the given id, keeping the others in order, and changes nothing
    else: unlike the deletion of a student there is no cascade, so report
    entries that name the deleted program as coordinated stay. *)
Theorem delete_program_no_cascade (id : string) (s : State) :
  let s' := handleDeleteProgram id (Resolved tt) s in
  programs s' = filter (fun p => Program.id p ≠ id) (programs s)
  /\ (forall p, (p ∈ programs s') <-> (p ∈ programs s /\ Program.id p ≠ id))
  /\ JS.find (fun p => String.eqb (Program.id p) id) (programs s') = None
  /\ studentReports s' = studentReports s
  /\ registeredStudents s' = registeredStudents s
  /\ trace s' = trace s ++ [Call (programs_delete id)].
Proof.
  cbv zeta. unfold handleDeleteProgram; simpl.
  split; [reflexivity|]. split; [|split; [|repeat split]].
  - intros p. rewrite list_elem_of_filter. tauto.
  - induction (programs s) as [|p l IH]; [reflexivity|].
    destruct (decide (Program.id p ≠ id)) as [Hne|Heq].
    + rewrite filter_cons_True by assumption. simpl.
      apply String.eqb_neq in Hne. by rewrite Hne.
    + by rewrite filter_cons_False by assumption.
Qed.

(** ** Reports loaded at start-up *)

Lemma last_filter_snoc {A} (P : A -> Prop) `{forall x, Decision (P x)}
    (x : A) (l : list A) :
  last (filter P (l ++ [x]))
  = if decide (P x) then Some x else last (filter P l).
Proof.
  rewrite filter_app. destruct (decide (P x)) as [HP|HP].
  - rewrite (filter_cons_True P x []) by assumption. simpl.
    apply last_snoc.
  - rewrite (filter_cons_False P x []) by assumption. simpl.
    by rewrite app_nil_r.
Qed.

Lemma reportsMap_of_snoc (l : list StudentReportApiResponse.t)
    (x : StudentReportApiResponse.t) :
  reportsMap_of (l ++ [x])
  = Reports.set (StudentReportApiResponse.studentId x) (report_of_response x)
      (reportsMap_of l).
Proof. unfold reportsMap_of. by rewrite foldl_app. Qed.

(** The own properties and the prototype of [reportsMap]. *)
Lemma reportsMap_of_shape (reportsData : list StudentReportApiResponse.t) :
  let sent k := report_of_response
                  <$> last (filter (fun r => StudentReportApiResponse.studentId r = k)
                              reportsData) in
  (forall k, Reports.own (reportsMap_of reportsData) !! k
             = if decide (k = "__proto__") then None else sent k)
  /\ Reports.prototype (reportsMap_of reportsData) = sent "__proto__".
Proof.
  cbv zeta. induction reportsData as [|x l [IHown IHproto]] using rev_ind.
  - split; [|reflexivity]. intros k.
    change (Reports.own (reportsMap_of [])) with (∅ : gmap string StudentReport.t).
    rewrite lookup_empty. by destruct (decide _).
  - rewrite reportsMap_of_snoc. unfold Reports.set.
    set (key := StudentReportApiResponse.studentId x).
    destruct (decide (key = "__proto__")) as [Hkey|Hkey].
    + rewrite (IHown key), decide_True by assumption.
      rewrite (proj2 (String.eqb_eq _ _) Hkey). simpl. split.
      * intros k. rewrite IHown, last_filter_snoc.
        destruct (decide (k = "__proto__")) as [->|Hk]; [reflexivity|].
        fold key. rewrite decide_False by congruence. reflexivity.
      * rewrite last_filter_snoc. fold key. by rewrite decide_True.
    + assert (Hset : forall r : StudentReport.t,
                match Reports.own (reportsMap_of l) !! key with
                | Some _ =>
                    Reports.mk (<[key := r]> (Reports.own (reportsMap_of l)))
                      (Reports.prototype (reportsMap_of l))
                | None =>
                    if String.eqb key "__proto__"
                    then Reports.mk (Reports.own (reportsMap_of l)) (Some r)
                    else Reports.mk (<[key := r]> (Reports.own (reportsMap_of l)))
                           (Reports.prototype (reportsMap_of l))
                end
                = Reports.mk (<[key := r]> (Reports.own (reportsMap_of l)))
                    (Reports.prototype (reportsMap_of l))).
      { intros r. destruct (_ !! key); [reflexivity|].
        by rewrite (proj2 (String.eqb_neq _ _) Hkey). }
      rewrite Hset. simpl. split.
      * intros k. rewrite last_filter_snoc. fold key.
        destruct (decide (key = k)) as [<-|Hk].
        -- rewrite lookup_insert_eq, decide_False by assumption. reflexivity.
        -- rewrite lookup_insert_ne by assumption. apply IHown.
      * rewrite IHproto, last_filter_snoc. fold key.
        by rewrite decide_False.
Qed.

(** X4. In the report map built at start-up, reading the map under a
    student id yields a report exactly when the backend sent one for that
    id, the last one sent when there are several, with missing
    [activities] or [coordinatedPrograms] as empty lists.  The report
    sent for the id [__proto__] is no property of the map: it becomes its
    prototype.  Under an id for which no report was sent the map reads as
    [undefined], unless the id names a member of [Object.prototype] or,
    when a report was sent for [__proto__], a member of a report: then it
    reads as a value that is no report. *)
Theorem reportsMap_last_wins (reportsData : list StudentReportApiResponse.t)
    (k : string) :
  let sent k := report_of_response
                  <$> last (filter (fun r => StudentReportApiResponse.studentId r = k)
                              reportsData) in
  let reportsMap := reportsMap_of reportsData in
  Reports.own reportsMap !! k = (if decide (k = "__proto__") then None else sent k)
  /\ Reports.prototype reportsMap = sent "__proto__"
  /\ (forall r, sent k = Some r -> Reports.get reportsMap k = Reports.Report r)
  /\ (sent k = None -> k ∈ Object_prototype ->
      Reports.get reportsMap k = Reports.Foreign)
  /\ (sent k = None -> is_Some (sent "__proto__") ->
      k = "activities" \/ k = "coordinatedPrograms" ->
      Reports.get reportsMap k = Reports.Foreign)
  /\ (sent k = None -> k ∉ Object_prototype ->
      sent "__proto__" = None \/ (k <> "activities" /\ k <> "coordinatedPrograms") ->
      Reports.get reportsMap k = Reports.Undefined).
Proof.
  cbv zeta. destruct (reportsMap_of_shape reportsData) as [Hown Hproto].
  cbv zeta in Hown, Hproto.
  split; [apply Hown|]. split; [exact Hproto|].
  assert (Hget : forall own,
            Reports.own (reportsMap_of reportsData) !! k = own ->
            Reports.get (reportsMap_of reportsData) k
            = match own with
              | Some r => Reports.Report r
              | None =>
                  if String.eqb k "__proto__" then
                    match Reports.prototype (reportsMap_of reportsData) with
                    | Some r => Reports.Report r
                    | None => Reports.Foreign
                    end
                  else if Reports.inherited (reportsMap_of reportsData) k
                       then Reports.Foreign else Reports.Undefined
              end).
  { intros own <-. reflexivity. }
  rewrite (Hget _ (Hown k)). clear Hget. unfold Reports.inherited.
  rewrite Hproto. clear Hown Hproto.
  set (sk := last (filter (fun r => StudentReportApiResponse.studentId r = k)
                     reportsData)).
  set (sp := last (filter (fun r => StudentReportApiResponse.studentId r
                                    = "__proto__") reportsData)).
  assert (Hsame : k = "__proto__" -> sk = sp) by (by intros ->).
  clearbody sk sp.
  destruct (decide (k = "__proto__")) as [Hk|Hk].
  - rewrite <- (Hsame Hk). subst k. rewrite String.eqb_refl.
    split; [|split; [|split]].
    + intros r Hr. destruct sk; [|discriminate]. by injection Hr as <-.
    + intros Hr _. by destruct sk.
    + intros _ _ [Hk|Hk]; discriminate Hk.
    + intros _ Hnot. destruct Hnot. apply proto_in_Object_prototype.
  - rewrite (proj2 (String.eqb_neq _ _) Hk).
    split; [|split; [|split]].
    + intros r Hr. destruct sk; [|discriminate]. by injection Hr as <-.
    + intros Hr Hin. destruct sk; [discriminate|]. simpl.
      by rewrite bool_decide_eq_true_2.
    + intros Hr [r Hsp] Hmember. destruct sk; [discriminate|].
      destruct sp as [x|]; [|discriminate]. simpl.
      rewrite (bool_decide_eq_true_2 (k ∈ ["activities"; "coordinatedPrograms"])).
      * by rewrite orb_true_r.
      * destruct Hmember as [->| ->]; set_solver.
    + intros Hr Hnot Hcases. destruct sk; [discriminate|]. simpl.
      rewrite bool_decide_eq_false_2 by assumption.
      destruct sp as [x|]; [|reflexivity]. simpl.
      destruct Hcases as [Hnone|[Ha Hc]]; [discriminate|].
      rewrite bool_decide_eq_false_2; [reflexivity|]. set_solver.
Qed.

Lemma reportsMap_last_wins_witness :
  Reports.get (reportsMap_of [sample_response]) "U100"
  = Reports.Report (StudentReport.mk [] [])
  /\ Reports.get (reportsMap_of [sample_response]) "constructor"
     = Reports.Foreign
  /\ Reports.get (reportsMap_of [sample_response]) "U200" = Reports.Undefined.
Proof.
  destruct (reportsMap_last_wins [sample_response] "U100")
    as (_ & _ & Hsent & _).
  destruct (reportsMap_last_wins [sample_response] "constructor")
    as (_ & _ & _ & Hinherited & _).
  destruct (reportsMap_last_wins [sample_response] "U200")
    as (_ & _ & _ & _ & _ & Hmissing).
  cbv zeta in Hsent, Hinherited, Hmissing. split; [|split].
  - apply Hsent. reflexivity.
  - apply Hinherited; [reflexivity|]. unfold Object_prototype. set_solver.
  - apply Hmissing; [reflexivity| |by left]. unfold Object_prototype. set_solver.
Defined.

(** X5. Whatever the backend answers, the initial load ends with
    [isLoading] false.  When the health check and the four fetches
    resolve, the four lists are stored as fetched.  The load ends without
    error exactly when, moreover, the answer for the student reports is
    an array or that request fails: a failure of the request is
    tolerated, and the page is rendered with the reports that arrived
    (none when it failed); an answer that is no array makes [forEach]
    throw after the four lists were stored: the error is recorded and the
    reports stay as they were. *)
Theorem initial_load_outcome
    (health : Outcome unit)
    (programsData : Outcome (list Program.t))
    (studentsData : Outcome (list RegisteredStudent.t))
    (coordinatorsData : Outcome (list Coordinator.t))
    (departmentsData : Outcome (list Department.t))
    (settle_order : list Fetch)
    (reports : Outcome ReportsData)
    (s : State) :
  let s' := loadInitialData health programsData studentsData coordinatorsData
              departmentsData settle_order reports s in
  let fetched := rejection health = None
                 /\ forall f, rejection_of programsData studentsData
                                coordinatorsData departmentsData f = None in
  isLoading s' = false
  /\ (loadingError s' = None
      <-> fetched /\ forall message, reports <> Resolved (NotAnArray message))
  /\ (fetched ->
      Resolved (programs s') = programsData
      /\ Resolved (registeredStudents s') = studentsData
      /\ Resolved (coordinators s') = coordinatorsData
      /\ Resolved (departments s') = departmentsData)
  /\ (loadingError s' = None ->
      App_render s' = Page (renderCurrentView s')
      /\ studentReports_object s'
         = reportsMap_of (match reports with
                          | Resolved (ReportsArray reportsData) => reportsData
                          | _ => []
                          end))
  /\ (forall message,
        fetched -> reports = Resolved (NotAnArray message) ->
        loadingError s' = Some message
        /\ studentReports_object s' = studentReports_object s
        /\ (message <> "" -> App_render s' = ConnectionErrorScreen message)).
Proof.
  cbv zeta. unfold loadInitialData.
  destruct health as [[]|e]; cycle 1.
  { split; [reflexivity|]. split; [|split; [|split]].
    - split; [discriminate|]. intros [[Hh _] _]. discriminate Hh.
    - intros [Hh _]. discriminate Hh.
    - discriminate.
    - intros message [Hh _]. discriminate Hh. }
  destruct (Promise_all_cases programsData studentsData coordinatorsData
              departmentsData settle_order)
    as [(a & b & c & d & -> & -> & -> & -> & Hall) | (g & e & Hg & Hall)];
    rewrite Hall.
  - split; [by destruct reports as [[l|message]|e]|].
    split; [|split; [|split]].
    + destruct reports as [[l|message]|e]; simpl.
      * split; [|reflexivity]. intros _.
        split; [split; [reflexivity|by intros []]|]. discriminate.
      * split; [discriminate|]. intros [_ Hno]. by destruct (Hno message).
      * split; [|reflexivity]. intros _.
        split; [split; [reflexivity|by intros []]|]. discriminate.
    + intros _. by destruct reports as [[l|message]|e].
    + unfold App_render.
      destruct reports as [[l|message]|e];
        cbn -[reportsMap_of renderCurrentView studentReports_object];
        try discriminate; intros _; (split; [reflexivity|]);
        unfold studentReports_object; cbn -[reportsMap_of];
        by destruct (reportsMap_of _).
    + intros message _ ->. cbn -[renderCurrentView].
      split; [reflexivity|]. split; [reflexivity|].
      intros Hmessage. apply truthy_true in Hmessage.
      unfold App_render. cbn -[renderCurrentView]. by rewrite Hmessage.
  - split; [reflexivity|]. split; [|split; [|split]].
    + split; [discriminate|]. intros [[_ Hnone] _].
      specialize (Hnone g). congruence.
    + intros [_ Hnone]. specialize (Hnone g). congruence.
    + discriminate.
    + intros message [_ Hnone]. specialize (Hnone g). congruence.
Qed.

Lemma initial_load_outcome_witness :
  let s' := loadInitialData (Resolved tt) (Resolved [sample_program])
              (Resolved [sample_student]) (Resolved [])
              (Resolved [sample_department]) []
              (Resolved (NotAnArray "reportsData.forEach is not a function"))
              initial_state in
  Resolved (programs s') = Resolved [sample_program]
  /\ App_render s'
     = ConnectionErrorScreen "reportsData.forEach is not a function".
Proof.
  cbv zeta.
  destruct (initial_load_outcome (Resolved tt) (Resolved [sample_program])
              (Resolved [sample_student]) (Resolved [])
              (Resolved [sample_department]) []
              (Resolved (NotAnArray "reportsData.forEach is not a function"))
              initial_state)
    as (_ & _ & Hlists & _ & Hthrown).
  cbv zeta in Hlists, Hthrown.
  assert (Hfetched : rejection (Resolved tt) = None
                     /\ forall f, rejection_of (Resolved [sample_program])
                                    (Resolved [sample_student])
                                    (Resolved (@nil Coordinator.t))
                                    (Resolved [sample_department]) f = None).
  { split; [reflexivity|]. by intros []. }
  split.
  - destruct (Hlists Hfetched) as (Hprog & _). exact Hprog.
  - destruct (Hthrown _ Hfetched eq_refl) as (_ & _ & Hscreen).
    apply Hscreen. discriminate.
Defined.

(** ** Activities of a student report *)

Lemma map_fixed {A} (f : A -> A) (l : list A) :
  (forall a, a ∈ l -> f a = a) -> map f l = l.
Proof.
  induction l as [|x l IH]; intros Hfix; simpl; [reflexivity|].
  rewrite Hfix by left. rewrite IH; [reflexivity|].
  intros a Ha. apply Hfix. by right.
Qed.

(** Where the object inherits nothing under the key, reading it is
    looking up its own properties. *)
Lemma Reports_get_not_inherited (o : Reports.t) (key : string) :
  Reports.inherited o key = false ->
  Reports.get o key
  = match Reports.own o !! key with
    | Some r => Reports.Report r
    | None => Reports.Undefined
    end.
Proof.
  intros Hkey. unfold Reports.get. destruct (_ !! key); [reflexivity|].
  rewrite Hkey. destruct (String.eqb key "__proto__") eqn:Heq; [|reflexivity].
  apply String.eqb_eq in Heq. subst key. unfold Reports.inherited in Hkey.
  by rewrite (bool_decide_eq_true_2 _ proto_in_Object_prototype) in Hkey.
Qed.

Lemma Reports_get_own (o : Reports.t) (key : string) (r : StudentReport.t) :
  Reports.own o !! key = Some r -> Reports.get o key = Reports.Report r.
Proof. intros Hown. unfold Reports.get. by rewrite Hown. Qed.

(** X6. Adding an activity under a fresh id and then editing that
    activity, for a student whose id names no member of
    [Object.prototype], in a report map whose prototype was not replaced,
    and whose report, if there is one, has its activities: the
    report (created when missing) keeps its former activities in order
    and its coordinated programs, ends with the new activity as edited,
    and two update requests have been sent; the reports of all other
    students are untouched. *)
Theorem add_then_edit_activity (studentId : string) (activity : NewActivity.t)
    (newId timestamp : string) (updates : ActivityUpdates.t) (s : State)
    (activities : list StudentExtraActivity.t) :
  studentId ∉ Object_prototype -> studentReports_prototype s = None ->
  acts_of (studentReports s !! studentId) = Some activities ->
  (forall a, a ∈ activities -> StudentExtraActivity.id a ≠ newId) ->
  let old := studentReports s !! studentId in
  let added := StudentExtraActivity.mk newId (NewActivity.badge activity)
                 (NewActivity.title activity) (NewActivity.content activity)
                 timestamp in
  let s1 := onAddStudentActivity studentId activity newId timestamp s in
  let s2 := onEditStudentActivity studentId newId updates s1 in
  studentReports s1 !! studentId
    = Some (StudentReport.mk (activities ++ [added]) (cps_of old))
  /\ studentReports s2 !! studentId
    = Some (StudentReport.mk
              (activities ++ [ActivityUpdates.spread added updates])
              (cps_of old))
  /\ (forall k, k ≠ studentId -> studentReports s2 !! k = studentReports s !! k)
  /\ render_error s2 = render_error s
  /\ trace s2 = trace s ++ [Call (studentReports_update studentId);
                            Call (studentReports_update studentId)].
Proof.
  intros Hordinary Hproto Hacts Hfresh. cbv zeta.
  assert (Hkey : Reports.inherited (studentReports_object s) studentId = false).
  { unfold Reports.inherited, studentReports_object; simpl. rewrite Hproto.
    by rewrite bool_decide_eq_false_2. }
  set (added := StudentExtraActivity.mk newId (NewActivity.badge activity)
                  (NewActivity.title activity) (NewActivity.content activity)
                  timestamp).
  assert (H1 : onAddStudentActivity studentId activity newId timestamp s
               = setStudentReports_object
                   (Reports.with_member studentId
                      (StudentReport.mk (activities ++ [added])
                         (cps_of (studentReports s !! studentId)))
                      (studentReports_object s))
                   (call (studentReports_update studentId) s)).
  { unfold onAddStudentActivity.
    rewrite Reports_get_not_inherited by assumption. simpl.
    destruct (studentReports s !! studentId) as [r|]; simpl in *.
    - rewrite Hacts. reflexivity.
    - injection Hacts as <-. reflexivity. }
  rewrite H1. clear H1.
  split; [simpl; apply lookup_insert_eq|].
  unfold onEditStudentActivity.
  rewrite (Reports_get_own _ _
             (StudentReport.mk (activities ++ [added])
                (cps_of (studentReports s !! studentId))))
    by (simpl; apply lookup_insert_eq).
  simpl. split; [|split; [|split]].
  - rewrite lookup_insert_eq. f_equal. unfold StudentReport.mk. f_equal.
    f_equal. rewrite map_app. simpl. rewrite String.eqb_refl. f_equal.
    apply map_fixed. intros a Hin.
    apply Hfresh in Hin. apply String.eqb_neq in Hin. by rewrite Hin.
  - intros k Hk. rewrite !lookup_insert_ne by congruence. reflexivity.
  - reflexivity.
  - rewrite <- !app_assoc. reflexivity.
Qed.

Lemma add_then_edit_activity_witness :
  let s2 := onEditStudentActivity "U100" "A2" retitle
              (onAddStudentActivity "U100" sample_newActivity "A2"
                 "2025-04-01" loaded_state) in
  studentReports s2 !! "U100"
  = Some (StudentReport.mk
            [StudentExtraActivity.mk "A1" green "Camp" "Helped at the camp"
               "2025-01-05";
             StudentExtraActivity.mk "A2" yellow "Coast cleanup"
               "Beach cleanup" "2025-04-01"]
            []).
Proof.
  cbv zeta.
  apply (add_then_edit_activity "U100" sample_newActivity "A2" "2025-04-01"
           retitle loaded_state
           [StudentExtraActivity.mk "A1" green "Camp" "Helped at the camp"
              "2025-01-05"]).
  - unfold Object_prototype. set_solver.
  - reflexivity.
  - reflexivity.
  - intros a Ha. apply list_elem_of_singleton in Ha as ->. discriminate.
Defined.


(** ** The built-in officer credentials *)

Lemma officerCredentials_update (p q : string) (s : State) :
  officerCredentials s = officer_table q ->
  officerCredentials (handleUpdateOfficerPassword p s) = officer_table p
  /\ trace (handleUpdateOfficerPassword p s) = trace s.
Proof.
  intros Htable. unfold handleUpdateOfficerPassword; simpl.
  rewrite Htable. split; reflexivity.
Qed.

Lemma officerCredentials_updates (ps : list string) (q : string) (s : State) :
  officerCredentials s = officer_table q ->
  officerCredentials (update_passwords ps s) = officer_table (default q (last ps))
  /\ trace (update_passwords ps s) = trace s.
Proof.
  revert q s. induction ps as [|p ps IH]; intros q s Htable.
  - split; [exact Htable|reflexivity].
  - destruct (officerCredentials_update p q s Htable) as [Ht Htr].
    destruct (IH p _ Ht) as [Ht' Htr'].
    unfold update_passwords in *. simpl foldl. rewrite Ht', Htr', Htr.
    split; [|reflexivity]. f_equal. rewrite last_cons.
    destruct (last ps); reflexivity.
Qed.

Lemma fallback_find_OFFICER001 (p typed : string) :
  JS.find (fallback_matches (Credentials.mk "OFFICER001" typed)) (officer_table p)
  = if String.eqb typed p
    then Some (OfficerCred.mk "OFFICER001" "OFFICER001" p "super admin")
    else None.
Proof.
  unfold officer_table, JS.find, fallback_matches; cbn [Credentials.id
    Credentials.password OfficerCred.id OfficerCred.username OfficerCred.password].
  change (String.eqb "OFFICER001" "OFFICER001") with true.
  change (String.eqb "OFFICER001" "officer001") with false.
  cbn [orb andb]. destruct (String.eqb typed p); reflexivity.
Qed.

Lemma fallback_find_officer001 (p typed : string) :
  JS.find (fallback_matches (Credentials.mk "officer001" typed)) (officer_table p)
  = if String.eqb typed "nss@mamo"
    then Some (OfficerCred.mk "officer001" "officer001" "nss@mamo" "super admin")
    else None.
Proof.
  unfold officer_table, JS.find, fallback_matches; cbn [Credentials.id
    Credentials.password OfficerCred.id OfficerCred.username OfficerCred.password].
  change (String.eqb "officer001" "OFFICER001") with false.
  change (String.eqb "officer001" "officer001") with true.
  cbn [orb andb]. destruct (String.eqb typed "nss@mamo"); reflexivity.
Qed.

(** X8. Changing the officer password only rewrites the local table
    entry [OFFICER001] and sends nothing to the backend.  After any run of
    changes ending with [p], and with the officer endpoint unreachable,
    [OFFICER001] logs in as officer with [p] and with no other password,
    while [officer001] still logs in with its original password and with
    no other: that entry cannot be changed. *)
Theorem builtin_password_update (ps : list string) (p typed : string)
    (e : Thrown)
    (coordinatorResult : Outcome (LoginResult Coordinator.t))
    (studentResult : Outcome (LoginResult RegisteredStudent.t))
    (s : State) :
  officerCredentials s = initial_officerCredentials ->
  let s' := update_passwords (ps ++ [p]) s in
  let login id pw :=
    handleLogin (Credentials.mk id pw) (Rejected e) coordinatorResult
      studentResult s' in
  trace s' = trace s
  /\ session (login "OFFICER001" p)
     = Some (CurrentUser.mk Role.officer
               (FallbackOfficerData "OFFICER001" "Program Officer" "super admin"))
  /\ (typed ≠ p ->
      officer_path (Credentials.mk "OFFICER001" typed) (Rejected e)
        (officerCredentials s') = None)
  /\ session (login "officer001" "nss@mamo")
     = Some (CurrentUser.mk Role.officer
               (FallbackOfficerData "officer001" "Program Officer" "super admin"))
  /\ (typed ≠ "nss@mamo" ->
      officer_path (Credentials.mk "officer001" typed) (Rejected e)
        (officerCredentials s') = None).
Proof.
  intros Htable. cbv zeta.
  destruct (officerCredentials_updates (ps ++ [p]) "NSS@OFFICER2025" s Htable)
    as [Ht Htr].
  rewrite last_snoc in Ht. simpl in Ht.
  split; [exact Htr|].
  unfold handleLogin, officer_path. rewrite Ht.
  rewrite !fallback_find_OFFICER001, !fallback_find_officer001.
  rewrite String.eqb_refl. change (String.eqb "nss@mamo" "nss@mamo") with true.
  repeat split.
  - intros Hne. apply String.eqb_neq in Hne. by rewrite Hne.
  - intros Hne. apply String.eqb_neq in Hne. by rewrite Hne.
Qed.

Lemma builtin_password_update_witness :
  let s' := update_passwords ["first"; "second"] initial_state in
  session (handleLogin (Credentials.mk "OFFICER001" "second") unreachable
             no_match no_match s')
  = Some (CurrentUser.mk Role.officer
            (FallbackOfficerData "OFFICER001" "Program Officer" "super admin"))
  /\ officer_path builtin_credentials unreachable (officerCredentials s') = None.
Proof.
  cbv zeta.
  pose proof (builtin_password_update ["first"] "second" "NSS@OFFICER2025"
                (ErrorObject "Failed to fetch") no_match no_match initial_state
                eq_refl) as H.
  cbv zeta in H. destruct H as (_ & Hin & Hout & _).
  split; [exact Hin|]. apply Hout. discriminate.
Defined.

(** ** Well-formed sessions *)

Lemma path_consistent credentials officerResult coordinatorResult studentResult
    table :
  (forall d, officer_path credentials officerResult table = Some d ->
             user_consistent (CurrentUser.mk Role.officer d))
  /\ (forall d, coordinator_path coordinatorResult = Some d ->
                user_consistent (CurrentUser.mk Role.coordinator d))
  /\ (forall d, student_path studentResult = Some d ->
                user_consistent (CurrentUser.mk Role.student d)).
Proof.
  repeat split; intros d.
  - unfold officer_path. destruct officerResult as [r|e].
    + destruct (positive_match r); intros [= <-]. exact I.
    + destruct (JS.find _ _); intros [= <-]. exact I.
  - unfold coordinator_path. destruct coordinatorResult as [r|e]; [|discriminate].
    destruct (positive_match r); intros [= <-]. exact I.
  - unfold student_path. destruct studentResult as [r|e]; [|discriminate].
    destruct (positive_match r); intros [= <-]. exact I.
Qed.

(** What a step does to the session: nothing, a logout, or the login of
    a well-typed user. *)
Lemma step_session (s : State) (a : Action) :
  (isLoggedIn (step s a) = isLoggedIn s /\ currentUser (step s a) = currentUser s)
  \/ (isLoggedIn (step s a) = false /\ currentUser (step s a) = None)
  \/ (exists u, isLoggedIn (step s a) = true /\ currentUser (step s a) = Some u
                /\ user_consistent u).
Proof.
  unfold step. destruct (enabled a s); [|by left].
  destruct a; simpl.
  - (* login *)
    destruct (path_consistent credentials officerResult coordinatorResult
                studentResult (officerCredentials s)) as (Ho & Hc & Hs).
    unfold handleLogin.
    destruct (officer_path _ _ _) as [d|]; [right; right; eexists; eauto|].
    destruct (coordinator_path _) as [d|]; [right; right; eexists; eauto|].
    destruct (student_path _) as [d|]; [right; right; eexists; eauto|].
    by left.
  - right; left. unfold handleLogout; simpl. destruct (logoutTimerRef s); auto.
  - by left.
  - left. unfold handleUserActivity, resetLogoutTimer.
    destruct (logoutTimerRef s); auto.
  - right; left. unfold handleAutoLogout, handleLogout, alert, emit, timer_fired;
      simpl.
    destruct (logoutTimerRef s); auto.
  - left. unfold commit. destruct (Bool.eqb _ _); [auto|].
    unfold activity_effect, activity_cleanup, resetLogoutTimer.
    destruct (rendered_isLoggedIn s) eqn:Hr, (isLoggedIn s) eqn:Hi,
      (logoutTimerRef s) eqn:Href; simpl; rewrite ?Href, ?Hi; simpl; auto.
  - by left.
Qed.

Lemma session_inv_step (s : State) (a : Action) :
  session_inv s -> session_inv (step s a).
Proof.
  intros [Hiff Hcons].
  destruct (step_session s a) as [[Hi Hu]|[[Hi Hu]|(u & Hi & Hu & Hc)]];
    split; rewrite ?Hi, ?Hu; try assumption.
  - split; [discriminate|]. intros [? [=]].
  - discriminate.
  - split; eauto.
  - intros u' [= <-]. exact Hc.
Qed.

Lemma session_inv_reachable (acts : list Action) :
  session_inv (run acts initial_state).
Proof.
  unfold run. induction acts as [|a acts IH] using rev_ind.
  - split; [|discriminate]. split; [discriminate|]. intros [? [=]].
  - rewrite foldl_app. simpl. by apply session_inv_step.
Qed.

(** X9. In every state the mounted component can reach, the session is
    well formed (logged in exactly when a user is recorded, whose type
    agrees with the record kept as its data), so the casts of the router
    are sound: the student portal is only rendered with the record of a
    registered student, the officer portal only for an officer, the
    coordinator portal only for a coordinator or an officer. *)
Theorem routed_panels_get_matching_user (acts : list Action) :
  let s := run acts initial_state in
  session_inv s
  /\ (renderCurrentView s = StudentPortal ->
      exists st, currentUser s = Some (CurrentUser.mk Role.student (StudentData st)))
  /\ (renderCurrentView s = ProgramOfficerPortal ->
      exists d, currentUser s = Some (CurrentUser.mk Role.officer d)
                /\ (forall st, d ≠ StudentData st)
                /\ (forall c, d ≠ CoordinatorData c))
  /\ (renderCurrentView s = TeacherPortal ->
      exists u, currentUser s = Some u
                /\ CurrentUser.type u ≠ Role.student
                /\ (forall st, CurrentUser.data u ≠ StudentData st)).
Proof.
  intros s. pose proof (session_inv_reachable acts) as Hinv. fold s in Hinv.
  split; [exact Hinv|]. destruct Hinv as [_ Hcons].
  unfold renderCurrentView, user_type_is.
  destruct (currentUser s) as [[r d]|] eqn:Hu.
  - specialize (Hcons _ eq_refl). unfold user_consistent in Hcons. simpl in *.
    repeat split.
    + destruct (currentView s), (isLoggedIn s), r, d; simpl; try discriminate;
        try contradiction; eauto.
    + destruct (currentView s), (isLoggedIn s), r, d; simpl; try discriminate;
        try contradiction; intros _; eexists; (split; [reflexivity|]);
        split; discriminate.
    + destruct (currentView s), (isLoggedIn s), r, d; simpl; try discriminate;
        try contradiction; intros _; eexists; (split; [reflexivity|]);
        split; discriminate.
  - repeat split; destruct (currentView s), (isLoggedIn s); simpl; discriminate.
Qed.

Lemma routed_panels_get_matching_user_witness :
  exists st,
    currentUser (run (student_logs_in ++ [Navigate View.student]) initial_state)
    = Some (CurrentUser.mk Role.student (StudentData st)).
Proof.
  apply (routed_panels_get_matching_user
           (student_logs_in ++ [Navigate View.student])).
  reflexivity.
Defined.

(** ** At most one timer *)

Lemma handleLogin_timers credentials o c st (s : State) :
  let s' := handleLogin credentials o c st s in
  timers s' = timers s /\ now s' = now s /\ next_handle s' = next_handle s.
Proof.
  cbv zeta. unfold handleLogin.
  destruct (officer_path _ _ _); [by repeat split|].
  destruct (coordinator_path _); [by repeat split|].
  destruct (student_path _); by repeat split.
Qed.

(** What a step does to the timer table: nothing (while time may pass),
    emptying it, or leaving one freshly numbered timer due a full period
    from now. *)
Lemma step_timers (s : State) (a : Action) :
  timer_inv s ->
  (timers (step s a) = timers s /\ now s <= now (step s a)
   /\ next_handle (step s a) = next_handle s)
  \/ timers (step s a) = ∅
  \/ (timers (step s a) = {[ next_handle s := now (step s a) + INACTIVITY_TIMEOUT ]}
      /\ next_handle (step s a) = Pos.succ (next_handle s)).
Proof.
  intros Hinv. unfold step. destruct (enabled a s) eqn:Hen;
    [|left; repeat split; lia].
  assert (Hreset : forall s1 : State, timer_inv s1 ->
            timers (resetLogoutTimer true s1)
            = {[ next_handle s1 := now (resetLogoutTimer true s1) + INACTIVITY_TIMEOUT ]}
            /\ next_handle (resetLogoutTimer true s1) = Pos.succ (next_handle s1)).
  { intros s1 Hinv1.
    destruct (resetLogoutTimer_true s1 Hinv1) as (_ & Ht & Hn & _).
    cbv zeta in Ht, Hn. rewrite Ht, Hn. split; [reflexivity|].
    unfold resetLogoutTimer. destruct (logoutTimerRef s1); reflexivity. }
  destruct a; cbn [perform].
  - left. destruct (handleLogin_timers credentials officerResult
                      coordinatorResult studentResult s) as (Ht & Hn & Hh).
    cbv zeta in Ht, Hn, Hh. rewrite Ht, Hn, Hh. repeat split; lia.
  - right; left. by apply timers_handleLogout.
  - left. repeat split; simpl; lia.
  - right; right. by apply Hreset.
  - right; left. by apply timeout_step.
  - assert (Hcases :
      commit s = s
      \/ (rendered_isLoggedIn s = false
          /\ commit s = resetLogoutTimer true (set_rendered_isLoggedIn true s))
      \/ (isLoggedIn s = false /\ rendered_isLoggedIn s = true)).
    { unfold commit, activity_effect.
      destruct (isLoggedIn s) eqn:Hin, (rendered_isLoggedIn s) eqn:Hr; simpl;
        rewrite ?Hin; auto. }
    destruct Hcases as [->|[[Hr ->]|[Hin Hr]]].
    + left; repeat split; lia.
    + right; right.
      assert (Hinv1 : timer_inv (set_rendered_isLoggedIn true s)).
      { destruct Hinv as [H1 H2 H3]. split; simpl; try assumption. discriminate. }
      apply (Hreset _ Hinv1).
    + right; left.
      pose proof (timer_inv_commit s Hinv) as Hc.
      apply (inv_detached_no_timer _ Hc).
      unfold commit, activity_effect, activity_cleanup. rewrite Hin, Hr. simpl.
      destruct (logoutTimerRef s) eqn:Href; simpl; rewrite ?Hin; simpl;
        rewrite ?Href; reflexivity.
  - left. simpl in Hen. apply andb_true_iff in Hen as [Hd _].
    repeat split; simpl; lia.
Qed.

Lemma timer_bound_reachable (acts : list Action) :
  let s := run acts initial_state in
  forall h d, timers s !! h = Some d ->
    d <= now s + INACTIVITY_TIMEOUT /\ (h < next_handle s)%positive.
Proof.
  cbv zeta. unfold run. induction acts as [|a acts IH] using rev_ind.
  - intros h d Hl. simpl in Hl. rewrite lookup_empty in Hl. discriminate.
  - rewrite foldl_app. simpl foldl.
    pose proof (timer_inv_reachable acts) as Hinv. unfold run in Hinv.
    set (s := foldl step initial_state acts) in *.
    destruct (step_timers s a Hinv) as [(Ht & Hn & Hh)|[Ht|(Ht & Hh)]];
      intros h d; rewrite Ht, ?Hh.
    + intros Hl. destruct (IH h d Hl). split; [lia|assumption].
    + rewrite lookup_empty. discriminate.
    + intros Hl. apply lookup_singleton_Some in Hl as [<- <-]. split; lia.
Qed.

(** X10. In every state the mounted component can reach there is at most
    one pending timer; it is the one [logoutTimerRef] holds, it is due no
    later than 30 minutes from now, and its handle is older than the next
    handle to be given out. *)
Theorem at_most_one_pending_timer (acts : list Action) :
  let s := run acts initial_state in
  (size (timers s) <= 1)%nat
  /\ forall h d,
       timers s !! h = Some d ->
       logoutTimerRef s = Some h
       /\ timers s = {[ h := d ]}
       /\ d <= now s + 1800000
       /\ (h < next_handle s)%positive.
Proof.
  intros s. pose proof (timer_inv_reachable acts) as Hinv. fold s in Hinv.
  pose proof (timer_bound_reachable acts) as Hbound. cbv zeta in Hbound. fold s in Hbound.
  assert (Hsingle : forall h d, timers s !! h = Some d -> timers s = {[ h := d ]}).
  { intros h d Hl. apply map_eq. intros i.
    destruct (decide (i = h)) as [->|Hne].
    - by rewrite lookup_singleton_eq.
    - rewrite lookup_singleton_ne by congruence.
      destruct (timers s !! i) as [d'|] eqn:Hi; [|reflexivity].
      pose proof (inv_only_ref s Hinv _ _ Hi) as H1.
      pose proof (inv_only_ref s Hinv _ _ Hl) as H2. congruence. }
  split.
  - destruct (map_choose_or_empty (timers s)) as [(h & d & Hl)|Hempty].
    + rewrite (Hsingle h d Hl), map_size_singleton. lia.
    + rewrite Hempty, map_size_empty. lia.
  - intros h d Hl. split; [by eapply inv_only_ref|]. split; [by apply Hsingle|].
    by apply Hbound.
Qed.

Lemma at_most_one_pending_timer_witness :
  timers (run (student_logs_in ++ [Elapse 1000; Activity click]) initial_state)
  = {[ 2%positive := 1801000 ]}.
Proof.
  apply (proj2 (at_most_one_pending_timer
                  (student_logs_in ++ [Elapse 1000; Activity click]))
           2%positive 1801000).
  reflexivity.
Defined.

(** ** Data handlers and the session *)





(** ** The API client *)

Lemma truthy_http_error_text {T} (response : Http.Response T) :
  truthy (Http.http_error_text response) = true.
Proof. reflexivity. Qed.

Example http_error_text_500 :
  Http.http_error_text
    (Http.mkResponse (T:=unit) false 500 "Internal Server Error"
       (Rejected OtherValue) (Rejected OtherValue))
  = "HTTP 500: Internal Server Error".
Proof. reflexivity. Qed.

(** X12. [apiCall] passes a rejection of [fetch] on unchanged.  A
    response that is not [ok] always makes it reject, never resolve.  The
    error thrown has as message the [error] member of the body when that
    is a non-empty string, else its [message] member when that is a
    non-empty string and [error] is missing or falsy, else "API call
    failed" when both are missing or falsy, and "HTTP <status>:
    <statusText>" when the body is not JSON.  The message is empty when
    [error] is the empty array, which is truthy and converts to the empty
    string.  A [204] resolves to [{}] without the body being read, and
    any other [ok] response resolves or rejects as the parsing of its
    body does. *)
Theorem apiCall_outcomes {T} (null_read_message : string)
    (fetched : Outcome (Http.Response T)) :
  (forall e, fetched = Rejected e ->
             Http.apiCall null_read_message fetched = Rejected e)
  /\ (forall response,
        fetched = Resolved response -> Http.ok response = false ->
        let falsy (member : option Json) :=
          forall v, member = Some v -> to_boolean v = false in
        (exists e, Http.apiCall null_read_message fetched = Rejected e)
        /\ (forall body,
              Http.error_json response = Resolved (Some body) ->
              (forall s, Http.error body = Some (JString s) -> s <> "" ->
                 Http.apiCall null_read_message fetched = Rejected (ErrorObject s))
              /\ (forall s, falsy (Http.error body) ->
                    Http.message body = Some (JString s) -> s <> "" ->
                    Http.apiCall null_read_message fetched
                    = Rejected (ErrorObject s))
              /\ (falsy (Http.error body) -> falsy (Http.message body) ->
                  Http.apiCall null_read_message fetched
                  = Rejected (ErrorObject "API call failed"))
              /\ (Http.error body = Some (JArray []) ->
                  Http.apiCall null_read_message fetched
                  = Rejected (ErrorObject "")))
        /\ (forall e, Http.error_json response = Rejected e ->
              Http.apiCall null_read_message fetched
              = Rejected (ErrorObject (Http.http_error_text response))
              /\ Http.http_error_text response <> "")
        /\ (Http.error_json response = Resolved None ->
            Http.apiCall null_read_message fetched
            = Rejected (ErrorObject null_read_message)))
  /\ (forall response,
        fetched = Resolved response -> Http.ok response = true ->
        Http.status response = 204%N ->
        Http.apiCall null_read_message fetched = Resolved Http.EmptyObject)
  /\ (forall response,
        fetched = Resolved response -> Http.ok response = true ->
        Http.status response ≠ 204%N ->
        Http.apiCall null_read_message fetched
        = match Http.json response with
          | Resolved v => Resolved (Http.Value v)
          | Rejected e => Rejected e
          end).
Proof.
  assert (Hfalsy : forall (member : option Json) (b : Json),
            (forall v, member = Some v -> to_boolean v = false) ->
            or_value member b = b).
  { intros [v|] b H; [|reflexivity]. simpl. by rewrite (H v eq_refl). }
  repeat apply conj.
  - intros e ->. reflexivity.
  - intros response -> Hok. cbv zeta. unfold Http.apiCall. rewrite Hok. simpl.
    destruct (Http.error_json response) as [[body|]|e] eqn:Hbody.
    + split; [destruct (apiCall_error_message _ _); eauto|].
      split; [|split; [discriminate|discriminate]].
      intros body' [= <-]. unfold apiCall_error_message.
      split; [|split; [|split]].
      * intros s -> Hs. apply truthy_true in Hs. simpl. by rewrite Hs.
      * intros s Herr -> Hs. apply truthy_true in Hs.
        rewrite (Hfalsy _ _ Herr). simpl. by rewrite Hs.
      * intros Herr Hmsg. by rewrite (Hfalsy _ _ Herr), (Hfalsy _ _ Hmsg).
      * intros ->. reflexivity.
    + split; [eauto|]. split; [discriminate|]. split; [discriminate|].
      reflexivity.
    + split; [eauto|]. split; [discriminate|].
      split; [|discriminate]. intros e' _. split; [reflexivity|discriminate].
  - intros response -> Hok Hstatus. unfold Http.apiCall.
    rewrite Hok, Hstatus. reflexivity.
  - intros response -> Hok Hstatus. unfold Http.apiCall. rewrite Hok. simpl.
    apply N.eqb_neq in Hstatus. rewrite Hstatus. reflexivity.
Qed.

Lemma apiCall_outcomes_witness :
  Http.apiCall (T:=unit) "Cannot read properties of null" refused
  = Rejected (ErrorObject "Invalid credentials")
  /\ Http.apiCall (T:=unit) "Cannot read properties of null"
       (Resolved (Http.mkResponse false 500 "Internal Server Error"
                    (Resolved (Some (Http.mkErrorBody (Some (JArray [])) None)))
                    (Rejected OtherValue)))
     = Rejected (ErrorObject "")
  /\ Http.apiCall (T:=unit) "Cannot read properties of null"
       (Resolved (Http.mkResponse true 204 "No Content" (Rejected OtherValue)
                    (Rejected OtherValue)))
     = Resolved Http.EmptyObject.
Proof.
  destruct (apiCall_outcomes (T:=unit) "Cannot read properties of null" refused)
    as (_ & Hrefused & _).
  destruct (apiCall_outcomes (T:=unit) "Cannot read properties of null"
              (Resolved (Http.mkResponse false 500 "Internal Server Error"
                           (Resolved (Some (Http.mkErrorBody
                                              (Some (JArray [])) None)))
                           (Rejected OtherValue))))
    as (_ & Hempty_message & _).
  destruct (apiCall_outcomes (T:=unit) "Cannot read properties of null"
              (Resolved (Http.mkResponse true 204 "No Content"
                           (Rejected OtherValue) (Rejected OtherValue))))
    as (_ & _ & Hempty & _).
  split; [|split].
  - destruct (Hrefused _ eq_refl eq_refl) as (_ & Hbody & _).
    destruct (Hbody _ eq_refl) as (Hstring & _).
    apply (Hstring "Invalid credentials"); [reflexivity|discriminate].
  - destruct (Hempty_message _ eq_refl eq_refl) as (_ & Hbody & _).
    destruct (Hbody _ eq_refl) as (_ & _ & _ & Harray).
    apply Harray. reflexivity.
  - apply (Hempty _ eq_refl); reflexivity.
Defined.

(** X13. Login through the API client.  When the officer endpoint
    answers the login request with an error status whose body is JSON (as
    a server does for credentials it refuses), [apiCall] throws and
    [handleLogin] falls back on the built-in table: the built-in
    credentials log in as officer although the server refused them, and
    the other endpoints are not asked.  When it answers [ok] without a
    match, or [204], the table is not consulted and the coordinator path
    is tried. *)
Theorem login_after_refusal_uses_builtin_table (null_read_message : string)
    (credentials : Credentials.t)
    (response : Http.Response (LoginResult OfficerApiResponse.t))
    (coordinatorFetch : Outcome (Http.Response (LoginResult Coordinator.t)))
    (studentFetch : Outcome (Http.Response (LoginResult RegisteredStudent.t)))
    (s : State) :
  let s' := handleLogin_fetch null_read_message credentials (Resolved response)
              coordinatorFetch studentFetch s in
  (Http.ok response = false ->
   forall oc,
     JS.find (fallback_matches credentials) (officerCredentials s) = Some oc ->
     session s'
     = Some (CurrentUser.mk Role.officer
               (FallbackOfficerData (OfficerCred.id oc) "Program Officer"
                  (OfficerCred.role oc)))
     /\ requests s' = requests s ++ [officers_login (Credentials.id credentials)
                                      (Credentials.password credentials)])
  /\ (Http.ok response = true ->
      Http.status response = 204%N
      \/ (exists o, Http.json response = Resolved (mkLoginResult false o))
      \/ (exists b, Http.json response = Resolved (mkLoginResult b None)) ->
      s' = handleLogin_fetch null_read_message credentials
             (Resolved (Http.mkResponse true 204 "" (Rejected OtherValue)
                          (Rejected OtherValue)))
             coordinatorFetch studentFetch s
      /\ s' = handleLogin credentials no_match
                (Http.login_answer (Http.apiCall null_read_message coordinatorFetch))
                (Http.login_answer (Http.apiCall null_read_message studentFetch))
                s).
Proof.
  cbv zeta. unfold handleLogin_fetch. split.
  - intros Hok oc Hfind.
    assert (Hrejects : exists e,
      Http.apiCall null_read_message (Resolved response) = Rejected e).
    { unfold Http.apiCall. rewrite Hok. simpl.
      destruct (Http.error_json response) as [[body|]|e];
        [destruct (apiCall_error_message _ _)| |]; eexists; reflexivity. }
    destruct Hrejects as (e & ->). simpl Http.login_answer.
    unfold handleLogin, officer_path. rewrite Hfind.
    split; [reflexivity|]. rewrite requests_log_in, requests_call. reflexivity.
  - intros Hok Hcases.
    assert (Hofficer :
      officer_path credentials
        (Http.login_answer (Http.apiCall null_read_message (Resolved response)))
        (officerCredentials s) = None).
    { unfold Http.apiCall. rewrite Hok. simpl negb. cbv iota.
      destruct (Http.status response =? 204)%N eqn:H204; [reflexivity|].
      destruct Hcases as [H|[[o H]|[b H]]].
      - apply N.eqb_neq in H204. contradiction.
      - rewrite H. reflexivity.
      - rewrite H. simpl. unfold positive_match. simpl. by destruct b. }
    unfold handleLogin. rewrite Hofficer. split; reflexivity.
Qed.

Lemma login_after_refusal_uses_builtin_table_witness :
  session (handleLogin_fetch "Cannot read properties of null" builtin_credentials
             refused refused refused initial_state)
  = Some (CurrentUser.mk Role.officer
            (FallbackOfficerData "OFFICER001" "Program Officer" "super admin")).
Proof.
  apply (proj1 (login_after_refusal_uses_builtin_table
                  "Cannot read properties of null" builtin_credentials
                  (Http.mkResponse false 401 "Unauthorized"
                     (Resolved (Some (Http.mkErrorBody
                                        (Some (JString "Invalid credentials"))
                                        None)))
                     (Rejected OtherValue))
                  refused refused initial_state)
           eq_refl
           (OfficerCred.mk "OFFICER001" "OFFICER001" "NSS@OFFICER2025"
              "super admin")).
  reflexivity.
Defined.

Lemma JS_find_Some {A} (p : A -> bool) (l : list A) (x : A) :
  JS.find p l = Some x -> x ∈ l /\ p x = true.
Proof.
  induction l as [|y l IH]; simpl; [discriminate|].
  destruct (p y) eqn:Hy.
  - intros [= <-]. split; [left|exact Hy].
  - intros H. destruct (IH H). split; [by right|assumption].
Qed.

(** X14. Programs as [programsApi.getAll] returns them keep the ids and
    the order of the wire records, and always carry an empty coordinator
    list, the date part of [startDate] as [date] and the department as
    [venue].  Hence, on a component holding programs as loaded, a
    successful [handleEditProgram] never removes the program from a
    report: the report of every student outside the new coordinator list
    is exactly as before, even if it names the edited program. *)
Theorem loaded_programs_have_no_coordinators
    (null_read_message not_a_function_message : string)
    (toLocaleTimeString : string -> string)
    (fetched : Outcome (Http.Response (list ProgramApiResponse.t)))
    (loaded : list Program.t) (s : State) :
  programsApi_getAll null_read_message not_a_function_message
    toLocaleTimeString fetched = Resolved loaded ->
  programs s = loaded ->
  (exists wire, Http.apiCall null_read_message fetched = Resolved (Http.Value wire)
                /\ map Program.id loaded = map ProgramApiResponse.id wire)
  /\ (forall p, p ∈ loaded ->
        Program.coordinatorIds p = Some []
        /\ Program.date p = Some (split_T_head (Program.startDate p))
        /\ Program.venue p = Some (Program.department p))
  /\ (forall id programData updatedProgram sid,
        sid ∉ default [] (ProgramData.coordinatorIds programData) ->
        studentReports (handleEditProgram id programData
                          (Resolved updatedProgram) s) !! sid
        = studentReports s !! sid).
Proof.
  intros Hget Hprograms. unfold programsApi_getAll in Hget.
  destruct (Http.apiCall null_read_message fetched) as [[|wire]|e] eqn:Hcall;
    try discriminate.
  injection Hget as <-.
  assert (Hshape : forall p,
            p ∈ map (program_of_response toLocaleTimeString) wire ->
            Program.coordinatorIds p = Some []
            /\ Program.date p = Some (split_T_head (Program.startDate p))
            /\ Program.venue p = Some (Program.department p)).
  { intros p Hin. apply list_elem_of_fmap in Hin as (w & -> & _).
    repeat split. }
  split; [|split].
  - exists wire. split; [reflexivity|]. rewrite map_map. reflexivity.
  - exact Hshape.
  - intros id programData updatedProgram sid Hnotin.
    unfold handleEditProgram.
    destruct (JS.find (fun p => String.eqb (Program.id p) id) (programs s))
      as [old|] eqn:Hfind; cycle 1.
    { destruct (ProgramData.coordinatorIds programData); reflexivity. }
    destruct (ProgramData.coordinatorIds programData) as [newIds|] eqn:Hnew;
      [|reflexivity].
    apply JS_find_Some in Hfind as [Hin _]. rewrite Hprograms in Hin.
    destruct (Hshape old Hin) as (-> & _).
    simpl in Hnotin. cbn [foldl].
    destruct newIds as [|n newIds]; [reflexivity|].
    remember (n :: newIds) as l eqn:Hl. clear Hl n newIds.
    cbv beta iota zeta.
    destruct (foldl (add_coordinated _ _) _ l) as [updated|] eqn:Hfold;
      [|reflexivity].
    simpl. by rewrite (foldl_add_coordinated_other _ _ _ _ _ _ Hnotin Hfold).
Qed.

Lemma loaded_programs_have_no_coordinators_witness :
  let fetched := Resolved (Http.mkResponse true 200 "OK" (Rejected OtherValue)
                             (Resolved [sample_wire_program])) in
  let loaded := map (program_of_response (fun _ => "09:00")) [sample_wire_program] in
  let s := setStudentReports (fun _ => {[ "U100" := stale_report ]})
             (setPrograms (fun _ => loaded) initial_state) in
  studentReports (handleEditProgram "P2" edited_programData
                    (Resolved created_program) s) !! "U100"
  = Some stale_report.
Proof.
  cbv zeta.
  destruct (loaded_programs_have_no_coordinators "null" "not a function"
              (fun _ => "09:00")
              (Resolved (Http.mkResponse true 200 "OK" (Rejected OtherValue)
                           (Resolved [sample_wire_program])))
              (map (program_of_response (fun _ => "09:00")) [sample_wire_program])
              (setStudentReports (fun _ => {[ "U100" := stale_report ]})
                 (setPrograms
                    (fun _ => map (program_of_response (fun _ => "09:00"))
                                [sample_wire_program])
                    initial_state))
              eq_refl eq_refl) as (_ & _ & H).
  rewrite H; [reflexivity|].
  simpl. intros Hin. apply elem_of_cons in Hin as [Hin|Hin]; [discriminate|].
  apply elem_of_cons in Hin as [Hin|Hin]; [discriminate|].
  by apply elem_of_nil in Hin.
Defined.

(** ** The coordinator portal *)

Lemma includes_true (x : string) (l : list string) :
  includes x l = true <-> x ∈ l.
Proof.
  unfold includes. rewrite existsb_exists. split.
  - intros (y & Hin & Heq). apply String.eqb_eq in Heq as ->.
    by apply list_elem_of_In.
  - intros Hin. exists x. split; [by apply list_elem_of_In|apply String.eqb_refl].
Qed.

Lemma includes_false (x : string) (l : list string) :
  includes x l = false <-> x ∉ l.
Proof.
  rewrite <- includes_true. destruct (includes x l); split; done.
Qed.

Lemma filter_ne_notin (x : string) (l : list string) :
  x ∉ l -> filter (fun id => id ≠ x) l = l.
Proof.
  induction l as [|y l IH]; intros Hnotin; [reflexivity|].
  apply not_elem_of_cons in Hnotin as [Hne Hnotin].
  rewrite filter_cons_True by congruence. by rewrite IH.
Qed.

Lemma toggle_elem (x y : string) (l : list string) :
  y ∈ TeacherPortal.toggle x l <-> (if decide (y = x) then x ∉ l else y ∈ l).
Proof.
  unfold TeacherPortal.toggle. destruct (includes x l) eqn:Hinc.
  - apply includes_true in Hinc. rewrite list_elem_of_filter.
    destruct (decide (y = x)) as [->|Hne]; tauto.
  - apply includes_false in Hinc. rewrite elem_of_app, list_elem_of_singleton.
    destruct (decide (y = x)) as [->|Hne]; tauto.
Qed.

Lemma apply_selection_programs (sel : TeacherPortal.Selection)
    (ids : list string) (timestamp : string) (app : State) (programId : string) :
  TeacherPortal.showParticipantSelection sel = Some programId ->
  programId ≠ "" ->
  TeacherPortal.apply_selection sel ids timestamp app
  = handleAddParticipants programId ids timestamp app.
Proof.
  intros Hsel Hne. unfold TeacherPortal.apply_selection. rewrite Hsel.
  unfold truthy. apply String.eqb_neq in Hne. by rewrite Hne.
Qed.

(** X15. Toggling a student in the participant dialog flips the
    membership of that student in the selection and of no other; with a
    program open in the dialog the new selection at once becomes the
    participant list of every local program with that id (other programs
    are untouched and nothing is sent to the backend); with no program
    open, or one whose id is the empty string, the App state is not
    touched. *)
Theorem student_toggle_applies_at_once (studentId timestamp : string)
    (sel : TeacherPortal.Selection) (app : State) :
  let result := TeacherPortal.handleStudentToggle studentId timestamp sel app in
  let selected' := TeacherPortal.selectedStudentIds (fst result) in
  let app' := snd result in
  ((studentId ∈ selected') <-> (studentId ∉ TeacherPortal.selectedStudentIds sel))
  /\ (forall y, y ≠ studentId ->
        ((y ∈ selected') <-> (y ∈ TeacherPortal.selectedStudentIds sel)))
  /\ TeacherPortal.showParticipantSelection (fst result)
     = TeacherPortal.showParticipantSelection sel
  /\ trace app' = trace app
  /\ (forall programId,
        TeacherPortal.showParticipantSelection sel = Some programId ->
        programId ≠ "" ->
        forall i p,
          programs app !! i = Some p ->
          (Program.id p = programId ->
           exists p', programs app' !! i = Some p'
                      /\ Program.participantIds p' = Some selected'
                      /\ Program.updatedAt p' = Some timestamp
                      /\ Program.id p' = programId)
          /\ (Program.id p ≠ programId -> programs app' !! i = Some p))
  /\ (TeacherPortal.showParticipantSelection sel = None
      \/ TeacherPortal.showParticipantSelection sel = Some "" ->
      app' = app).
Proof.
  cbv zeta. unfold TeacherPortal.handleStudentToggle; simpl.
  split; [|split; [|split; [|split; [|split]]]].
  - rewrite toggle_elem. by rewrite decide_True.
  - intros y Hne. rewrite toggle_elem. by rewrite decide_False.
  - reflexivity.
  - unfold TeacherPortal.apply_selection.
    destruct (TeacherPortal.showParticipantSelection sel) as [pid|]; [|reflexivity].
    destruct (truthy pid); reflexivity.
  - intros programId Hsel Hne i p Hp.
    rewrite (apply_selection_programs _ _ _ _ _ Hsel Hne).
    unfold handleAddParticipants; simpl. rewrite list_lookup_fmap, Hp. simpl.
    split.
    + intros Hid. apply String.eqb_eq in Hid. rewrite Hid.
      eexists. split; [reflexivity|]. apply String.eqb_eq in Hid. by repeat split.
    + intros Hid. apply String.eqb_neq in Hid. by rewrite Hid.
  - unfold TeacherPortal.apply_selection. intros [->| ->]; reflexivity.
Qed.

Lemma student_toggle_applies_at_once_witness :
  let sel := TeacherPortal.handleParticipantSelection (programs loaded_state) "P1" in
  let result := TeacherPortal.handleStudentToggle "U300" "2025-03-01" sel loaded_state in
  exists p', programs (snd result) !! 0%nat = Some p'
             /\ Program.participantIds p' = Some ["U100"; "U200"; "U300"].
Proof.
  cbv zeta.
  pose proof (student_toggle_applies_at_once "U300" "2025-03-01"
                (TeacherPortal.handleParticipantSelection (programs loaded_state) "P1")
                loaded_state) as H.
  cbv zeta in H. destruct H as (_ & _ & _ & _ & Happly & _).
  destruct (Happly "P1" eq_refl ltac:(discriminate) 0%nat sample_program eq_refl)
    as [Hsame _].
  destruct (Hsame eq_refl) as (p' & Hl & Hpart & _).
  exists p'. split; [exact Hl|]. rewrite Hpart. reflexivity.
Defined.

(** X16. Toggling the same id twice: an id that was not selected leaves
    the selection exactly as it was; an id that was selected (once) ends
    up selected again, moved to the end, the selection being a
    permutation of the former one. *)
Theorem toggle_twice (studentId : string) (selected : list string) :
  (studentId ∉ selected ->
   TeacherPortal.toggle studentId (TeacherPortal.toggle studentId selected)
   = selected)
  /\ (studentId ∈ selected -> NoDup selected ->
      TeacherPortal.toggle studentId (TeacherPortal.toggle studentId selected)
      = filter (fun id => id ≠ studentId) selected ++ [studentId]
      /\ TeacherPortal.toggle studentId (TeacherPortal.toggle studentId selected)
         ≡ₚ selected).
Proof.
  split.
  - intros Hnotin. unfold TeacherPortal.toggle.
    rewrite (proj2 (includes_false _ _) Hnotin).
    assert (Hinc : includes studentId (selected ++ [studentId]) = true).
    { apply includes_true. set_solver. }
    rewrite Hinc. rewrite filter_app, filter_ne_notin by assumption.
    rewrite filter_cons_False by (intros H; by apply H). simpl.
    apply app_nil_r.
  - intros Hin Hnodup. unfold TeacherPortal.toggle.
    rewrite (proj2 (includes_true _ _) Hin).
    assert (Hinc : includes studentId (filter (fun id => id ≠ studentId) selected)
                   = false).
    { apply includes_false. rewrite list_elem_of_filter. tauto. }
    rewrite Hinc. split; [reflexivity|].
    apply NoDup_Permutation.
    + apply NoDup_app. split; [by apply NoDup_filter|]. split.
      * intros x Hx Hx'. apply list_elem_of_singleton in Hx' as ->.
        apply list_elem_of_filter in Hx as [Hne _]. by apply Hne.
      * apply NoDup_singleton.
    + exact Hnodup.
    + intros x. rewrite elem_of_app, list_elem_of_filter, list_elem_of_singleton.
      destruct (decide (x = studentId)) as [->|Hne]; tauto.
Qed.

Lemma toggle_twice_witness :
  TeacherPortal.toggle "U300" (TeacherPortal.toggle "U300" ["U100"; "U200"])
  = ["U100"; "U200"]
  /\ TeacherPortal.toggle "U100" (TeacherPortal.toggle "U100" ["U100"; "U200"])
     = ["U200"; "U100"].
Proof.
  split.
  - apply (proj1 (toggle_twice "U300" ["U100"; "U200"])). set_solver.
  - apply (proj2 (toggle_twice "U100" ["U100"; "U200"])).
    + set_solver.
    + repeat constructor; set_solver.
Defined.

(** *** Select all *)

Lemma Set_add_spec (acc : list string) (x : string) :
  (forall y, y ∈ Set_add acc x <-> y ∈ acc \/ y = x)
  /\ (NoDup acc -> NoDup (Set_add acc x))
  /\ exists extra, Set_add acc x = acc ++ extra
                   /\ forall y, y ∈ extra -> y = x /\ y ∉ acc.
Proof.
  unfold Set_add. destruct (includes x acc) eqn:Hinc.
  - apply includes_true in Hinc. repeat split.
    + auto.
    + intros [H| ->]; assumption.
    + auto.
    + exists []. split; [by rewrite app_nil_r|]. intros y Hy.
      by apply elem_of_nil in Hy.
  - apply includes_false in Hinc. repeat split.
    + intros Hy. apply elem_of_app in Hy as [Hy|Hy]; [by left|].
      right. by apply list_elem_of_singleton in Hy.
    + intros [Hy| ->]; apply elem_of_app; [by left|right].
      by apply list_elem_of_singleton.
    + intros Hnodup. apply NoDup_app. split; [assumption|]. split.
      * intros y Hy Hy'. apply list_elem_of_singleton in Hy' as ->. contradiction.
      * apply NoDup_singleton.
    + exists [x]. split; [reflexivity|]. intros y Hy.
      apply list_elem_of_singleton in Hy as ->. auto.
Qed.

Lemma foldl_Set_add_spec (l acc : list string) :
  (forall y, y ∈ foldl Set_add acc l <-> y ∈ acc \/ y ∈ l)
  /\ (NoDup acc -> NoDup (foldl Set_add acc l))
  /\ exists extra, foldl Set_add acc l = acc ++ extra
                   /\ forall y, y ∈ extra -> y ∈ l /\ y ∉ acc.
Proof.
  revert acc. induction l as [|x l IH]; intros acc; simpl.
  - repeat split.
    + auto.
    + intros [H|H]; [assumption|by apply elem_of_nil in H].
    + auto.
    + exists []. split; [by rewrite app_nil_r|]. intros y Hy.
      by apply elem_of_nil in Hy.
  - destruct (Set_add_spec acc x) as (Helem & Hnodup & extra1 & Heq1 & Hextra1).
    destruct (IH (Set_add acc x)) as (Helem' & Hnodup' & extra2 & Heq2 & Hextra2).
    repeat split.
    + intros Hy. apply Helem' in Hy as [Hy|Hy].
      * apply Helem in Hy as [Hy| ->]; [by left|right; left].
      * right. by right.
    + intros [Hy|Hy].
      * apply Helem'. left. apply Helem. by left.
      * apply elem_of_cons in Hy as [->|Hy]; apply Helem'.
        -- left. apply Helem. by right.
        -- by right.
    + intros Hnd. by apply Hnodup', Hnodup.
    + exists (extra1 ++ extra2). split.
      * rewrite Heq2, Heq1, <- app_assoc. reflexivity.
      * intros y Hy. apply elem_of_app in Hy as [Hy|Hy].
        -- destruct (Hextra1 y Hy) as [-> Hn]. split; [left|assumption].
        -- destruct (Hextra2 y Hy) as [Hin Hn]. split; [by right|].
           intros Hacc. apply Hn, Helem. by left.
Qed.

Lemma Set_from_elem (l : list string) (y : string) : y ∈ Set_from l <-> y ∈ l.
Proof.
  unfold Set_from. destruct (foldl_Set_add_spec l []) as (Helem & _).
  rewrite Helem. split; [|auto]. intros [H|H]; [by apply elem_of_nil in H|exact H].
Qed.

Lemma Set_from_NoDup (l : list string) : NoDup (Set_from l).
Proof.
  unfold Set_from. destruct (foldl_Set_add_spec l []) as (_ & Hnodup & _).
  apply Hnodup, NoDup_nil_2.
Qed.

Lemma foldl_Set_add_NoDup (l pre : list string) :
  NoDup (pre ++ l) -> foldl Set_add pre l = pre ++ l.
Proof.
  revert pre. induction l as [|x l IH]; intros pre Hnd; simpl.
  - by rewrite app_nil_r.
  - assert (Hx : includes x pre = false).
    { apply includes_false. apply NoDup_app in Hnd as (_ & Hdisj & _).
      intros Hin. apply (Hdisj x Hin). left. }
    unfold Set_add at 2. rewrite Hx.
    rewrite IH; rewrite <- app_assoc; [reflexivity|exact Hnd].
Qed.

Lemma filter_all {A} (P : A -> Prop) `{forall x, Decision (P x)} (l : list A) :
  (forall x, x ∈ l -> P x) -> filter P l = l.
Proof.
  induction l as [|x l IH]; intros Hall; [reflexivity|].
  rewrite filter_cons_True by (apply Hall; left).
  rewrite IH; [reflexivity|]. intros y Hy. apply Hall. by right.
Qed.

Lemma filter_none {A} (P : A -> Prop) `{forall x, Decision (P x)} (l : list A) :
  (forall x, x ∈ l -> ~ P x) -> filter P l = [].
Proof.
  induction l as [|x l IH]; intros Hnone; [reflexivity|].
  rewrite filter_cons_False by (apply Hnone; left).
  apply IH. intros y Hy. apply Hnone. by right.
Qed.

Lemma all_selected_true (filteredIds selected : list string) :
  forallb (fun id => includes id selected) (Set_from filteredIds) = true
  <-> forall id, id ∈ filteredIds -> id ∈ selected.
Proof.
  rewrite forallb_forall. split.
  - intros Hall id Hin. apply includes_true, Hall, list_elem_of_In.
    by apply Set_from_elem.
  - intros Hall id Hin. apply includes_true, Hall, Set_from_elem.
    by apply list_elem_of_In.
Qed.

Lemma not_in_Set_from (filteredIds : list string) (id : string) :
  negb (includes id (Set_from filteredIds)) = true <-> id ∉ filteredIds.
Proof.
  rewrite negb_true_iff, includes_false, Set_from_elem. reflexivity.
Qed.

(** X17. "Select all" on the list shown: with nothing shown the
    selection is unchanged; when every shown id is selected, exactly the
    shown ids are dropped and the others keep their order; otherwise the
    result holds every formerly selected and every shown id without
    duplicates, the former selection (if free of duplicates) coming first
    in its order.  Selecting all and then again undoes itself on a
    duplicate-free selection disjoint from the list shown. *)
Theorem select_all_toggles (filteredIds selected : list string) :
  let result := TeacherPortal.toggle_all filteredIds selected in
  (filteredIds = [] -> result = selected)
  /\ (filteredIds ≠ [] -> (forall id, id ∈ filteredIds -> id ∈ selected) ->
      result = filter (fun id => id ∉ filteredIds) selected
      /\ forall id, id ∈ filteredIds -> id ∉ result)
  /\ (filteredIds ≠ [] -> ~ (forall id, id ∈ filteredIds -> id ∈ selected) ->
      NoDup result
      /\ (forall y, y ∈ result <-> y ∈ selected \/ y ∈ filteredIds)
      /\ (NoDup selected -> selected `prefix_of` result))
  /\ (filteredIds ≠ [] -> NoDup selected ->
      (forall id, id ∈ filteredIds -> id ∉ selected) ->
      TeacherPortal.toggle_all filteredIds result = selected).
Proof.
  cbv zeta.
  assert (Hall_case : forall sel, filteredIds ≠ [] ->
            (forall id, id ∈ filteredIds -> id ∈ sel) ->
            TeacherPortal.toggle_all filteredIds sel
            = filter (fun id => id ∉ filteredIds) sel).
  { intros sel Hne Hall. unfold TeacherPortal.toggle_all.
    destruct filteredIds as [|f fs]; [done|].
    rewrite (proj2 (all_selected_true _ _) Hall).
    apply list_filter_iff. intros id. apply not_in_Set_from. }
  assert (Hsome_case : filteredIds ≠ [] ->
            ~ (forall id, id ∈ filteredIds -> id ∈ selected) ->
            TeacherPortal.toggle_all filteredIds selected
            = Set_from (selected ++ filteredIds)).
  { intros Hne Hnot. unfold TeacherPortal.toggle_all.
    destruct filteredIds as [|f fs]; [done|].
    destruct (forallb _ _) eqn:Hall; [|reflexivity].
    destruct Hnot. exact (proj1 (all_selected_true _ _) Hall). }
  split; [|split; [|split]].
  - intros ->. reflexivity.
  - intros Hne Hall. rewrite (Hall_case _ Hne Hall). split; [reflexivity|].
    intros id Hin Hres. apply list_elem_of_filter in Hres as [Hnotin _].
    contradiction.
  - intros Hne Hnot. rewrite (Hsome_case Hne Hnot). split; [|split].
    + apply Set_from_NoDup.
    + intros y. rewrite Set_from_elem, elem_of_app. reflexivity.
    + intros Hnodup. unfold Set_from. rewrite foldl_app.
      rewrite (foldl_Set_add_NoDup selected []) by exact Hnodup. simpl.
      destruct (foldl_Set_add_spec filteredIds selected) as (_ & _ & extra & -> & _).
      by exists extra.
  - intros Hne Hnodup Hdisj.
    assert (Hnot : ~ (forall id, id ∈ filteredIds -> id ∈ selected)).
    { intros Hall. destruct filteredIds as [|f fs]; [done|].
      apply (Hdisj f); [left|apply Hall; left]. }
    rewrite (Hsome_case Hne Hnot).
    assert (Hres : exists extra,
               Set_from (selected ++ filteredIds) = selected ++ extra
               /\ forall y, y ∈ extra -> y ∈ filteredIds).
    { unfold Set_from. rewrite foldl_app.
      rewrite (foldl_Set_add_NoDup selected []) by exact Hnodup. simpl.
      destruct (foldl_Set_add_spec filteredIds selected)
        as (_ & _ & extra & -> & Hextra).
      exists extra. split; [reflexivity|]. intros y Hy. by apply Hextra. }
    destruct Hres as (extra & Hres & Hextra).
    rewrite Hall_case; [|exact Hne|].
    + rewrite Hres, filter_app.
      rewrite (filter_all _ selected) by (intros x Hx Hin; by apply (Hdisj x)).
      rewrite (filter_none _ extra) by (intros x Hx Hn; by apply Hn, Hextra).
      apply app_nil_r.
    + intros id Hin. apply Set_from_elem, elem_of_app. by right.
Qed.

Lemma select_all_toggles_witness :
  TeacherPortal.toggle_all ["U200"; "U300"] ["U100"] = ["U100"; "U200"; "U300"]
  /\ TeacherPortal.toggle_all ["U200"; "U300"]
       (TeacherPortal.toggle_all ["U200"; "U300"] ["U100"]) = ["U100"].
Proof.
  destruct (select_all_toggles ["U200"; "U300"] ["U100"]) as (_ & _ & _ & Hround).
  cbv zeta in Hround. split; [reflexivity|].
  apply Hround.
  - discriminate.
  - repeat constructor; set_solver.
  - set_solver.
Defined.

(** *** The attendance sheet *)

Lemma has_name_true (n : string) (l : list TeacherPortal.AttendeeEntry.t) :
  TeacherPortal.has_name n l = true
  <-> exists a, a ∈ l /\ TeacherPortal.AttendeeEntry.name a = n.
Proof.
  unfold TeacherPortal.has_name. rewrite existsb_exists. split.
  - intros (a & Hin & Heq). exists a. split; [by apply list_elem_of_In|].
    by apply String.eqb_eq.
  - intros (a & Hin & Heq). exists a. split; [by apply list_elem_of_In|].
    by apply String.eqb_eq.
Qed.

(** X18. "Add All" keeps the attendees already listed, in place, and
    appends, without remark, the students of the selected department
    whose name is not yet listed; afterwards every student of the
    department is listed by name, and pressing the button again adds
    nothing. *)
Theorem add_all_idempotent (registeredStudents : list RegisteredStudent.t)
    (selectedDepartment : string)
    (attendees : list TeacherPortal.AttendeeEntry.t) :
  let result := TeacherPortal.add_all registeredStudents selectedDepartment
                  attendees in
  attendees `prefix_of` result
  /\ (forall s, s ∈ registeredStudents ->
        RegisteredStudent.department s = selectedDepartment ->
        TeacherPortal.has_name (RegisteredStudent.name s) result = true)
  /\ (forall e, e ∈ result ->
        e ∈ attendees
        \/ (TeacherPortal.AttendeeEntry.remark e = None
            /\ TeacherPortal.has_name (TeacherPortal.AttendeeEntry.name e) attendees
               = false
            /\ exists s, s ∈ registeredStudents
                         /\ RegisteredStudent.department s = selectedDepartment
                         /\ RegisteredStudent.name s
                            = TeacherPortal.AttendeeEntry.name e))
  /\ TeacherPortal.add_all registeredStudents selectedDepartment result = result.
Proof.
  cbv zeta.
  assert (Hlisted : forall s, s ∈ registeredStudents ->
            RegisteredStudent.department s = selectedDepartment ->
            TeacherPortal.has_name (RegisteredStudent.name s)
              (TeacherPortal.add_all registeredStudents selectedDepartment attendees)
            = true).
  { intros s Hin Hdep. unfold TeacherPortal.add_all, TeacherPortal.has_name.
    rewrite existsb_app.
    destruct (existsb _ attendees) eqn:Hhas; [reflexivity|]. simpl.
    apply existsb_exists.
    exists (TeacherPortal.AttendeeEntry.mk (RegisteredStudent.name s) None).
    split; [|apply String.eqb_refl].
    apply list_elem_of_In, list_elem_of_fmap. exists s. split; [reflexivity|].
    apply list_elem_of_filter. split.
    - unfold TeacherPortal.has_name. by rewrite Hhas.
    - apply list_elem_of_filter. auto. }
  split; [|split; [|split]].
  - unfold TeacherPortal.add_all. by eexists.
  - exact Hlisted.
  - intros e He. unfold TeacherPortal.add_all in He.
    apply elem_of_app in He as [He|He]; [by left|]. right.
    apply list_elem_of_fmap in He as (s & -> & Hs).
    apply list_elem_of_filter in Hs as [Hnew Hs].
    apply list_elem_of_filter in Hs as [Hdep Hs]. simpl.
    split; [reflexivity|]. split; [by apply negb_true_iff|]. eauto.
  - unfold TeacherPortal.add_all at 1.
    rewrite (filter_none _ (filter _ registeredStudents)).
    + apply app_nil_r.
    + intros s Hs Hnew. apply list_elem_of_filter in Hs as [Hdep Hs].
      rewrite (Hlisted s Hs Hdep) in Hnew. discriminate.
Qed.

Lemma add_all_idempotent_witness :
  TeacherPortal.has_name "Meera"
    (TeacherPortal.add_all [sample_student; other_student] "Physics" []) = true.
Proof.
  destruct (add_all_idempotent [sample_student; other_student] "Physics" [])
    as (_ & Hlisted & _).
  apply (Hlisted sample_student).
  - left.
  - reflexivity.
Defined.

Lemma remove_at_delete (i : nat) (l : list TeacherPortal.AttendeeEntry.t) :
  TeacherPortal.remove_at i l = delete i l.
Proof.
  unfold TeacherPortal.remove_at. revert i.
  induction l as [|x l IH]; intros i; [reflexivity|].
  destruct i as [|i]; simpl.
  - change (imap ((fun idx x0 => if Nat.eqb idx 0 then None else Some x0) ∘ S) l)
      with (imap (const (@Some TeacherPortal.AttendeeEntry.t)) l).
    rewrite imap_const. clear IH. induction l as [|y l IHl]; [reflexivity|].
    simpl. f_equal. apply IHl.
  - f_equal. apply IH.
Qed.

(** X19. Rows of the attendance sheet are edited and removed by
    position: an edit changes the name (or remark) of the row at that
    position only, an empty remark becoming no remark; removing shifts
    the later rows down by one; a position past the end changes nothing;
    and an edit of a row followed by its removal is the removal alone. *)
Theorem attendees_by_position (i : nat) (val : string)
    (l : list TeacherPortal.AttendeeEntry.t) :
  (forall j, TeacherPortal.edit_name i val l !! j
             = if decide (j = i)
               then (fun x => TeacherPortal.AttendeeEntry.mk val
                                (TeacherPortal.AttendeeEntry.remark x)) <$> l !! j
               else l !! j)
  /\ (forall j, TeacherPortal.edit_remark i val l !! j
                = if decide (j = i)
                  then (fun x => TeacherPortal.AttendeeEntry.mk
                                   (TeacherPortal.AttendeeEntry.name x)
                                   (if decide (val = "") then None else Some val))
                         <$> l !! j
                  else l !! j)
  /\ (forall j, TeacherPortal.remove_at i l !! j
                = if decide (j < i)%nat then l !! j else l !! S j)
  /\ ((length l <= i)%nat ->
      TeacherPortal.edit_name i val l = l
      /\ TeacherPortal.edit_remark i val l = l
      /\ TeacherPortal.remove_at i l = l)
  /\ ((i < length l)%nat ->
      length (TeacherPortal.remove_at i l) = (length l - 1)%nat)
  /\ TeacherPortal.remove_at i (TeacherPortal.edit_name i val l)
     = TeacherPortal.remove_at i l.
Proof.
  assert (Hname : forall j, TeacherPortal.edit_name i val l !! j
             = if decide (j = i)
               then (fun x => TeacherPortal.AttendeeEntry.mk val
                                (TeacherPortal.AttendeeEntry.remark x)) <$> l !! j
               else l !! j).
  { intros j. unfold TeacherPortal.edit_name. rewrite list_lookup_imap.
    destruct (decide (j = i)) as [->|Hne].
    - rewrite Nat.eqb_refl. reflexivity.
    - apply Nat.eqb_neq in Hne. rewrite Hne. by destruct (l !! j). }
  assert (Hremark : forall j, TeacherPortal.edit_remark i val l !! j
                = if decide (j = i)
                  then (fun x => TeacherPortal.AttendeeEntry.mk
                                   (TeacherPortal.AttendeeEntry.name x)
                                   (if decide (val = "") then None else Some val))
                         <$> l !! j
                  else l !! j).
  { intros j. unfold TeacherPortal.edit_remark. rewrite list_lookup_imap.
    destruct (decide (j = i)) as [->|Hne].
    - rewrite Nat.eqb_refl. unfold truthy.
      destruct (decide (val = "")) as [->|Hval]; [reflexivity|].
      apply String.eqb_neq in Hval. by rewrite Hval.
    - apply Nat.eqb_neq in Hne. rewrite Hne. by destruct (l !! j). }
  assert (Hremove : forall j, TeacherPortal.remove_at i l !! j
                = if decide (j < i)%nat then l !! j else l !! S j).
  { intros j. rewrite remove_at_delete. destruct (decide (j < i)%nat).
    - by apply list_lookup_delete_lt.
    - apply list_lookup_delete_ge. lia. }
  split; [exact Hname|]. split; [exact Hremark|]. split; [exact Hremove|].
  split; [|split].
  - intros Hlen. repeat split; apply list_eq; intros j.
    + rewrite Hname. destruct (decide (j = i)) as [->|]; [|reflexivity].
      by rewrite lookup_ge_None_2.
    + rewrite Hremark. destruct (decide (j = i)) as [->|]; [|reflexivity].
      by rewrite lookup_ge_None_2.
    + rewrite Hremove. destruct (decide (j < i)%nat); [reflexivity|].
      rewrite !lookup_ge_None_2 by lia. reflexivity.
  - intros Hlt. rewrite remove_at_delete, length_delete; [reflexivity|].
    by apply lookup_lt_is_Some.
  - rewrite !remove_at_delete. apply list_eq. intros j.
    destruct (decide (j < i)%nat).
    + rewrite !list_lookup_delete_lt by assumption. rewrite Hname.
      rewrite decide_False by lia. reflexivity.
    + rewrite !list_lookup_delete_ge by lia. rewrite Hname.
      rewrite decide_False by lia. reflexivity.
Qed.

Lemma attendees_by_position_witness :
  TeacherPortal.edit_name 5 "Ravi" sample_attendees = sample_attendees
  /\ length (TeacherPortal.remove_at 0 sample_attendees) = 1%nat.
Proof.
  destruct (attendees_by_position 5 "Ravi" sample_attendees)
    as (_ & _ & _ & Hpast & _).
  destruct (attendees_by_position 0 "Ravi" sample_attendees)
    as (_ & _ & _ & _ & Hlen & _).
  split.
  - apply Hpast. simpl. lia.
  - apply Hlen. simpl. lia.
Defined.

(** ** The student portal *)

(** X20. The control of a program card: "Enroll Now" is offered only
    when registration is open and the program is not full, and to a
    participant only when neither date comparison holds (a start date
    that does not parse); a participant of a program whose date is
    either past or upcoming is always offered to unenroll; a
    non-participant sees "Enroll Now", "Registration Closed" or "Full
    Capacity"; the label "Not Available" is never shown. *)
Theorem enrollment_control_cases (program : Program.t) (studentId : string)
    (isUpcoming isPastProgram : bool) :
  let c := StudentPortal.control program studentId isUpcoming isPastProgram in
  c ≠ StudentPortal.Unavailable "Not Available"
  /\ (c = StudentPortal.EnrollNow ->
      Program.registrationOpen program = true
      /\ StudentPortal.participantCount program < Program.maxParticipants program
      /\ (StudentPortal.isParticipant program studentId = true ->
          isUpcoming = false /\ isPastProgram = false))
  /\ (StudentPortal.isParticipant program studentId = true ->
      isUpcoming = negb isPastProgram ->
      c = (if isPastProgram then StudentPortal.CertificateAndUnenroll
           else StudentPortal.RegisteredAndUnenroll))
  /\ (StudentPortal.isParticipant program studentId = false ->
      c = StudentPortal.EnrollNow
      \/ c = StudentPortal.Unavailable "Registration Closed"
      \/ c = StudentPortal.Unavailable "Full Capacity").
Proof.
  cbv zeta. unfold StudentPortal.control.
  destruct (StudentPortal.isParticipant program studentId) eqn:Hpart,
    isUpcoming, isPastProgram,
    (Program.registrationOpen program) eqn:Hopen; simpl;
    destruct (StudentPortal.participantCount program
              <? Program.maxParticipants program) eqn:Hlt; simpl;
    try (apply Z.ltb_lt in Hlt); try (apply Z.ltb_ge in Hlt);
    try (assert (Hge : (StudentPortal.participantCount program
                        >=? Program.maxParticipants program) = true)
           by (apply Z.geb_le; lia); rewrite Hge);
    repeat split; try discriminate; try lia; auto.
Qed.

Lemma enrollment_control_cases_witness :
  StudentPortal.control sample_program "U100" false true
  = StudentPortal.CertificateAndUnenroll.
Proof.
  apply (enrollment_control_cases sample_program "U100" false true); reflexivity.
Defined.

(** A participant of a program whose start date does not parse is
    offered to enrol again. *)
Example participant_with_invalid_date :
  StudentPortal.control sample_program "U100" false false = StudentPortal.EnrollNow.
Proof. reflexivity. Qed.

(** X21. [handleEnrollment] shows exactly one alert in every case and
    touches nothing else of the App state.  The program list is replaced
    only when the enrollment request and the reload both succeed.  When
    the enrollment was accepted but the reload cannot be reached, the
    user is told that the enrollment failed; when the reload answers with
    an error status, success is reported and the list stays as it was. *)
Theorem enrollment_reports_once (enroll : bool)
    (response : Outcome (Http.Response unit))
    (programsResponse : Outcome (Http.Response (list Program.t)))
    (allPrograms : list Program.t) (app : State) :
  let result := StudentPortal.handleEnrollment enroll response programsResponse
                  allPrograms app in
  let succeeded := if enroll then "Successfully enrolled in program!"
                   else "Successfully unenrolled from program!" in
  (exists msg, trace (snd result) = trace app ++ [Alert msg])
  /\ forget_trace (snd result) = forget_trace app
  /\ (fst result = allPrograms
      \/ exists r pr,
           response = Resolved r /\ Http.ok r = true
           /\ programsResponse = Resolved pr /\ Http.ok pr = true
           /\ Http.json pr = Resolved (fst result)
           /\ alerts (snd result) = alerts app ++ [succeeded])
  /\ (forall r e,
        response = Resolved r -> Http.ok r = true ->
        programsResponse = Rejected e ->
        fst result = allPrograms
        /\ alerts (snd result)
           = alerts app ++ ["Failed to update enrollment. Please try again."])
  /\ (forall r pr,
        response = Resolved r -> Http.ok r = true ->
        programsResponse = Resolved pr -> Http.ok pr = false ->
        fst result = allPrograms
        /\ alerts (snd result) = alerts app ++ [succeeded]).
Proof.
  cbv zeta. unfold StudentPortal.handleEnrollment.
  split; [|split; [|split; [|split]]].
  - destruct response as [r|e]; [|eauto].
    destruct (Http.ok r).
    + destruct programsResponse as [pr|e]; [|eauto].
      destruct (Http.ok pr); [|eauto]. destruct (Http.json pr); eauto.
    + destruct (Http.error_json r) as [[b|]|e]; [destruct (to_string _)| |];
        eauto.
  - destruct response as [r|e]; [|reflexivity].
    destruct (Http.ok r).
    + destruct programsResponse as [pr|e]; [|reflexivity].
      destruct (Http.ok pr); [|reflexivity]. destruct (Http.json pr); reflexivity.
    + destruct (Http.error_json r) as [[b|]|e]; [destruct (to_string _)| |];
        reflexivity.
  - destruct response as [r|e]; [|by left].
    destruct (Http.ok r) eqn:Hok.
    + destruct programsResponse as [pr|e]; [|by left].
      destruct (Http.ok pr) eqn:Hok'; [|by left].
      destruct (Http.json pr) as [data|e] eqn:Hjson; [|by left].
      right. exists r, pr. simpl. rewrite alerts_alert. by repeat split.
    + destruct (Http.error_json r) as [[b|]|e]; [destruct (to_string _)| |];
        by left.
  - intros r e -> Hok ->. rewrite Hok. simpl. by rewrite alerts_alert.
  - intros r pr -> Hok -> Hok'. rewrite Hok, Hok'. simpl. by rewrite alerts_alert.
Qed.

Lemma enrollment_reports_once_witness :
  alerts (snd (StudentPortal.handleEnrollment true accepted unreachable
                 [sample_program] initial_state))
  = ["Failed to update enrollment. Please try again."].
Proof.
  destruct (enrollment_reports_once true accepted unreachable [sample_program]
              initial_state) as (_ & _ & _ & Hfail & _).
  cbv zeta in Hfail.
  apply (Hfail (Http.mkResponse true 200 "OK" (Rejected OtherValue) (Resolved tt))
           (ErrorObject "Failed to fetch")); reflexivity.
Defined.

(** ** Editing by id *)

Lemma replace_by_id_lookup {A} (get_id : A -> string) (id : string) (y : A)
    (l : list A) (i : nat) :
  replace_by_id get_id id y l !! i
  = (fun x => if String.eqb (get_id x) id then y else x) <$> l !! i.
Proof. unfold replace_by_id. apply list_lookup_fmap. Qed.

Lemma replace_by_id_unknown {A} (get_id : A -> string) (id : string) (y : A)
    (l : list A) :
  JS.find (fun x => String.eqb (get_id x) id) l = None ->
  replace_by_id get_id id y l = l.
Proof.
  unfold replace_by_id. induction l as [|x l IH]; simpl; [reflexivity|].
  destruct (String.eqb (get_id x) id); [discriminate|].
  intros H. by rewrite IH.
Qed.

(** X22. Edits by id of an entity that is not known locally: a
    successful [handleEditStudent], [handleEditCoordinator] or
    [handleEditProgram] leaves its list exactly as it was (the record the
    backend returned is dropped), although the request was sent; the two
    toggles and [handleEditDepartment] do not even send a request.  For a
    known id the list keeps its length and every entry with that id is
    replaced by the returned record. *)
Theorem edit_of_unknown_id (id : string) (s : State) :
  (forall updates updatedStudent,
      let s' := handleEditStudent id updates (Resolved updatedStudent) s in
      length (registeredStudents s') = length (registeredStudents s)
      /\ (forall i, registeredStudents s' !! i
                    = (fun x => if String.eqb (RegisteredStudent.id x) id
                                then updatedStudent else x)
                        <$> registeredStudents s !! i)
      /\ (JS.find (fun x => String.eqb (RegisteredStudent.id x) id)
            (registeredStudents s) = None ->
          forget_trace s' = forget_trace s
          /\ trace s' = trace s ++ [Call (students_update id)]))
  /\ (forall updates updatedCoordinator,
        JS.find (fun x => String.eqb (Coordinator.id x) id) (coordinators s) = None ->
        let s' := handleEditCoordinator id updates (Resolved updatedCoordinator) s in
        forget_trace s' = forget_trace s
        /\ trace s' = trace s ++ [Call (coordinators_update id)])
  /\ (forall programData updatedProgram,
        JS.find (fun x => String.eqb (Program.id x) id) (programs s) = None ->
        let s' := handleEditProgram id programData (Resolved updatedProgram) s in
        forget_trace s' = forget_trace s
        /\ trace s' = trace s ++ [Call (programs_update id)])
  /\ (forall updated,
        JS.find (fun x => String.eqb (Coordinator.id x) id) (coordinators s) = None ->
        handleToggleCoordinatorAccess id updated s = s)
  /\ (forall updated,
        JS.find (fun x => String.eqb (Department.id x) id) (departments s) = None ->
        handleToggleDepartment id updated s = s)
  /\ (forall newName updated,
        JS.find (fun x => String.eqb (Department.id x) id) (departments s) = None ->
        handleEditDepartment id newName updated s = s).
Proof.
  repeat apply conj.
  - intros updates u. cbv zeta. unfold handleEditStudent; simpl.
    split; [apply length_map|]. split; [intros i; apply replace_by_id_lookup|].
    intros Hfind. unfold forget_trace; simpl.
    rewrite (replace_by_id_unknown _ _ _ _ Hfind). split; reflexivity.
  - intros updates u Hfind. cbv zeta. unfold handleEditCoordinator, forget_trace; simpl.
    rewrite (replace_by_id_unknown _ _ _ _ Hfind). split; reflexivity.
  - intros pd u Hfind. cbv zeta. unfold handleEditProgram. rewrite Hfind.
    destruct (ProgramData.coordinatorIds pd); unfold forget_trace; simpl;
      rewrite (replace_by_id_unknown _ _ _ _ Hfind); split; reflexivity.
  - intros updated Hfind. unfold handleToggleCoordinatorAccess. by rewrite Hfind.
  - intros updated Hfind. unfold handleToggleDepartment. by rewrite Hfind.
  - intros newName updated Hfind. unfold handleEditDepartment. by rewrite Hfind.
Qed.

Lemma edit_of_unknown_id_witness :
  forget_trace (handleEditProgram "P9" sample_programData
                  (Resolved created_program) loaded_state)
  = forget_trace loaded_state
  /\ handleToggleDepartment "dept-9" unreachable loaded_state = loaded_state.
Proof.
  destruct (edit_of_unknown_id "P9" loaded_state) as (_ & _ & Hprog & _).
  destruct (edit_of_unknown_id "dept-9" loaded_state)
    as (_ & _ & _ & _ & Hdept & _).
  split.
  - apply (Hprog sample_programData created_program). reflexivity.
  - apply Hdept. reflexivity.
Defined.

(** ** The header and the session *)

(** X23. In every state the mounted component can reach, the header is
    given a user exactly when the session is logged in, and the type it
    shows is the role of the session. *)
Theorem header_shows_session_user (acts : list Action) :
  let s := run acts initial_state in
  (is_Some (getUserInfo s) <-> isLoggedIn s = true)
  /\ snd <$> getUserInfo s = session_role s.
Proof.
  intros s. destruct (session_inv_reachable acts) as [Hiff _]. fold s in Hiff.
  unfold getUserInfo, session_role, session.
  destruct (currentUser s) as [u|] eqn:Hu.
  - assert (Hin : isLoggedIn s = true) by (apply Hiff; eauto).
    rewrite Hin. split; [|reflexivity]. split; eauto.
  - destruct (isLoggedIn s) eqn:Hin.
    + destruct (proj1 Hiff eq_refl) as [? [=]].
    + split; [|reflexivity]. split; [intros [? [=]]|discriminate].
Qed.






